(** * VTC usage report: the aggregation pipeline of [report_generator.py]

    A shallow embedding of the data-normalisation and aggregation pipeline
    (schema resolution, timestamp coercion, date filtering, per-account
    counting, report assembly) and of the command-line entry point, followed
    by the properties the specification states about them.

    Conventions of the model:
    - a [DataFrame] is a list of column labels and a list of rows; a row maps
      every label to a cell, a label the row does not carry reading as NaN
      (what [pd.DataFrame(items)] stores for a key missing from an item);
    - the column [createdAt_dt] is the one datetime64[ns, UTC] column of the
      program; it is kept apart from the object columns, typed as an optional
      instant per row, and its label is reserved (never listed in [columns]);
    - a Python string is the byte string of its UTF-8 encoding; [str.strip]
      and [str.lower], which follow the Unicode database, are parameters of
      the development, like the pandas conversions below;
    - [astype(str)] stringifies missing values the way pandas 2 does on an
      object column ("None", "nan");
    - the element-wise pandas conversions whose result depends on parsing or
      on floating point ([pd.to_numeric], [pd.to_datetime]) are parameters of
      the development: every statement holds for any behaviour of theirs. *)

From Stdlib Require Import List String Ascii Bool Arith ZArith QArith Qround Lia.
From Stdlib Require Import Permutation Sorted DecimalString.
Import ListNotations.

Close Scope Q_scope.
Local Open Scope string_scope.
Local Open Scope list_scope.

(* ================================================================== *)
(** * Python strings *)

(** A [str] is held as the bytes of its UTF-8 encoding: equality of strings,
    their order and [str.endswith] on code points are equality, order and
    [endswith] on these bytes. *)
Module PyStr.

(** [str.endswith] *)
Definition endswith (s suffix : string) : bool :=
  let n := String.length s in
  let m := String.length suffix in
  Nat.leb m n && String.eqb (substring (n - m) m s) suffix.

End PyStr.

(** What [str.strip] and [str.lower] do on ASCII text.  On other text they
    follow the Unicode database, and the development takes the two functions
    as parameters (section [Strings]); the ASCII behaviour serves to run the
    model on ASCII samples and to state what the parameters do there. *)
Module AsciiStr.

(** [str.isspace] on the ASCII range: TAB, LF, VT, FF, CR, FS, GS, RS, US
    and the space. *)
Definition is_space (c : ascii) : bool :=
  let n := nat_of_ascii c in
  (Nat.leb 9 n && Nat.leb n 13) || (Nat.leb 28 n && Nat.leb n 32).

Definition lower_ascii (c : ascii) : ascii :=
  let n := nat_of_ascii c in
  if Nat.leb 65 n && Nat.leb n 90 then ascii_of_nat (n + 32) else c.

Fixpoint lower (s : string) : string :=
  match s with
  | EmptyString => EmptyString
  | String c s' => String (lower_ascii c) (lower s')
  end.

Fixpoint lstrip (s : string) : string :=
  match s with
  | EmptyString => EmptyString
  | String c s' => if is_space c then lstrip s' else s
  end.

Fixpoint rstrip (s : string) : string :=
  match s with
  | EmptyString => EmptyString
  | String c s' =>
      match rstrip s' with
      | EmptyString => if is_space c then EmptyString else String c EmptyString
      | t => String c t
      end
  end.

Definition strip (s : string) : string := lstrip (rstrip s).

End AsciiStr.

(* ================================================================== *)
(** * Cells, rows and frames *)

(** A cell of an object column: [None], a float NaN (what a missing key
    becomes), a [str], or a number (a DynamoDB number attribute, or a count). *)
Inductive Value : Type :=
| VNone
| VNaN
| VStr (s : string)
| VNum (z : Z).

(** An instant of a datetime64[ns, UTC] column: nanoseconds since the epoch.
    [None] in an [option Instant] is NaT. *)
Definition Instant : Type := Z.

Record Row : Type := mkRow {
  cell : string -> Value;
  createdAt_dt : option Instant
}.

Record DataFrame : Type := mkDF {
  columns : list string;
  has_createdAt_dt : bool;
  rows : list Row
}.

Definition value_eqb (a b : Value) : bool :=
  match a, b with
  | VNone, VNone => true
  | VNaN, VNaN => true
  | VStr s, VStr t => String.eqb s t
  | VNum x, VNum y => Z.eqb x y
  | _, _ => false
  end.

(** [pd.isna] *)
Definition isna (v : Value) : bool :=
  match v with
  | VNone | VNaN => true
  | _ => false
  end.

(** [str(v)], as [Series.astype(str)] applies it to each cell. *)
Definition astype_str (v : Value) : string :=
  match v with
  | VNone => "None"
  | VNaN => "nan"
  | VStr s => s
  | VNum z => NilZero.string_of_int (Z.to_int z)
  end.

(** A row built from a dict: the first binding of a label wins, an absent
    label reads as NaN. *)
Fixpoint dict_get (d : list (string * Value)) (c : string) : Value :=
  match d with
  | [] => VNaN
  | (k, v) :: d' => if String.eqb c k then v else dict_get d' c
  end.

Definition row_of_dict (d : list (string * Value)) : Row :=
  mkRow (dict_get d) None.

(** [pd.DataFrame(columns=cols)] *)
Definition empty_frame (cols : list string) : DataFrame := mkDF cols false [].

(** [len(df)] *)
Definition df_len (df : DataFrame) : nat := List.length (rows df).

(** [c in df.columns], for a label of an object column. *)
Definition in_columns (df : DataFrame) (c : string) : bool :=
  existsb (String.eqb c) (columns df).

(** [df.empty]: any axis of length 0. *)
Definition df_empty (df : DataFrame) : bool :=
  match rows df with
  | [] => true
  | _ :: _ =>
      match columns df with
      | [] => negb (has_createdAt_dt df)
      | _ :: _ => false
      end
  end.

(** [df[c]]: the cells of column [c], row by row. *)
Definition getitem (df : DataFrame) (c : string) : list Value :=
  map (fun r => cell r c) (rows df).

Definition row_set (c : string) (v : Value) (r : Row) : Row :=
  mkRow (fun k => if String.eqb k c then v else cell r k) (createdAt_dt r).

(** [df[c] = vals]: overwrite column [c], or append it when absent. *)
Definition setitem (df : DataFrame) (c : string) (vals : list Value) : DataFrame :=
  mkDF (if in_columns df c then columns df else columns df ++ [c])
       (has_createdAt_dt df)
       (map (fun rv => row_set c (snd rv) (fst rv)) (combine (rows df) vals)).

(** [df[c] = v] for a scalar [v]. *)
Definition setitem_scalar (df : DataFrame) (c : string) (v : Value) : DataFrame :=
  setitem df c (map (fun _ => v) (rows df)).

(** [df["createdAt_dt"] = coerced] *)
Definition set_createdAt_dt (df : DataFrame) (coerced : list (option Instant)) : DataFrame :=
  mkDF (columns df) true
       (map (fun rt => mkRow (cell (fst rt)) (snd rt)) (combine (rows df) coerced)).

(** [df.rename(columns={old: new})] *)
Definition rename (df : DataFrame) (old new : string) : DataFrame :=
  mkDF (map (fun c => if String.eqb c old then new else c) (columns df))
       (has_createdAt_dt df)
       (map (fun r =>
               mkRow (fun k => if String.eqb k new then cell r old
                               else if String.eqb k old then VNaN
                               else cell r k)
                     (createdAt_dt r))
            (rows df)).

Fixpoint select_mask {A : Type} (l : list A) (mask : list bool) : list A :=
  match l, mask with
  | x :: l', b :: mask' => if b then x :: select_mask l' mask' else select_mask l' mask'
  | _, _ => []
  end.

(** [df.loc[mask]] and [df[mask]] for a boolean mask aligned with the rows. *)
Definition df_loc (df : DataFrame) (mask : list bool) : DataFrame :=
  mkDF (columns df) (has_createdAt_dt df) (select_mask (rows df) mask).

(** [df.iloc[0:0]] *)
Definition iloc_none (df : DataFrame) : DataFrame :=
  mkDF (columns df) (has_createdAt_dt df) [].

(** [df[cols]] for a list of object-column labels: the other columns,
    [createdAt_dt] included, are dropped. *)
Definition select_columns (df : DataFrame) (cols : list string) : DataFrame :=
  mkDF cols false
       (map (fun r =>
               mkRow (fun k => if existsb (String.eqb k) cols then cell r k else VNaN) None)
            (rows df)).

(* ================================================================== *)
(** * Configuration *)

Definition METRICS_USAGE_TYPE_MAP : list (string * list string) :=
  [ ("Logins", []);
    ("Uploads", []);
    ("Generated Transcripts", ["transcript"]);
    ("Regenerated Transcripts", ["regenerate transcript"]);
    ("Initial Summaries", ["initial summary"]);
    ("Regenerated Summaries", ["regenerate summary"]);
    ("Regenerated Notes", ["regenerate note"]) ].

Definition ACCOUNT_ALIASES : list string :=
  [ "account"; "email"; "user"; "user_id"; "userId";
    "user_email"; "userEmail"; "emailAddress"; "user_email_address" ].

Definition USERNAME_ALIASES : list string :=
  [ "username"; "user_name"; "name"; "displayName" ].

Definition USAGE_TYPE_ALIASES : list string :=
  [ "usage_type"; "usageType"; "type"; "action"; "event"; "event_type" ].

Definition CREATED_AT_ALIASES : list string :=
  [ "createdAt"; "created_at"; "timestamp"; "createdOn";
    "created_at_ms"; "created_at_iso" ].

(* ================================================================== *)
(** * Schema resolver *)

Definition _find_first_column (df : DataFrame) (candidates : list string) : option string :=
  find (in_columns df) candidates.

(* ================================================================== *)
(** * Exceptions *)

Inductive Exn : Type :=
| TypeError
| ValueError
| RuntimeError
| ClientError.

(** The outcome of a call that may raise. *)
Definition Result (A : Type) : Type := (Exn + A)%type.

Definition ret {A : Type} (x : A) : Result A := inr x.
Definition raise {A : Type} (e : Exn) : Result A := inl e.

Definition bind {A B : Type} (m : Result A) (k : A -> Result B) : Result B :=
  match m with
  | inl e => inl e
  | inr x => k x
  end.

Notation "x <- m ;; k" := (bind m (fun x => k))
  (at level 61, m at next level, right associativity).

(* ================================================================== *)
(** * Timestamps *)

(** [pd.Timedelta(days=d)] and [pd.Timedelta(seconds=s)], in nanoseconds. *)
Definition NS_PER_SECOND : Z := 1000000000.
Definition Timedelta_seconds (s : Z) : Z := (s * NS_PER_SECOND)%Z.
Definition Timedelta_days (d : Z) : Z := (d * 86400 * NS_PER_SECOND)%Z.

(** [Timestamp.normalize]: midnight of the same UTC day. *)
Definition normalize (t : Instant) : Instant := (t - t mod Timedelta_days 1)%Z.

(** The [unit] argument of [pd.to_datetime]. *)
Inductive TimeUnit : Type := unit_s | unit_ms.

(** [series >= ts] and [series <= ts] on a datetime column: NaT compares false. *)
Definition ts_ge (t : option Instant) (bound : Instant) : bool :=
  match t with
  | Some x => (bound <=? x)%Z
  | None => false
  end.

Definition ts_le (t : option Instant) (bound : Instant) : bool :=
  match t with
  | Some x => (x <=? bound)%Z
  | None => false
  end.

Definition is_nat_instant (t : option Instant) : bool :=
  match t with
  | Some _ => false
  | None => true
  end.

(** A float64 series holding NaN where the conversion failed. *)
Definition count_notna (s : list (option Q)) : nat :=
  List.length (filter (fun x => match x with Some _ => true | None => false end) s).

(** [s.notna().mean() > 0.5]: the share of non-null entries exceeds one half. *)
Definition notna_mean_gt_half (s : list (option Q)) : bool :=
  Nat.ltb (List.length s) (2 * count_notna s).

(** [s.max()], skipping NaN; [None] when every entry is NaN. *)
Fixpoint series_max (s : list (option Q)) : option Q :=
  match s with
  | [] => None
  | x :: s' =>
      match x, series_max s' with
      | Some q, Some m => Some (if Qle_bool q m then m else q)
      | Some q, None => Some q
      | None, m => m
      end
  end.

(** [m > 1e12]; a NaN maximum compares false. *)
Definition gt_1e12 (m : option Q) : bool :=
  match m with
  | Some q => negb (Qle_bool q (inject_Z 1000000000000))
  | None => false
  end.

(** Truthiness of an optional string: [None] and the empty string are falsy. *)
Definition truthy (s : option string) : option string :=
  match s with
  | Some EmptyString => None
  | other => other
  end.

Section Pandas.

(** [pd.to_numeric(_, errors='coerce')] on one cell; [None] is NaN. *)
Variable to_numeric : Value -> option Q.

(** [pd.to_datetime(_, unit=u, utc=True, errors='coerce')] on one number;
    [None] is NaT. *)
Variable to_datetime_unit : TimeUnit -> Q -> option Instant.

(** [pd.to_datetime(_, utc=True, errors='coerce')] on one cell; [None] is
    NaT.  Without [errors='coerce'] the same [None] is a [ValueError]. *)
Variable to_datetime : Value -> option Instant.

Definition to_datetime_numeric (u : TimeUnit) (x : option Q) : option Instant :=
  match x with
  | Some q => to_datetime_unit u q
  | None => None
  end.

Definition coerce_created_at (df : DataFrame) : DataFrame :=
  if df_empty df then df
  else
    match _find_first_column df CREATED_AT_ALIASES with
    | None => df
    | Some created_col =>
        let numeric_timestamps := map to_numeric (getitem df created_col) in
        let coerced :=
          if notna_mean_gt_half numeric_timestamps then
            if gt_1e12 (series_max numeric_timestamps)
            then map (to_datetime_numeric unit_ms) numeric_timestamps
            else map (to_datetime_numeric unit_s) numeric_timestamps
          else map to_datetime (getitem df created_col) in
        set_createdAt_dt df coerced
    end.

Definition filter_by_date (df : DataFrame) (start_dt end_dt : Instant) : DataFrame :=
  if df_empty df then df
  else
    let df := if negb (has_createdAt_dt df) then coerce_created_at df else df in
    if negb (has_createdAt_dt df)
       || forallb is_nat_instant (map createdAt_dt (rows df))
    then iloc_none df
    else
      let mask := map (fun t => ts_ge t start_dt && ts_le t end_dt)
                      (map createdAt_dt (rows df)) in
      df_loc df mask.

(** The frame whose instant column the date filter reads: the frame itself
    if it has the column, its coercion otherwise. *)
Definition with_instants (df : DataFrame) : DataFrame :=
  if has_createdAt_dt df then df else coerce_created_at df.

(** [pd.to_datetime(s, utc=True)] on a scalar string that is a date: the
    instant the parser reads, [ValueError] when it reads none.  The model
    covers these runs; it leaves out the strings that name the null instant
    (such as "NaT", which parse to it without an error) and the instants at
    the edge of the [Timestamp] range, where the arithmetic of
    [resolve_date_range] overflows. *)
Definition to_datetime_scalar (s : string) : Result Instant :=
  match to_datetime (VStr s) with
  | Some t => ret t
  | None => raise ValueError
  end.

(** [now] is the reading of [datetime.now(UTC)]. *)
Definition resolve_date_range (now : Instant) (start_date_str end_date_str : option string)
  : Result (Instant * Instant) :=
  end_dt <-
    match truthy end_date_str with
    | Some s =>
        d <- to_datetime_scalar s ;;
        ret (d + Timedelta_days 1 - Timedelta_seconds 1)%Z
    | None => ret (normalize now + Timedelta_days 1 - Timedelta_seconds 1)%Z
    end ;;
  start_dt <-
    match truthy start_date_str with
    | Some s => to_datetime_scalar s
    | None => ret (normalize (end_dt - Timedelta_days 29)%Z)
    end ;;
  ret (start_dt, end_dt).

End Pandas.

(* ================================================================== *)
(** * Ordering of cells and stable sorting *)

(** The order [sort_values] and [groupby] put on the cells of an object
    column: numbers, then strings, nulls last. *)
Definition value_rank (v : Value) : nat :=
  match v with
  | VNum _ => 0
  | VStr _ => 1
  | VNone | VNaN => 2
  end.

Definition value_compare (a b : Value) : comparison :=
  match a, b with
  | VNum x, VNum y => Z.compare x y
  | VStr s, VStr t => String.compare s t
  | _, _ => Nat.compare (value_rank a) (value_rank b)
  end.

Definition value_leb (a b : Value) : bool :=
  match value_compare a b with
  | Gt => false
  | _ => true
  end.

(** Rows compared on the columns [by], the first column being the primary key. *)
Fixpoint row_compare (by_ : list string) (a b : Row) : comparison :=
  match by_ with
  | [] => Eq
  | c :: by' =>
      match value_compare (cell a c) (cell b c) with
      | Eq => row_compare by' a b
      | o => o
      end
  end.

Definition row_leb (by_ : list string) (a b : Row) : bool :=
  match row_compare by_ a b with
  | Gt => false
  | _ => true
  end.

Section StableSort.

Context {A : Type} (leb : A -> A -> bool).

(** [x] precedes the elements it is not greater than: it came first. *)
Fixpoint insert_sorted (x : A) (l : list A) : list A :=
  match l with
  | [] => [x]
  | y :: l' => if leb x y then x :: l else y :: insert_sorted x l'
  end.

Fixpoint stable_sort (l : list A) : list A :=
  match l with
  | [] => []
  | x :: l' => insert_sorted x (stable_sort l')
  end.

End StableSort.

(** [df.sort_values(by=by_, kind="stable", na_position="last").reset_index(drop=True)] *)
Definition sort_values (df : DataFrame) (by_ : list string) : DataFrame :=
  mkDF (columns df) (has_createdAt_dt df) (stable_sort (row_leb by_) (rows df)).

(* ================================================================== *)
(** * Per-account aggregator *)

Section Strings.

(** [str.strip] and [str.lower], as [Series.str.strip()] and
    [Series.str.lower()] apply them to each cell: every statement of the
    section holds for any behaviour of theirs. *)
Variable str_strip : string -> string.
Variable str_lower : string -> string.

(** [Series.astype(str).str.strip().str.lower()] on one cell. *)
Definition normalize_account (v : Value) : string :=
  str_lower (str_strip (astype_str v)).

(** [Series.isin(values)] on one cell, for a list of strings. *)
Definition isin (values : list string) (v : Value) : bool :=
  match v with
  | VStr s => existsb (String.eqb s) values
  | _ => false
  end.

(** One more occurrence of the key [k] in a tally. *)
Fixpoint tally (k : Value) (t : list (Value * nat)) : list (Value * nat) :=
  match t with
  | [] => [(k, 1)]
  | (k', n) :: t' =>
      if value_eqb k k' then (k', S n) :: t' else (k', n) :: tally k t'
  end.

Definition value_counts (keys : list Value) : list (Value * nat) :=
  fold_right tally [] keys.

(** [df.groupby(key).size().reset_index(name=name)]: one row per distinct
    non-null key, in key order, with the size of its group. *)
Definition groupby_size (df : DataFrame) (key name : string) : DataFrame :=
  let keys := filter (fun v => negb (isna v)) (getitem df key) in
  let groups := stable_sort (fun a b => value_leb (fst a) (fst b)) (value_counts keys) in
  mkDF [key; name] false
       (map (fun g => row_of_dict [(key, fst g); (name, VNum (Z.of_nat (snd g)))]) groups).

Definition is_nil {A : Type} (l : list A) : bool :=
  match l with
  | [] => true
  | _ :: _ => false
  end.

Definition count_usage_by_account (usage_df : DataFrame) (usage_types : list string)
  : DataFrame :=
  if df_empty usage_df || is_nil usage_types then empty_frame ["account"; "count"]
  else
    match _find_first_column usage_df ACCOUNT_ALIASES,
          _find_first_column usage_df USAGE_TYPE_ALIASES with
    | Some account_col, Some usage_type_col =>
        let df_norm :=
          setitem usage_df account_col
                  (map (fun v => VStr (normalize_account v)) (getitem usage_df account_col)) in
        let subset := df_loc df_norm (map (isin usage_types) (getitem df_norm usage_type_col)) in
        let grouped := groupby_size subset account_col "count" in
        rename grouped account_col "account"
    | _, _ => empty_frame ["account"; "count"]
    end.

Definition count_askai_by_account (askai_df : DataFrame) : DataFrame :=
  if df_empty askai_df then empty_frame ["account"; "count"]
  else
    match _find_first_column askai_df ACCOUNT_ALIASES with
    | Some account_col =>
        let df_norm :=
          setitem askai_df account_col
                  (map (fun v => VStr (normalize_account v)) (getitem askai_df account_col)) in
        let grouped := groupby_size df_norm account_col "count" in
        rename grouped account_col "account"
    | None => empty_frame ["account"; "count"]
    end.

(* ================================================================== *)
(** * Report assembler *)

(** [left.merge(right, on=on, how="left")].  The columns of [right] other than
    the key are appended; a left row is repeated once per matching right row
    and kept once, with NaN in the appended columns, when nothing matches.
    Labels shared by both sides besides the key (pandas would suffix them) do
    not occur in this program. *)
Definition merge_left (left right : DataFrame) (on : string) : DataFrame :=
  let added := filter (fun c => negb (String.eqb c on)) (columns right) in
  let join (l : Row) : list Row :=
    match filter (fun r => value_eqb (cell r on) (cell l on)) (rows right) with
    | [] =>
        [mkRow (fun k => if existsb (String.eqb k) added then VNaN else cell l k)
               (createdAt_dt l)]
    | matches =>
        map (fun r =>
               mkRow (fun k => if existsb (String.eqb k) added then cell r k else cell l k)
                     (createdAt_dt l))
            matches
    end in
  mkDF (columns left ++ added) (has_createdAt_dt left) (flat_map join (rows left)).

(** [Series.str.endswith(suffix, na=False)] on one cell. *)
Definition str_endswith (suffix : string) (v : Value) : bool :=
  match v with
  | VStr s => PyStr.endswith s suffix
  | _ => false
  end.

(** [Series.fillna(fill)] on one cell. *)
Definition fillna (fill : Value) (v : Value) : Value :=
  if isna v then fill else v.

(** [Series.astype(int)] on one cell of a count column: the whole number it
    holds is kept.  No other cell reaches this cast ([metric_cells_counts]). *)
Definition astype_int (v : Value) : Value :=
  match v with
  | VNum z => VNum z
  | other => other
  end.

Definition REPORT_COLUMNS : list string :=
  [ "Account"; "Username"; "Logins"; "Uploads"; "Generated Transcripts";
    "Regenerated Transcripts"; "Initial Summaries"; "Regenerated Summaries";
    "Regenerated Notes"; "AskAI Questions" ].

Definition columns_to_fill : list string :=
  [ "Logins"; "Uploads"; "Generated Transcripts"; "Regenerated Transcripts";
    "Initial Summaries"; "Regenerated Summaries"; "Regenerated Notes";
    "AskAI Questions" ].

(** Lines 213-226: the roster reduced to its normalised [Account] and its
    [Username], internal accounts removed. *)
Definition report_base (accounts_df : DataFrame) : DataFrame :=
  let base := accounts_df in
  let acct_col := _find_first_column base ACCOUNT_ALIASES in
  let user_col := _find_first_column base USERNAME_ALIASES in
  let base :=
    match acct_col with
    | Some c => if negb (String.eqb c "account") then rename base c "account" else base
    | None => base
    end in
  let base :=
    match user_col with
    | Some c => if negb (String.eqb c "username") then rename base c "username" else base
    | None => base
    end in
  let base := if negb (in_columns base "account")
              then setitem_scalar base "account" VNone else base in
  let base := if negb (in_columns base "username")
              then setitem_scalar base "username" VNone else base in
  let base := setitem base "account"
                      (map (fun v => VStr (normalize_account v)) (getitem base "account")) in
  let base := df_loc base (map (fun v => negb (str_endswith "@thinkcol.com" v))
                               (getitem base "account")) in
  rename (rename (select_columns base ["account"; "username"]) "account" "Account")
         "username" "Username".

(** Lines 227-232: the per-metric counts and the ask-AI counts joined onto
    the report. *)
Definition merge_metrics (report usage_df askai_df : DataFrame) : DataFrame :=
  let report :=
    fold_left
      (fun report metric =>
         let metric_name := fst metric in
         let usage_types := snd metric in
         let grouped := count_usage_by_account usage_df usage_types in
         let grouped := rename (rename grouped "account" "Account") "count" metric_name in
         merge_left report grouped "Account")
      METRICS_USAGE_TYPE_MAP report in
  let askai_grouped :=
    rename (rename (count_askai_by_account askai_df) "account" "Account")
           "count" "AskAI Questions" in
  merge_left report askai_grouped "Account".

(** Lines 233-240: every metric column present, null-free and integral. *)
Definition fill_column (report : DataFrame) (col : string) : DataFrame :=
  let report := if negb (in_columns report col)
                then setitem_scalar report col (VNum 0) else report in
  setitem report col (map (fun v => astype_int (fillna (VNum 0) v)) (getitem report col)).

Definition fill_metrics (report : DataFrame) : DataFrame :=
  fold_left fill_column columns_to_fill report.

Definition build_report_dataframe (accounts_df usage_df askai_df : DataFrame) : DataFrame :=
  if df_empty accounts_df then empty_frame REPORT_COLUMNS
  else
    let report := report_base accounts_df in
    let report := merge_metrics report usage_df askai_df in
    let report := fill_metrics report in
    let report :=
      if in_columns report "Username"
      then sort_values report ["Username"; "Account"]
      else sort_values report ["Account"] in
    select_columns report REPORT_COLUMNS.

(** The cells of a frame, row by row, in column order. *)
Definition to_records (df : DataFrame) : list (list Value) :=
  map (fun r => map (cell r) (columns df)) (rows df).

(** [pd.DataFrame(items)] for items whose keys are among [cols]. *)
Definition DataFrame_of_items (cols : list string) (items : list (list (string * Value)))
  : DataFrame :=
  mkDF cols false (map row_of_dict items).

(* ================================================================== *)
(** * Exporters and command-line entry point *)

(** An argument of a Python call. *)
Inductive PyObject : Type :=
| PyFrame (df : DataFrame)
| PyString (s : string)
| PyTimestamp (t : Instant).

(** A call [f(args)] of a function declared [def f(p1, ..., pn)] with
    positional arguments only: the arguments are bound to the parameters one
    by one, and a call with too many or too few of them raises [TypeError]
    before the body runs. *)
Definition call {A : Type} (params : list string) (body : list PyObject -> Result A)
  (args : list PyObject) : Result A :=
  if Nat.eqb (List.length args) (List.length params) then body args else raise TypeError.

(** Standard output followed by the outcome of the run. *)
Definition IO (A : Type) : Type := list string -> list string * Result A.

Definition io_ret {A : Type} (x : A) : IO A := fun out => (out, inr x).

Definition io_bind {A B : Type} (m : IO A) (k : A -> IO B) : IO B :=
  fun out =>
    match m out with
    | (out', inl e) => (out', inl e)
    | (out', inr x) => k x out'
    end.

Definition lift {A : Type} (r : Result A) : IO A := fun out => (out, r).

Definition print (line : string) : IO unit := fun out => (out ++ [line], inr tt).

Notation "x <~ m ;; k" := (io_bind m (fun x => k))
  (at level 61, m at next level, right associativity).
Notation "m ;;; k" := (io_bind m (fun _ => k))
  (at level 61, right associativity).

Inductive Format : Type := excel | docx.

(** The namespace [parse_args] returns. *)
Record Namespace : Type := mkNamespace {
  start_date : option string;
  end_date : option string;
  format : Format;
  output : option string;
  debug : bool;
  no_date_filter : bool
}.

Definition TABLE_ACCOUNTS : string := "oak-account-vtc".
Definition TABLE_USAGE : string := "oak-usage-log-vtc".
Definition TABLE_ASKAI : string := "oak-ask-ai-vtc".

(** The prefixes of the two success messages. *)
Definition EXCEL_WRITTEN : string := "✅ Excel report written to ".
Definition DOCX_WRITTEN : string := "✅ DOCX report written to ".

Section Main.

Variable to_numeric : Value -> option Q.
Variable to_datetime_unit : TimeUnit -> Q -> option Instant.
Variable to_datetime : Value -> option Instant.

(** The process environment after [load_dotenv()]. *)
Variable getenv : string -> option string.

(** The paginated DynamoDB scan of one table; its outcome is an input. *)
Variable get_data_from_dynamodb : string -> string -> string -> string -> Result DataFrame.

(** The reading of [datetime.now(UTC)] in [resolve_date_range] and the one
    in [export_docx], [Timestamp.strftime('%Y%m%d')], [str(Timestamp)],
    [str(int)] and the rendering of [value_counts()]. *)
Variable now : Instant.
Variable generated_at : Instant.
Variable strftime_Ymd : Instant -> string.
Variable str_timestamp : Instant -> string.
Variable str_int : nat -> string.
Variable str_value_counts : DataFrame -> string -> string.

(** The bodies of the exporters (pandas with xlsxwriter, python-docx, which
    is imported inside [export_docx]): they return the bytes of the document
    or raise. *)
Variable xlsx_bytes : DataFrame -> Result (list Byte.byte).
Variable docx_bytes : DataFrame -> Instant -> Instant -> Instant -> Result (list Byte.byte).

(** [def export_excel(df)] *)
Definition export_excel : list PyObject -> Result (list Byte.byte) :=
  call ["df"]
       (fun args =>
          match args with
          | [PyFrame df] => xlsx_bytes df
          | _ => raise TypeError
          end).

(** [def export_docx(df, start_dt, end_dt)] *)
Definition export_docx : list PyObject -> Result (list Byte.byte) :=
  call ["df"; "start_dt"; "end_dt"]
       (fun args =>
          match args with
          | [PyFrame df; PyTimestamp start_dt; PyTimestamp end_dt] =>
              docx_bytes df start_dt end_dt generated_at
          | _ => raise TypeError
          end).

Definition load_env_credentials : Result (string * string * string) :=
  match truthy (getenv "VTC_DYNAMODB_ACCESS_KEY_ID"),
        truthy (getenv "VTC_DYNAMODB_SECRET_ACCESS_KEY"),
        truthy (getenv "VTC_DYNAMODB_REGION") with
  | Some access_key, Some secret_key, Some region => ret (access_key, secret_key, region)
  | _, _, _ => raise RuntimeError
  end.

Definition debug_info (start_dt end_dt : Instant)
  (accounts_df usage_df_all usage_df askai_df_all askai_df : DataFrame) : IO unit :=
  print "--- DEBUG INFO ---" ;;;
  print ("Date Range: " ++ str_timestamp start_dt ++ " to " ++ str_timestamp end_dt)%string ;;;
  print ("Accounts Fetched: " ++ str_int (df_len accounts_df))%string ;;;
  print ("Total Usage Rows Fetched: " ++ str_int (df_len usage_df_all))%string ;;;
  print ("Usage Rows After Filtering: " ++ str_int (df_len usage_df))%string ;;;
  print ("Total AskAI Rows Fetched: " ++ str_int (df_len askai_df_all))%string ;;;
  print ("AskAI Rows After Filtering: " ++ str_int (df_len askai_df))%string ;;;
  (if negb (df_empty usage_df) then
     match _find_first_column usage_df USAGE_TYPE_ALIASES with
     | Some ut_col =>
         print (String "010"%char "Value counts of '" ++ ut_col
               ++ "' in FILTERED data:")%string ;;;
         print (str_value_counts usage_df ut_col)
     | None => io_ret tt
     end
   else io_ret tt) ;;;
  print "--- END DEBUG INFO ---".

(** Lines 314-351 of [main]: everything up to the assembled report. *)
Definition main_prepare (args : Namespace) : IO (DataFrame * string * Instant * Instant) :=
  range <~ lift (resolve_date_range to_datetime now (start_date args) (end_date args)) ;;
  let start_dt := fst range in
  let end_dt := snd range in
  let default_name :=
    match format args with
    | excel =>
        ("vtc_report_" ++ strftime_Ymd start_dt ++ "_" ++ strftime_Ymd end_dt ++ ".xlsx")%string
    | docx =>
        ("vtc_report_" ++ strftime_Ymd start_dt ++ "_" ++ strftime_Ymd end_dt ++ ".docx")%string
    end in
  let output_path :=
    match truthy (output args) with
    | Some path => path
    | None => default_name
    end in
  creds <~ lift load_env_credentials ;;
  let '(access_key, secret_key, region) := creds in
  accounts_df <~ lift (get_data_from_dynamodb TABLE_ACCOUNTS access_key secret_key region) ;;
  usage_df_all <~ lift (get_data_from_dynamodb TABLE_USAGE access_key secret_key region) ;;
  askai_df_all <~ lift (get_data_from_dynamodb TABLE_ASKAI access_key secret_key region) ;;
  let usage_df :=
    if no_date_filter args
    then coerce_created_at to_numeric to_datetime_unit to_datetime usage_df_all
    else filter_by_date to_numeric to_datetime_unit to_datetime usage_df_all start_dt end_dt in
  let askai_df :=
    if no_date_filter args
    then coerce_created_at to_numeric to_datetime_unit to_datetime askai_df_all
    else filter_by_date to_numeric to_datetime_unit to_datetime askai_df_all start_dt end_dt in
  (if debug args
   then debug_info start_dt end_dt accounts_df usage_df_all usage_df askai_df_all askai_df
   else io_ret tt) ;;;
  let report_df := build_report_dataframe accounts_df usage_df askai_df in
  io_ret (report_df, output_path, start_dt, end_dt).

(** Lines 353-358 of [main]: the export call and the success message. *)
Definition main_export (fmt : Format) (report_df : DataFrame) (output_path : string)
  (start_dt end_dt : Instant) : IO unit :=
  match fmt with
  | excel =>
      _ <~ lift (export_excel [PyFrame report_df; PyString output_path]) ;;
      print (EXCEL_WRITTEN ++ output_path)%string
  | docx =>
      _ <~ lift (export_docx [PyFrame report_df; PyString output_path;
                              PyTimestamp start_dt; PyTimestamp end_dt]) ;;
      print (DOCX_WRITTEN ++ output_path)%string
  end.

Definition main (args : Namespace) : IO unit :=
  prepared <~ main_prepare args ;;
  let '(report_df, output_path, start_dt, end_dt) := prepared in
  main_export (format args) report_df output_path start_dt end_dt.

(** The calls [app.py] makes: [export_excel(report_df)] and
    [export_docx(report_df, start_dt, end_dt)]. *)
Definition app_export (fmt : Format) (report_df : DataFrame) (start_dt end_dt : Instant)
  : Result (list Byte.byte) :=
  match fmt with
  | excel => export_excel [PyFrame report_df]
  | docx => export_docx [PyFrame report_df; PyTimestamp start_dt; PyTimestamp end_dt]
  end.

End Main.

(* ================================================================== *)
(** * Vocabulary of the specification *)

(** The internal domain suffix of the roster exclusion. *)
Definition INTERNAL_SUFFIX : string := "@thinkcol.com".

(** The raw account identity and the username of a roster record: the cell
    under the first alias the roster carries, null when it carries none. *)
Definition roster_account (accounts_df : DataFrame) (r : Row) : Value :=
  match _find_first_column accounts_df ACCOUNT_ALIASES with
  | Some c => cell r c
  | None => VNone
  end.

Definition roster_username (accounts_df : DataFrame) (r : Row) : Value :=
  match _find_first_column accounts_df USERNAME_ALIASES with
  | Some c => cell r c
  | None => VNone
  end.

(** The normalised (trimmed, lower-cased) identity of a roster record. *)
Definition roster_identity (accounts_df : DataFrame) (r : Row) : string :=
  normalize_account (roster_account accounts_df r).

(** The roster records that survive the exclusion, in roster order.  An
    empty roster ([DataFrame.empty]) holds no record. *)
Definition surviving_roster (accounts_df : DataFrame) : list Row :=
  if df_empty accounts_df then []
  else filter (fun r => negb (PyStr.endswith (roster_identity accounts_df r) INTERNAL_SUFFIX))
              (rows accounts_df).

(** The usage events of account [a] whose usage type is among [usage_types]. *)
Definition usage_events (usage_df : DataFrame) (usage_types : list string) (a : string)
  : list Row :=
  match _find_first_column usage_df ACCOUNT_ALIASES,
        _find_first_column usage_df USAGE_TYPE_ALIASES with
  | Some account_col, Some usage_type_col =>
      filter (fun e => String.eqb (normalize_account (cell e account_col)) a
                       && isin usage_types (cell e usage_type_col))
             (rows usage_df)
  | _, _ => []
  end.

(** The ask-AI events of account [a]. *)
Definition askai_events (askai_df : DataFrame) (a : string) : list Row :=
  match _find_first_column askai_df ACCOUNT_ALIASES with
  | Some account_col =>
      filter (fun e => String.eqb (normalize_account (cell e account_col)) a) (rows askai_df)
  | None => []
  end.

Fixpoint assoc {B : Type} (k : string) (d : list (string * B)) : option B :=
  match d with
  | [] => None
  | (k', v) :: d' => if String.eqb k k' then Some v else assoc k d'
  end.

(** The events that count towards the metric column [col] for account [a]. *)
Definition metric_events (usage_df askai_df : DataFrame) (col : string) (a : string)
  : list Row :=
  match assoc col METRICS_USAGE_TYPE_MAP with
  | Some usage_types => usage_events usage_df usage_types a
  | None => if String.eqb col "AskAI Questions" then askai_events askai_df a else []
  end.

(** The report row of a roster record: identity, username, then the number
    of matching events under each metric column. *)
Definition report_record (accounts_df usage_df askai_df : DataFrame) (r : Row) : list Value :=
  VStr (roster_identity accounts_df r)
  :: roster_username accounts_df r
  :: map (fun col =>
            VNum (Z.of_nat (List.length
                              (metric_events usage_df askai_df col
                                             (roster_identity accounts_df r)))))
         columns_to_fill.

(** The presentation order on report rows [Account; Username; ...]: username
    first, account to break ties. *)
Definition record_account (rec : list Value) : Value := nth 0 rec VNaN.
Definition record_username (rec : list Value) : Value := nth 1 rec VNaN.

Definition record_leb (a b : list Value) : bool :=
  match value_compare (record_username a) (record_username b) with
  | Lt => true
  | Eq => value_leb (record_account a) (record_account b)
  | Gt => false
  end.

(** Two report rows with the same sort key. *)
Definition same_key (k : list Value) (rec : list Value) : bool :=
  match value_compare (record_username k) (record_username rec),
        value_compare (record_account k) (record_account rec) with
  | Eq, Eq => true
  | _, _ => false
  end.

(** The (account, count) pairs of a count table. *)
Definition count_pairs (g : DataFrame) : list (Value * Value) :=
  map (fun r => (cell r "account", cell r "count")) (rows g).

(** [g] is the count table of [f]: one row per account with a positive
    count, no account twice. *)
Definition counts_table (g : DataFrame) (f : string -> nat) : Prop :=
  columns g = ["account"; "count"]
  /\ exists groups : list (Value * nat),
      count_pairs g = map (fun kn => (fst kn, VNum (Z.of_nat (snd kn)))) groups
      /\ NoDup (map fst groups)
      /\ forall v n, In (v, n) groups <-> exists a, v = VStr a /\ n = f a /\ 0 < n.

(** The cell a left join leaves under a count column: the count of the
    account when its table has a row for it, NaN otherwise. *)
Definition count_cell (n : nat) : Value :=
  match n with
  | O => VNaN
  | S _ => VNum (Z.of_nat n)
  end.

(** The report under assembly, against the surviving roster records [S]: the
    columns merged so far are [done], and the row of each record carries its
    identity, its username and, under each merged column, its count cell. *)
Definition report_inv (ident : Row -> string) (uname : Row -> Value)
  (count : string -> string -> nat) (done : list string) (S : list Row)
  (report : DataFrame) : Prop :=
  columns report = "Account" :: "Username" :: done
  /\ Forall2 (fun p r =>
                cell r "Account" = VStr (ident p)
                /\ cell r "Username" = uname p
                /\ forall c, In c done -> cell r c = count_cell (count c (ident p)))
             S (rows report).

(** What lines 233-240 do to one row. *)
Definition fill_row (cols : list string) (r : Row) : Row :=
  fold_left (fun r c => row_set c (astype_int (fillna (VNum 0) (cell r c))) r) cols r.

(** The number of events that count towards column [col] for account [a]. *)
Definition metric_count (usage_df askai_df : DataFrame) (col : string) (a : string) : nat :=
  List.length (metric_events usage_df askai_df col a).

(** Two frames with the same contents: the same columns and, row by row,
    the same cells and the same instant. *)
Definition row_equiv (r r' : Row) : Prop :=
  (forall k, cell r k = cell r' k) /\ createdAt_dt r = createdAt_dt r'.

Definition frame_equiv (df df' : DataFrame) : Prop :=
  columns df = columns df'
  /\ has_createdAt_dt df = has_createdAt_dt df'
  /\ Forall2 row_equiv (rows df) (rows df').

(** The number of occurrences of a key. *)
Definition occurrences (v : Value) (keys : list Value) : nat :=
  List.length (filter (value_eqb v) keys).

(** The normalised instant of a row of [df]: null when [df] has no instant
    column. *)
Definition instant_of (df : DataFrame) (r : Row) : option Instant :=
  if has_createdAt_dt df then createdAt_dt r else None.

(** [start <= t <= end], false on a null instant. *)
Definition within (start_dt end_dt : Instant) (t : option Instant) : bool :=
  match t with
  | Some x => ((start_dt <=? x) && (x <=? end_dt))%Z
  | None => false
  end.


(** Sample behaviours of the pandas conversions, used to run the model:
    numbers convert to themselves, epochs are scaled to nanoseconds, and the
    date parser knows two dates. *)
Definition sample_to_numeric (v : Value) : option Q :=
  match v with
  | VNum z => Some (inject_Z z)
  | _ => None
  end.

Definition sample_to_datetime_unit (u : TimeUnit) (q : Q) : option Instant :=
  match u with
  | unit_s => Some (Qfloor (q * inject_Z 1000000000))
  | unit_ms => Some (Qfloor (q * inject_Z 1000000))
  end.

Definition sample_to_datetime (v : Value) : option Instant :=
  match v with
  | VStr s =>
      if String.eqb s "2023-11-14" then Some 1699920000000000000%Z
      else if String.eqb s "2023-11-15" then Some 1700006400000000000%Z
      else None
  | _ => None
  end.

Definition sample_roster : DataFrame :=
  DataFrame_of_items ["email"; "name"]
    [ [("email", VStr "zed@x.com"); ("name", VStr "Zed")];
      [("email", VStr " A@X.com "); ("name", VStr "Alice")];
      [("email", VStr "Admin@ThinkCol.com"); ("name", VStr "Admin")];
      [("email", VStr "b@x.com"); ("name", VNaN)] ].

Definition sample_usage : DataFrame :=
  DataFrame_of_items ["user"; "usage_type"; "created_at"]
    [ [("user", VStr "A@x.com"); ("usage_type", VStr "transcript");
       ("created_at", VNum 1700000000)];
      [("user", VStr "a@x.com "); ("usage_type", VStr "transcript");
       ("created_at", VNum 1700000100)];
      [("user", VStr "admin@thinkcol.com"); ("usage_type", VStr "transcript");
       ("created_at", VNum 1700000200)];
      [("user", VStr "ghost@x.com"); ("usage_type", VStr "regenerate note");
       ("created_at", VStr "yesterday")];
      [("user", VStr "zed@x.com"); ("usage_type", VStr "regenerate note");
       ("created_at", VNum 1700006399)] ].

Definition sample_askai : DataFrame :=
  DataFrame_of_items ["account"]
    [ [("account", VStr "b@x.com")]; [("account", VStr "B@x.com")] ].

Definition sample_getenv (name : string) : option string := Some "secret".

Definition sample_scan (table key secret region : string) : Result DataFrame :=
  if String.eqb table TABLE_ACCOUNTS then ret sample_roster
  else if String.eqb table TABLE_USAGE then ret sample_usage
  else ret sample_askai.

(** The sample roster with the keys of its items in another order. *)
Definition sample_roster_reordered : DataFrame :=
  DataFrame_of_items ["email"; "name"]
    [ [("name", VStr "Zed"); ("email", VStr "zed@x.com")];
      [("name", VStr "Alice"); ("email", VStr " A@X.com ")];
      [("name", VStr "Admin"); ("email", VStr "Admin@ThinkCol.com")];
      [("name", VNaN); ("email", VStr "b@x.com")] ].

(* ================================================================== *)
(** * Further vocabulary *)

(** A string without ASCII whitespace. *)
Fixpoint no_space (s : string) : bool :=
  match s with
  | EmptyString => true
  | String c s' => negb (AsciiStr.is_space c) && no_space s'
  end.

(** A string of ASCII whitespace only. *)
Fixpoint all_space (s : string) : bool :=
  match s with
  | EmptyString => true
  | String c s' => AsciiStr.is_space c && all_space s'
  end.

(** The sum of the count column of a count table. *)
Definition sum_counts (g : DataFrame) : Z :=
  fold_right Z.add 0%Z
             (map (fun r => match cell r "count" with VNum z => z | _ => 0%Z end) (rows g)).

(** The usage events whose usage type is accepted, whatever their account. *)
Definition accepted_events (usage_df : DataFrame) (usage_types : list string) : list Row :=
  match _find_first_column usage_df ACCOUNT_ALIASES,
        _find_first_column usage_df USAGE_TYPE_ALIASES with
  | Some _, Some usage_type_col =>
      filter (fun e => isin usage_types (cell e usage_type_col)) (rows usage_df)
  | _, _ => []
  end.

(** The ask-AI events that are counted: all of them, once the account field
    is resolved. *)
Definition counted_askai (askai_df : DataFrame) : list Row :=
  match _find_first_column askai_df ACCOUNT_ALIASES with
  | Some _ => rows askai_df
  | None => []
  end.

Section CoercedColumn.

Variable to_numeric : Value -> option Q.
Variable to_datetime_unit : TimeUnit -> Q -> option Instant.
Variable to_datetime : Value -> option Instant.

(** The instants [coerce_created_at] computes from the cells of a column. *)
Definition coerced_instants (raw : list Value) : list (option Instant) :=
  if notna_mean_gt_half (map to_numeric raw) then
    if gt_1e12 (series_max (map to_numeric raw))
    then map (to_datetime_numeric to_datetime_unit unit_ms) (map to_numeric raw)
    else map (to_datetime_numeric to_datetime_unit unit_s) (map to_numeric raw)
  else map to_datetime raw.

End CoercedColumn.

(* ================================================================== *)
(** * Paginated table scan *)

(** An item of a table, and the key a scan continues from: dicts. *)
Definition Item : Type := list (string * Value).

(** The response of [table.scan] under [scan_kwargs]: [response.get("Items", [])]
    and [response.get("LastEvaluatedKey")]. *)
Record ScanResponse : Type := mkResponse {
  Items : list Item;
  LastEvaluatedKey : option Item
}.

(** [pd.DataFrame(items)]: the columns are the keys of the items in the order
    they first appear, a key missing from an item reads as NaN. *)
Definition add_column (cols : list string) (k : string) : list string :=
  if existsb (String.eqb k) cols then cols else cols ++ [k].

Definition item_columns (items : list Item) : list string :=
  fold_left (fun cols item => fold_left add_column (map fst item) cols) items [].

Definition DataFrame_from_items (items : list Item) : DataFrame :=
  mkDF (item_columns items) false (map row_of_dict items).

Section Scan.

(** [table.scan] of the table named [table_name], under the session the
    three credentials open; the argument is [ExclusiveStartKey], if any. *)
Variable table_scan :
  string -> string -> string -> string -> option Item -> Result ScanResponse.

(** The [while True] loop of lines 111-117, cut after [fuel] pages: [None]
    when it has not left the loop by then. *)
Fixpoint scan_pages (fuel : nat) (scan : option Item -> Result ScanResponse)
  (scan_kwargs : option Item) (items : list Item) : option (Result (list Item)) :=
  match fuel with
  | O => None
  | S fuel' =>
      match scan scan_kwargs with
      | inl e => Some (inl e)
      | inr response =>
          let items := items ++ Items response in
          match LastEvaluatedKey response with
          | Some (k :: key) => scan_pages fuel' scan (Some (k :: key)) items
          | _ => Some (inr items)
          end
      end
  end.

Definition get_data_from_dynamodb (fuel : nat)
  (table_name access_key secret_key region : string) : option (Result DataFrame) :=
  match scan_pages fuel (table_scan table_name access_key secret_key region) None [] with
  | None => None
  | Some (inl e) => Some (inl e)
  | Some (inr items) =>
      Some (inr (if is_nil items then mkDF [] false [] else DataFrame_from_items items))
  end.

End Scan.

(** The pages a scan serves from [start] on: each response carries the key
    of the next page, the last one carries none (or an empty one). *)
Fixpoint serves (scan : option Item -> Result ScanResponse) (start : option Item)
  (pages : list (list Item)) : Prop :=
  match pages with
  | [] => False
  | [page] =>
      exists last, scan start = inr (mkResponse page last)
                   /\ (last = None \/ last = Some [])
  | page :: rest =>
      exists k key, scan start = inr (mkResponse page (Some (k :: key)))
                    /\ serves scan (Some (k :: key)) rest
  end.

(** A scan that fails with [e] after serving [pages], each with the key of
    the next one. *)
Fixpoint breaks (scan : option Item -> Result ScanResponse) (start : option Item)
  (pages : list (list Item)) (e : Exn) : Prop :=
  match pages with
  | [] => scan start = inl e
  | page :: rest =>
      exists k key, scan start = inr (mkResponse page (Some (k :: key)))
                    /\ breaks scan (Some (k :: key)) rest e
  end.

(** Sample tables: one served in two pages, the second with an item of
    another schema; one whose second page fails. *)
Definition sample_page_1 : list Item :=
  [ [("account", VStr "a@x.com"); ("username", VStr "Alice")];
    [("account", VStr "b@x.com"); ("username", VStr "Bob")] ].

Definition sample_page_2 : list Item :=
  [ [("account", VStr "c@x.com"); ("plan", VStr "pro")] ].

Definition sample_table_scan (table_name access_key secret_key region : string)
  (start : option Item) : Result ScanResponse :=
  match start with
  | None => ret (mkResponse sample_page_1 (Some [("account", VStr "b@x.com")]))
  | Some _ => ret (mkResponse sample_page_2 None)
  end.

Definition sample_failing_scan (table_name access_key secret_key region : string)
  (start : option Item) : Result ScanResponse :=
  match start with
  | None => ret (mkResponse sample_page_1 (Some [("account", VStr "b@x.com")]))
  | Some _ => raise ClientError
  end.

(** A scan that always announces a next page. *)
Definition sample_endless_scan (table_name access_key secret_key region : string)
  (start : option Item) : Result ScanResponse :=
  ret (mkResponse sample_page_2 (Some [("account", VStr "c@x.com")])).

(* ================================================================== *)
(** * The document grid *)

(** Lines 294-305 of [export_docx]: the texts of the table, the header row
    first; a null cell is left blank. *)
Definition docx_table (df : DataFrame) : list (list string) :=
  columns df
  :: map (fun row =>
            map (fun col => if negb (isna (cell row col)) then astype_str (cell row col)
                            else EmptyString)
                (columns df))
         (rows df).

(* ================================================================== *)
(** * The Streamlit front end *)

(** A calendar date: days since the epoch.  [pd.to_datetime(d, utc=True)] is
    its midnight. *)
Definition Date : Type := Z.

Definition to_datetime_date (d : Date) : Instant := Timedelta_days d.

(** [datetime.now(UTC).date()] *)
Definition date_of (now : Instant) : Date := (now / Timedelta_days 1)%Z.

(** What the page shows, in order. *)
Inductive StEvent : Type :=
| st_error (msg : string)
| st_stop
| st_success (msg : string)
| st_subheader (text : string)
| st_dataframe (df : DataFrame)
| st_download_button (label : string) (data : list Byte.byte) (file_name mime : string)
| st_exception (e : Exn).

Definition format_name (fmt : Format) : string :=
  match fmt with
  | excel => "Excel"
  | docx => "DOCX"
  end.

Section App.

Variable to_numeric : Value -> option Q.
Variable to_datetime_unit : TimeUnit -> Q -> option Instant.
Variable to_datetime : Value -> option Instant.
Variable getenv : string -> option string.

(** [report_generator.get_data_from_dynamodb], as it comes back. *)
Variable fetch : string -> string -> string -> string -> Result DataFrame.

Variable now : Instant.
Variable generated_at : Instant.
Variable strftime_Ymd_date : Date -> string.
Variable str_exn : Exn -> string.
Variable xlsx_bytes : DataFrame -> Result (list Byte.byte).
Variable docx_bytes : DataFrame -> Instant -> Instant -> Instant -> Result (list Byte.byte).

(** Lines 54-58: the dates of the two inputs, the defaults when untouched. *)
Definition app_dates (start_input end_input : option Date) : Date * Date :=
  let today := date_of now in
  let thirty_days_ago := (today - 29)%Z in
  (match start_input with Some d => d | None => thirty_days_ago end,
   match end_input with Some d => d | None => today end).

(** Lines 75-77: the interval of the selected dates. *)
Definition app_interval (start_date end_date : Date) : Instant * Instant :=
  (to_datetime_date start_date,
   (to_datetime_date end_date + Timedelta_days 1 - Timedelta_seconds 1)%Z).

(** Lines 83-119: the body of the [try]: what it shows before it returns or
    raises. *)
Definition app_try (start_date end_date : Date) (report_format : Format)
  : list StEvent * Result unit :=
  let (start_dt, end_dt) := app_interval start_date end_date in
  match load_env_credentials getenv with
  | inl e => ([], inl e)
  | inr (access_key, secret_key, region) =>
      match fetch TABLE_ACCOUNTS access_key secret_key region with
      | inl e => ([], inl e)
      | inr accounts_df =>
          match fetch TABLE_USAGE access_key secret_key region with
          | inl e => ([], inl e)
          | inr usage_df_all =>
              match fetch TABLE_ASKAI access_key secret_key region with
              | inl e => ([], inl e)
              | inr askai_df_all =>
                  let usage_df :=
                    filter_by_date to_numeric to_datetime_unit to_datetime
                                   usage_df_all start_dt end_dt in
                  let askai_df :=
                    filter_by_date to_numeric to_datetime_unit to_datetime
                                   askai_df_all start_dt end_dt in
                  let report_df := build_report_dataframe accounts_df usage_df askai_df in
                  let shown := [ st_success "Report generated successfully!";
                                 st_subheader "Report Preview";
                                 st_dataframe report_df ] in
                  let file_name_date_part :=
                    (strftime_Ymd_date start_date ++ "_" ++ strftime_Ymd_date end_date)%string in
                  let file_name :=
                    match report_format with
                    | excel => ("vtc_report_" ++ file_name_date_part ++ ".xlsx")%string
                    | docx => ("vtc_report_" ++ file_name_date_part ++ ".docx")%string
                    end in
                  let mime_type :=
                    match report_format with
                    | excel =>
                        "application/vnd.openxmlformats-officedocument.spreadsheetml.sheet"
                    | docx =>
                        "application/vnd.openxmlformats-officedocument.wordprocessingml.document"
                    end in
                  match app_export generated_at xlsx_bytes docx_bytes
                                   report_format report_df start_dt end_dt with
                  | inl e => (shown, inl e)
                  | inr file_data =>
                      (shown ++ [ st_download_button
                                    ("📥 Download " ++ format_name report_format
                                                   ++ " Report")%string
                                    file_data file_name mime_type ],
                       inr tt)
                  end
              end
          end
      end
  end.

(** Lines 73-123: the press of the button, every exception caught. *)
Definition app_generate (start_date end_date : Date) (report_format : Format)
  : list StEvent :=
  match app_try start_date end_date report_format with
  | (shown, inr _) => shown
  | (shown, inl e) =>
      shown ++ [ st_error ("An error occurred: " ++ str_exn e)%string; st_exception e ]
  end.

(** Lines 54-123: the script from the date inputs on. *)
Definition app (start_input end_input : option Date) (report_format : Format)
  (generate_button : bool) : list StEvent :=
  let (start_date, end_date) := app_dates start_input end_input in
  if (end_date <? start_date)%Z
  then [ st_error "Error: Start date must be before or on the end date."; st_stop ]
  else if generate_button then app_generate start_date end_date report_format
  else [].

End App.

(* ================================================================== *)
(** * Facts on lists *)

Lemma combine_map_r {A B : Type} (f : A -> B) (l : list A) :
  combine l (map f l) = map (fun x => (x, f x)) l.
Proof.
  induction l as [|x l IH]; simpl; [reflexivity | now rewrite IH].
Qed.

Lemma select_mask_map {A : Type} (p : A -> bool) (l : list A) :
  select_mask l (map p l) = filter p l.
Proof.
  induction l as [|x l IH]; simpl; [reflexivity|].
  destruct (p x); now rewrite IH.
Qed.

Lemma filter_map_comm {A B : Type} (f : A -> B) (p : B -> bool) (l : list A) :
  filter p (map f l) = map f (filter (fun x => p (f x)) l).
Proof.
  induction l as [|x l IH]; simpl; [reflexivity|].
  destruct (p (f x)); simpl; now rewrite IH.
Qed.

Lemma Forall2_map_r {A B C : Type} (R : A -> C -> Prop) (f : B -> C) (l : list A) (l' : list B) :
  Forall2 (fun x y => R x (f y)) l l' -> Forall2 R l (map f l').
Proof.
  induction 1; simpl; constructor; assumption.
Qed.

Lemma Forall2_diag {A : Type} (R : A -> A -> Prop) (l : list A) :
  (forall x, In x l -> R x x) -> Forall2 R l l.
Proof.
  induction l as [|x l IH]; intros H; constructor.
  - apply H; now left.
  - apply IH; intros y Hy; apply H; now right.
Qed.

Lemma Forall2_weaken {A B : Type} (R R' : A -> B -> Prop) (l : list A) (l' : list B) :
  (forall x y, R x y -> R' x y) -> Forall2 R l l' -> Forall2 R' l l'.
Proof.
  intros H; induction 1; constructor; auto.
Qed.

Lemma Forall2_map_eq {A B C : Type} (f : A -> C) (g : B -> C) (l : list A) (l' : list B) :
  Forall2 (fun x y => f x = g y) l l' -> map f l = map g l'.
Proof.
  induction 1; simpl; [reflexivity | congruence].
Qed.

Lemma Forall2_in_r {A B : Type} (R : A -> B -> Prop) (l : list A) (l' : list B) (y : B) :
  Forall2 R l l' -> In y l' -> exists x, In x l /\ R x y.
Proof.
  induction 1 as [|x y' l l' HR _ IH]; simpl; [tauto|].
  intros [->|Hy].
  - exists x; auto.
  - destruct (IH Hy) as [x' [? ?]]; exists x'; auto.
Qed.

(* ================================================================== *)
(** * Facts on the stable sort *)

Section StableSortFacts.

Context {A : Type} (leb : A -> A -> bool).

Lemma insert_sorted_perm (x : A) (l : list A) :
  Permutation (x :: l) (insert_sorted leb x l).
Proof.
  induction l as [|y l IH]; simpl; [reflexivity|].
  destruct (leb x y); [reflexivity|].
  rewrite perm_swap. now apply perm_skip.
Qed.

Lemma stable_sort_perm (l : list A) : Permutation l (stable_sort leb l).
Proof.
  induction l as [|x l IH]; simpl; [reflexivity|].
  rewrite <- insert_sorted_perm. now apply perm_skip.
Qed.

Lemma stable_sort_length (l : list A) :
  List.length (stable_sort leb l) = List.length l.
Proof. symmetry. apply Permutation_length, stable_sort_perm. Qed.

Lemma stable_sort_in (l : list A) (x : A) : In x (stable_sort leb l) <-> In x l.
Proof.
  split; apply Permutation_in; [symmetry|]; apply stable_sort_perm.
Qed.

(** Inserting an element leaves the elements of another class where they
    are, and puts it ahead of the elements of its own class. *)
Lemma filter_insert_sorted (p : A -> bool) (x : A) (l : list A) :
  (forall y, p x = true -> p y = true -> leb x y = true) ->
  filter p (insert_sorted leb x l) = filter p (x :: l).
Proof.
  intros Hp. induction l as [|y l IH]; simpl; [reflexivity|].
  destruct (leb x y) eqn:Hxy; simpl; [reflexivity|].
  simpl in IH. rewrite IH.
  destruct (p x) eqn:Hx; [|reflexivity].
  destruct (p y) eqn:Hy; [|reflexivity].
  rewrite (Hp y eq_refl Hy) in Hxy. discriminate.
Qed.

(** Stability: the elements of one class keep their relative order. *)
Lemma stable_sort_stable (p : A -> bool) (l : list A) :
  (forall x y, p x = true -> p y = true -> leb x y = true) ->
  filter p (stable_sort leb l) = filter p l.
Proof.
  intros Hp. induction l as [|x l IH]; simpl; [reflexivity|].
  rewrite filter_insert_sorted by (intros y; apply Hp).
  simpl. now rewrite IH.
Qed.

Hypothesis leb_total : forall x y, leb x y = true \/ leb y x = true.
Hypothesis leb_trans : forall x y z, leb x y = true -> leb y z = true -> leb x z = true.

Lemma insert_sorted_sorted (x : A) (l : list A) :
  StronglySorted (fun a b => leb a b = true) l ->
  StronglySorted (fun a b => leb a b = true) (insert_sorted leb x l).
Proof.
  induction 1 as [|y l Hs IH Hall]; simpl.
  - constructor; constructor.
  - destruct (leb x y) eqn:Hxy.
    + constructor; [constructor; assumption|].
      constructor; [assumption|].
      eapply Forall_impl; [|exact Hall]. intros z Hz. now apply leb_trans with y.
    + constructor; [assumption|].
      assert (Hyx : leb y x = true) by (destruct (leb_total x y); congruence).
      apply Forall_forall. intros z Hz.
      apply (Permutation_in _ (Permutation_sym (insert_sorted_perm x l))) in Hz.
      destruct Hz as [<-|Hz]; [assumption|].
      rewrite Forall_forall in Hall. now apply Hall.
Qed.

Lemma stable_sort_sorted (l : list A) :
  StronglySorted (fun a b => leb a b = true) (stable_sort leb l).
Proof.
  induction l as [|x l IH]; simpl; [constructor|].
  now apply insert_sorted_sorted.
Qed.

End StableSortFacts.

(** Sorting commutes with a map that preserves the comparison. *)
Lemma insert_sorted_map {A B : Type} (leb : A -> A -> bool) (leb' : B -> B -> bool)
  (f : A -> B) (x : A) (l : list A) :
  (forall a b, leb' (f a) (f b) = leb a b) ->
  map f (insert_sorted leb x l) = insert_sorted leb' (f x) (map f l).
Proof.
  intros H. induction l as [|y l IH]; simpl; [reflexivity|].
  rewrite H. destruct (leb x y); simpl; [reflexivity | now rewrite IH].
Qed.

Lemma stable_sort_map {A B : Type} (leb : A -> A -> bool) (leb' : B -> B -> bool)
  (f : A -> B) (l : list A) :
  (forall a b, leb' (f a) (f b) = leb a b) ->
  map f (stable_sort leb l) = stable_sort leb' (map f l).
Proof.
  intros H. induction l as [|x l IH]; simpl; [reflexivity|].
  rewrite (insert_sorted_map leb leb') by assumption. now rewrite IH.
Qed.

(* ================================================================== *)
(** * The order on cells is a total preorder *)

Lemma ascii_compare_lt_trans (a b c : ascii) :
  Ascii.compare a b = Lt -> Ascii.compare b c = Lt -> Ascii.compare a c = Lt.
Proof.
  unfold Ascii.compare. rewrite !N.compare_lt_iff. lia.
Qed.

Lemma string_compare_refl (s : string) : String.compare s s = Eq.
Proof.
  induction s as [|a s IH]; simpl; [reflexivity|].
  unfold Ascii.compare. now rewrite N.compare_refl.
Qed.

Lemma string_compare_lt_trans (s t u : string) :
  String.compare s t = Lt -> String.compare t u = Lt -> String.compare s u = Lt.
Proof.
  revert t u. induction s as [|a s IH]; intros [|b t] [|c u]; simpl; try congruence.
  destruct (Ascii.compare a b) eqn:Hab; try congruence.
  - apply Ascii.compare_eq_iff in Hab. subst b.
    destruct (Ascii.compare a c); try congruence. apply IH.
  - intros _. destruct (Ascii.compare b c) eqn:Hbc; try congruence.
    + apply Ascii.compare_eq_iff in Hbc. subst c. now rewrite Hab.
    + now rewrite (ascii_compare_lt_trans a b c).
Qed.

Lemma value_compare_antisym (a b : Value) :
  value_compare b a = CompOpp (value_compare a b).
Proof.
  destruct a, b; simpl; try reflexivity.
  - apply String.compare_antisym.
  - apply Z.compare_antisym.
Qed.

Lemma value_compare_refl (a : Value) : value_compare a a = Eq.
Proof.
  destruct a; simpl; auto using string_compare_refl, Z.compare_refl.
Qed.

(** Two cells compare equal exactly when they are the same cell or both null. *)
Lemma value_compare_eq (a b : Value) :
  value_compare a b = Eq <-> a = b \/ (isna a = true /\ isna b = true).
Proof.
  destruct a, b; simpl; split; intros H;
    try discriminate; try tauto;
    try (destruct H as [H|[H1 H2]]; discriminate).
  - apply String.compare_eq_iff in H. left; congruence.
  - destruct H as [H|[H1 H2]]; [|discriminate].
    inversion H; subst. apply string_compare_refl.
  - apply Z.compare_eq in H. left; congruence.
  - destruct H as [H|[H1 H2]]; [|discriminate].
    inversion H; subst. apply Z.compare_refl.
Qed.

Lemma value_compare_eq_l (a b c : Value) :
  value_compare a b = Eq -> value_compare a c = value_compare b c.
Proof.
  intros H. apply value_compare_eq in H. destruct H as [->|[Ha Hb]]; [reflexivity|].
  destruct a, b; try discriminate; destruct c; reflexivity.
Qed.

Lemma value_compare_eq_r (a b c : Value) :
  value_compare a b = Eq -> value_compare c a = value_compare c b.
Proof.
  intros H. rewrite (value_compare_antisym a c), (value_compare_antisym b c).
  f_equal. now apply value_compare_eq_l.
Qed.

Lemma value_compare_lt_trans (a b c : Value) :
  value_compare a b = Lt -> value_compare b c = Lt -> value_compare a c = Lt.
Proof.
  destruct a, b; simpl; try discriminate; destruct c; simpl;
    try discriminate; try reflexivity.
  - apply string_compare_lt_trans.
  - rewrite !Z.compare_lt_iff. lia.
Qed.

(** Nulls are ordered last. *)
Lemma value_compare_null_last (a b : Value) :
  isna a = false -> isna b = true -> value_compare a b = Lt.
Proof.
  destruct a, b; simpl; intros; try discriminate; reflexivity.
Qed.

Lemma value_leb_total (a b : Value) : value_leb a b = true \/ value_leb b a = true.
Proof.
  unfold value_leb. rewrite (value_compare_antisym a b).
  destruct (value_compare a b); simpl; auto.
Qed.

Lemma value_leb_trans (a b c : Value) :
  value_leb a b = true -> value_leb b c = true -> value_leb a c = true.
Proof.
  unfold value_leb.
  destruct (value_compare a b) eqn:Hab; try discriminate; intros _.
  - now rewrite (value_compare_eq_l a b c Hab).
  - destruct (value_compare b c) eqn:Hbc; try discriminate; intros _.
    + now rewrite <- (value_compare_eq_r b c a Hbc), Hab.
    + now rewrite (value_compare_lt_trans a b c).
Qed.

Lemma record_leb_total (a b : list Value) :
  record_leb a b = true \/ record_leb b a = true.
Proof.
  unfold record_leb.
  rewrite (value_compare_antisym (record_username a) (record_username b)).
  destruct (value_compare (record_username a) (record_username b)); simpl; auto.
  apply value_leb_total.
Qed.

Lemma record_leb_trans (a b c : list Value) :
  record_leb a b = true -> record_leb b c = true -> record_leb a c = true.
Proof.
  unfold record_leb.
  destruct (value_compare (record_username a) (record_username b)) eqn:Hab;
    try discriminate.
  - rewrite (value_compare_eq_l _ _ (record_username c) Hab).
    destruct (value_compare (record_username b) (record_username c));
      try discriminate; auto.
    apply value_leb_trans.
  - intros _.
    destruct (value_compare (record_username b) (record_username c)) eqn:Hbc;
      try discriminate; intros _.
    + now rewrite <- (value_compare_eq_r _ _ (record_username a) Hbc), Hab.
    + now rewrite (value_compare_lt_trans _ _ _ Hab Hbc).
Qed.

(** Rows with the same key are not separated by the order. *)
Lemma same_key_leb (k a b : list Value) :
  same_key k a = true -> same_key k b = true -> record_leb a b = true.
Proof.
  unfold same_key, record_leb, value_leb.
  destruct (value_compare (record_username k) (record_username a)) eqn:Hua; try discriminate.
  destruct (value_compare (record_account k) (record_account a)) eqn:Haa; try discriminate.
  destruct (value_compare (record_username k) (record_username b)) eqn:Hub; try discriminate.
  destruct (value_compare (record_account k) (record_account b)) eqn:Hab; try discriminate.
  intros _ _.
  rewrite <- (value_compare_eq_l _ _ _ Hua), Hub.
  now rewrite <- (value_compare_eq_l _ _ _ Haa), Hab.
Qed.

(* ================================================================== *)
(** * Timestamp normaliser and date-range filter *)


Lemma map_fst_combine {A B : Type} (l : list A) (l' : list B) :
  List.length l = List.length l' -> map fst (combine l l') = l.
Proof.
  revert l'. induction l as [|x l IH]; intros [|y l']; simpl; try discriminate; auto.
  intros H. f_equal. apply IH. now injection H.
Qed.

Lemma cells_set_createdAt_dt (df : DataFrame) (coerced : list (option Instant)) :
  List.length coerced = List.length (rows df) ->
  map cell (rows (set_createdAt_dt df coerced)) = map cell (rows df).
Proof.
  intros H. unfold set_createdAt_dt; simpl. rewrite map_map; simpl.
  rewrite <- (map_map fst cell). now rewrite map_fst_combine.
Qed.






Lemma filter_none {A : Type} (p : A -> bool) (l : list A) :
  (forall x, In x l -> p x = false) -> filter p l = [].
Proof.
  induction l as [|x l IH]; simpl; intros H; [reflexivity|].
  rewrite (H x) by now left. apply IH. intros y Hy. apply H. now right.
Qed.

Lemma within_iff (start_dt end_dt : Instant) (t : option Instant) :
  within start_dt end_dt t = true <->
  exists x, t = Some x /\ (start_dt <= x <= end_dt)%Z.
Proof.
  destruct t as [x|]; simpl.
  - rewrite andb_true_iff, !Z.leb_le. split.
    + intros H. exists x. auto.
    + intros [y [Hy H]]. inversion Hy; subst. exact H.
  - split; [discriminate|]. intros [x [H _]]. discriminate.
Qed.

Section PandasFacts.

Variable to_numeric : Value -> option Q.
Variable to_datetime_unit : TimeUnit -> Q -> option Instant.
Variable to_datetime : Value -> option Instant.

Local Abbreviation coerce := (coerce_created_at to_numeric to_datetime_unit to_datetime).
Local Abbreviation date_filter := (filter_by_date to_numeric to_datetime_unit to_datetime).
Local Abbreviation instants := (with_instants to_numeric to_datetime_unit to_datetime).
Local Abbreviation date_range := (resolve_date_range to_datetime).

Lemma coerce_created_at_unresolved (df : DataFrame) :
  _find_first_column df CREATED_AT_ALIASES = None -> coerce df = df.
Proof.
  intros H. unfold coerce_created_at. rewrite H. now destruct (df_empty df).
Qed.

(** Coercion adds the instant column and leaves the cells alone. *)
Lemma with_instants_cells (df : DataFrame) :
  map cell (rows (instants df)) = map cell (rows df).
Proof.
  unfold with_instants. destruct (has_createdAt_dt df); [reflexivity|].
  unfold coerce_created_at. destruct (df_empty df); [reflexivity|].
  destruct (_find_first_column df CREATED_AT_ALIASES) as [c|]; [|reflexivity].
  apply cells_set_createdAt_dt. unfold getitem.
  destruct (notna_mean_gt_half _); [destruct (gt_1e12 _)|]; now rewrite !length_map.
Qed.

Lemma filter_by_date_rows (df : DataFrame) (start_dt end_dt : Instant) :
  df_empty df = false ->
  rows (date_filter df start_dt end_dt)
  = filter (fun r => within start_dt end_dt (instant_of (instants df) r))
           (rows (instants df)).
Proof.
  intros Hne. unfold filter_by_date, with_instants, instant_of. rewrite Hne.
  set (df' := if negb (has_createdAt_dt df) then coerce df else df).
  assert (Hdf : (if has_createdAt_dt df then df else coerce df) = df').
  { unfold df'. now destruct (has_createdAt_dt df). }
  rewrite Hdf. clear Hdf.
  destruct (has_createdAt_dt df') eqn:Hhas; simpl.
  - destruct (forallb is_nat_instant (map createdAt_dt (rows df'))) eqn:Hall; simpl.
    + symmetry. apply filter_none. intros r Hr.
      rewrite forallb_forall in Hall.
      specialize (Hall (createdAt_dt r) (in_map _ _ _ Hr)).
      destruct (createdAt_dt r); [discriminate | reflexivity].
    + rewrite map_map, select_mask_map. apply filter_ext.
      intros r. destruct (createdAt_dt r); reflexivity.
  - symmetry. now apply filter_none.
Qed.

Lemma resolve_date_range_end (now : Instant) (start_date_str end_date_str : option string)
  (start_dt end_dt : Instant) :
  date_range now start_date_str end_date_str = inr (start_dt, end_dt) ->
  exists d,
    end_dt = (d + Timedelta_seconds 86399)%Z
    /\ match truthy end_date_str with
       | Some s => to_datetime (VStr s) = Some d
       | None => d = normalize now
       end.
Proof.
  unfold resolve_date_range, to_datetime_scalar, bind, ret, raise.
  destruct (truthy end_date_str) as [s|].
  - destruct (to_datetime (VStr s)) as [d|]; [|discriminate].
    destruct (truthy start_date_str) as [s'|].
    + destruct (to_datetime (VStr s')); [|discriminate].
      intros H. inversion H; subst. exists d. split; [|reflexivity].
      unfold Timedelta_days, Timedelta_seconds, NS_PER_SECOND. lia.
    + intros H. inversion H; subst. exists d. split; [|reflexivity].
      unfold Timedelta_days, Timedelta_seconds, NS_PER_SECOND. lia.
  - destruct (truthy start_date_str) as [s'|].
    + destruct (to_datetime (VStr s')); [|discriminate].
      intros H. inversion H; subst. exists (normalize now). split; [|reflexivity].
      unfold Timedelta_days, Timedelta_seconds, NS_PER_SECOND. lia.
    + intros H. inversion H; subst. exists (normalize now). split; [|reflexivity].
      unfold Timedelta_days, Timedelta_seconds, NS_PER_SECOND. lia.
Qed.


(** C4. For an interval [start_dt, end_dt] that [resolve_date_range]
    produces, [end_dt] is 23:59:59 of the end date (86399 seconds after the
    instant the end date parses to, or after today's midnight when no end
    date is given), and [filter_by_date] keeps exactly the rows whose
    normalised instant [t] satisfies [start_dt <= t <= end_dt], in their
    order: a row stamped exactly [end_dt] is kept, a row stamped one
    microsecond or one second later is dropped, and so is a row with a null
    instant.  The rows carry the cells of the collection; an empty frame is
    returned as it is. *)
Theorem filter_by_date_inclusive_range (df : DataFrame) (now : Instant)
  (start_date_str end_date_str : option string) (start_dt end_dt : Instant) :
  date_range now start_date_str end_date_str = inr (start_dt, end_dt) ->
  let kept := date_filter df start_dt end_dt in
  let src := instants df in
  (exists d,
      end_dt = (d + Timedelta_seconds 86399)%Z
      /\ match truthy end_date_str with
         | Some s => to_datetime (VStr s) = Some d
         | None => d = normalize now
         end)
  /\ map cell (rows src) = map cell (rows df)
  /\ (df_empty df = true -> kept = df)
  /\ (df_empty df = false ->
      rows kept = filter (fun r => within start_dt end_dt (instant_of src r)) (rows src)
      /\ (forall r, In r (rows kept) <->
                    In r (rows src)
                    /\ exists t, instant_of src r = Some t /\ (start_dt <= t <= end_dt)%Z)
      /\ (forall r, In r (rows src) -> instant_of src r = Some end_dt ->
                    (start_dt <= end_dt)%Z -> In r (rows kept))
      /\ (forall r, instant_of src r = Some (end_dt + 1000)%Z -> ~ In r (rows kept))
      /\ (forall r, instant_of src r = Some (end_dt + Timedelta_seconds 1)%Z ->
                    ~ In r (rows kept))
      /\ (forall r, instant_of src r = None -> ~ In r (rows kept))).
Proof.
  intros Hrange kept src.
  split; [now apply (resolve_date_range_end now start_date_str end_date_str start_dt)|].
  split; [apply with_instants_cells|].
  split.
  { intros He. unfold kept, filter_by_date. now rewrite He. }
  intros Hne.
  assert (Hrows : rows kept
                  = filter (fun r => within start_dt end_dt (instant_of src r)) (rows src))
    by (apply filter_by_date_rows; exact Hne).
  assert (Hin : forall r, In r (rows kept) <->
                          In r (rows src)
                          /\ exists t, instant_of src r = Some t
                                       /\ (start_dt <= t <= end_dt)%Z).
  { intros r. rewrite Hrows, filter_In, within_iff. reflexivity. }
  split; [exact Hrows|]. split; [exact Hin|].
  repeat split.
  - intros r Hr Ht Hle. apply Hin. split; [exact Hr|]. exists end_dt. split; [exact Ht|lia].
  - intros r Ht Hr. apply Hin in Hr. destruct Hr as [_ [t [Ht' Hb]]].
    rewrite Ht in Ht'. inversion Ht'; subst. lia.
  - intros r Ht Hr. apply Hin in Hr. destruct Hr as [_ [t [Ht' Hb]]].
    rewrite Ht in Ht'. inversion Ht'; subst.
    unfold Timedelta_seconds, NS_PER_SECOND in Hb. lia.
  - intros r Ht Hr. apply Hin in Hr. destruct Hr as [_ [t [Ht' _]]].
    rewrite Ht in Ht'. discriminate.
Qed.

(** C7. On a record collection with no instant column and no acceptable
    timestamp field name, [filter_by_date] returns an empty collection: the
    frame itself when it is already empty, its zero-row slice otherwise. *)
Theorem filter_by_date_no_timestamp_field (df : DataFrame) (start_dt end_dt : Instant) :
  has_createdAt_dt df = false ->
  _find_first_column df CREATED_AT_ALIASES = None ->
  df_empty (date_filter df start_dt end_dt) = true
  /\ (df_empty df = false -> date_filter df start_dt end_dt = iloc_none df)
  /\ (columns df <> [] -> rows (date_filter df start_dt end_dt) = []).
Proof.
  intros Hhas Hcol. unfold filter_by_date.
  rewrite Hhas. simpl. rewrite (coerce_created_at_unresolved df Hcol), Hhas. simpl.
  destruct (df_empty df) eqn:He.
  - split; [exact He|]. split; [discriminate|].
    intros Hc. unfold df_empty in He.
    destruct (rows df); [reflexivity|].
    destruct (columns df); [now elim Hc | discriminate].
  - repeat split; reflexivity.
Qed.

End PandasFacts.

(* ================================================================== *)
(** * Group sizes *)

Lemma value_eqb_eq (a b : Value) : value_eqb a b = true <-> a = b.
Proof.
  destruct a, b; simpl; split; intros H; try discriminate; try reflexivity.
  - apply String.eqb_eq in H. congruence.
  - inversion H; subst. apply String.eqb_refl.
  - apply Z.eqb_eq in H. congruence.
  - inversion H; subst. apply Z.eqb_refl.
Qed.

Lemma value_eqb_refl (a : Value) : value_eqb a a = true.
Proof. now apply value_eqb_eq. Qed.

(** The keys of a tally after one more occurrence of [k]. *)
Lemma tally_keys (k : Value) (t : list (Value * nat)) :
  map fst (tally k t) = if existsb (value_eqb k) (map fst t)
                        then map fst t else map fst t ++ [k].
Proof.
  induction t as [|[k' n] t IH]; simpl; [reflexivity|].
  destruct (value_eqb k k') eqn:Hk; simpl; [reflexivity|].
  rewrite IH. now destruct (existsb (value_eqb k) (map fst t)).
Qed.

Lemma existsb_value_eqb (k : Value) (l : list Value) :
  existsb (value_eqb k) l = true <-> In k l.
Proof.
  rewrite existsb_exists. split.
  - intros [x [Hx He]]. apply value_eqb_eq in He. now subst.
  - intros H. exists k. split; [assumption | apply value_eqb_refl].
Qed.

Lemma tally_NoDup (k : Value) (t : list (Value * nat)) :
  NoDup (map fst t) -> NoDup (map fst (tally k t)).
Proof.
  intros H. rewrite tally_keys.
  destruct (existsb (value_eqb k) (map fst t)) eqn:He; [assumption|].
  apply NoDup_app; [assumption | repeat constructor; simpl; tauto |].
  intros x Hx [<-|[]]. apply existsb_value_eqb in Hx. congruence.
Qed.

Lemma tally_In (k v : Value) (n : nat) (t : list (Value * nat)) :
  NoDup (map fst t) ->
  (In (v, n) (tally k t) <->
   (v <> k /\ In (v, n) t)
   \/ (v = k /\ ((exists n0, In (k, n0) t /\ n = S n0)
                \/ (~ In k (map fst t) /\ n = 1)))).
Proof.
  induction t as [|[k' n'] t IH]; simpl; intros Hnd.
  - split.
    + intros [H|[]]. inversion H; subst. right. split; [reflexivity|]. right. tauto.
    + intros [[_ []]|[-> [[n0 [[] _]]|[_ ->]]]]. now left.
  - inversion Hnd as [|? ? Hnotin Hnd']; subst.
    destruct (value_eqb k k') eqn:Hk; simpl.
    + apply value_eqb_eq in Hk. subst k'. split.
      * intros [H|H].
        -- inversion H; subst. right. split; [reflexivity|]. left. exists n'. auto.
        -- left. split; [|now right]. intros ->. apply Hnotin.
           now apply (in_map fst) in H.
      * intros [[Hne [H|H]]|[-> [[n0 [[H|H] ->]]|[Hn ->]]]].
        -- inversion H; subst. now elim Hne.
        -- now right.
        -- inversion H; subst. now left.
        -- exfalso. apply Hnotin. now apply (in_map fst) in H.
        -- exfalso. apply Hn. now left.
    + assert (Hne : k <> k').
      { intros ->. now rewrite value_eqb_refl in Hk. }
      rewrite (IH Hnd'). split.
      * intros [H|[[Hvk H]|[-> H]]].
        -- inversion H; subst. left. split; [congruence | now left].
        -- left. split; [assumption | now right].
        -- right. split; [reflexivity|].
           destruct H as [[n0 [H ->]]|[H ->]].
           ++ left. exists n0. split; [now right | reflexivity].
           ++ right. split; [|reflexivity]. intros [Hc|Hc]; [congruence | tauto].
      * intros [[Hvk [H|H]]|[-> [[n0 [[H|H] ->]]|[Hn ->]]]].
        -- now left.
        -- right. left. auto.
        -- inversion H; subst. now elim Hne.
        -- right. right. split; [reflexivity|]. left. exists n0. auto.
        -- right. right. split; [reflexivity|]. right. split; [tauto | reflexivity].
Qed.

Lemma value_counts_NoDup (keys : list Value) : NoDup (map fst (value_counts keys)).
Proof.
  induction keys as [|k keys IH]; simpl; [constructor | now apply tally_NoDup].
Qed.

(** A key is recorded with the number of its occurrences, and only keys that
    occur are recorded. *)
Lemma value_counts_In (keys : list Value) (v : Value) (n : nat) :
  In (v, n) (value_counts keys) <-> n = occurrences v keys /\ 0 < n.
Proof.
  revert n. induction keys as [|k keys IH]; intros n; simpl.
  - unfold occurrences; simpl. split; [tauto | lia].
  - rewrite (tally_In k v n _ (value_counts_NoDup keys)).
    unfold occurrences in *; simpl. split.
    + intros [[Hne H]|[-> [[n0 [H ->]]|[Hn ->]]]].
      * apply IH in H. destruct (value_eqb v k) eqn:He; [|assumption].
        apply value_eqb_eq in He. contradiction.
      * apply IH in H. rewrite value_eqb_refl. simpl. lia.
      * rewrite value_eqb_refl. simpl. split; [|lia].
        destruct (List.length (filter (value_eqb k) keys)) as [|c] eqn:Hc; [reflexivity|].
        exfalso. apply Hn. apply (in_map fst _ (k, S c)). apply IH. lia.
    + intros [-> Hpos]. destruct (value_eqb v k) eqn:He.
      * apply value_eqb_eq in He. subst v. right. split; [reflexivity|].
        simpl in *.
        destruct (List.length (filter (value_eqb k) keys)) as [|c] eqn:Hc.
        -- right. split; [|reflexivity]. intros Hin.
           apply in_map_iff in Hin. destruct Hin as [[k' n'] [Hk Hin]].
           simpl in Hk. subst k'. apply IH in Hin. lia.
        -- left. exists (S c). split; [|reflexivity]. apply IH. lia.
      * left. split.
        -- intros ->. now rewrite value_eqb_refl in He.
        -- apply IH. auto.
Qed.

(* ================================================================== *)
(** * Per-account aggregator *)

Lemma find_first_column_some (df : DataFrame) (candidates : list string) (c : string) :
  _find_first_column df candidates = Some c -> In c candidates /\ in_columns df c = true.
Proof. apply find_some. Qed.

Lemma find_first_column_no_columns (df : DataFrame) (candidates : list string) :
  columns df = [] -> _find_first_column df candidates = None.
Proof.
  intros H. unfold _find_first_column, in_columns. rewrite H. simpl.
  induction candidates; simpl; auto.
Qed.

(** Case analysis on the membership of a label in a list of aliases. *)
Ltac alias_cases H :=
  simpl in H; repeat (destruct H as [<-|H]); try contradiction.

Lemma account_alias_not_count (c : string) :
  In c ACCOUNT_ALIASES -> String.eqb "count" c = false.
Proof.
  intros H. alias_cases H; reflexivity.
Qed.

Lemma account_alias_not_usage_type (c c' : string) :
  In c ACCOUNT_ALIASES -> In c' USAGE_TYPE_ALIASES -> String.eqb c' c = false.
Proof.
  intros H H'. alias_cases H; alias_cases H'; reflexivity.
Qed.

Lemma setitem_map_rows (df : DataFrame) (c : string) (f : Value -> Value) :
  rows (setitem df c (map f (getitem df c)))
  = map (fun r => row_set c (f (cell r c)) r) (rows df).
Proof.
  unfold setitem, getitem; simpl.
  rewrite map_map, combine_map_r, map_map. reflexivity.
Qed.

Lemma df_loc_map_rows (df : DataFrame) (c : string) (p : Value -> bool) :
  rows (df_loc df (map p (getitem df c))) = filter (fun r => p (cell r c)) (rows df).
Proof.
  unfold df_loc, getitem; simpl. rewrite map_map. apply select_mask_map.
Qed.

Lemma filter_all {A : Type} (p : A -> bool) (l : list A) :
  (forall x, In x l -> p x = true) -> filter p l = l.
Proof.
  induction l as [|x l IH]; simpl; intros H; [reflexivity|].
  rewrite (H x) by now left. f_equal. apply IH. intros y Hy. apply H. now right.
Qed.

Lemma filter_filter_andb {A : Type} (p q : A -> bool) (l : list A) :
  filter p (filter q l) = filter (fun x => p x && q x) l.
Proof.
  induction l as [|x l IH]; simpl; [reflexivity|].
  destruct (q x); simpl.
  - rewrite andb_true_r. destruct (p x); now rewrite IH.
  - now rewrite andb_false_r.
Qed.

(** The frame [groupby(account_col).size()] yields, once its key column is
    renamed, is the count table of the keys. *)
Lemma grouped_table (df : DataFrame) (account_col : string) {A : Type}
  (keyf : A -> string) (l : list A) :
  In account_col ACCOUNT_ALIASES ->
  filter (fun v => negb (isna v)) (getitem df account_col)
  = map (fun x => VStr (keyf x)) l ->
  counts_table (rename (groupby_size df account_col "count") account_col "account")
               (fun a => List.length (filter (fun x => String.eqb (keyf x) a) l)).
Proof.
  intros Hac Hkeys. pose proof (account_alias_not_count _ Hac) as Hcount.
  unfold counts_table, groupby_size, rename, count_pairs.
  cbn [columns rows map].
  rewrite String.eqb_refl, Hcount. split; [reflexivity|].
  rewrite Hkeys.
  set (keys := map (fun x => VStr (keyf x)) l).
  set (groups := stable_sort (fun a b => value_leb (fst a) (fst b)) (value_counts keys)).
  exists groups.
  assert (Hperm : Permutation (value_counts keys) groups) by apply stable_sort_perm.
  split; [|split].
  - rewrite !map_map. apply map_ext. intros [k n].
    cbn [cell row_of_dict dict_get fst snd].
    rewrite !String.eqb_refl, Hcount. reflexivity.
  - apply (Permutation_NoDup (Permutation_map fst Hperm)), value_counts_NoDup.
  - intros v n. split.
    + intros Hin. apply (Permutation_in _ (Permutation_sym Hperm)) in Hin.
      apply value_counts_In in Hin. destruct Hin as [Hn Hpos].
      assert (Hv : In v keys).
      { unfold occurrences in Hn.
        destruct (filter (value_eqb v) keys) as [|w ws] eqn:Hf; [simpl in Hn; lia|].
        assert (Hw : In w (filter (value_eqb v) keys)) by (rewrite Hf; now left).
        apply filter_In in Hw. destruct Hw as [Hw He].
        apply value_eqb_eq in He. now subst. }
      unfold keys in Hv. apply in_map_iff in Hv. destruct Hv as [x [<- _]].
      exists (keyf x). split; [reflexivity|]. split; [|assumption].
      rewrite Hn. unfold occurrences, keys.
      rewrite filter_map_comm, length_map. f_equal. apply filter_ext.
      intros y; simpl. apply String.eqb_sym.
    + intros [a [-> [Hn Hpos]]]. apply (Permutation_in _ Hperm).
      apply value_counts_In. split; [|assumption].
      rewrite Hn. unfold occurrences, keys.
      rewrite filter_map_comm, length_map. f_equal. apply filter_ext.
      intros y; simpl. apply String.eqb_sym.
Qed.

Lemma empty_counts_table (f : string -> nat) :
  (forall a, f a = 0) -> counts_table (empty_frame ["account"; "count"]) f.
Proof.
  intros Hf. split; [reflexivity|]. exists []. split; [reflexivity|].
  split; [constructor|]. intros v n; simpl. split; [tauto|].
  intros [a [_ [-> H]]]. rewrite Hf in H. lia.
Qed.

Lemma usage_events_none (usage_df : DataFrame) (usage_types : list string) (a : string) :
  df_empty usage_df || is_nil usage_types = true ->
  List.length (usage_events usage_df usage_types a) = 0.
Proof.
  intros H. unfold usage_events.
  destruct (_find_first_column usage_df ACCOUNT_ALIASES) as [ac|] eqn:Hac; [|reflexivity].
  destruct (_find_first_column usage_df USAGE_TYPE_ALIASES) as [uc|]; [|reflexivity].
  apply orb_true_iff in H. destruct H as [H|H].
  - unfold df_empty in H. destruct (rows usage_df) eqn:Hr; [reflexivity|].
    destruct (columns usage_df) eqn:Hc; [|discriminate].
    now rewrite (find_first_column_no_columns usage_df ACCOUNT_ALIASES Hc) in Hac.
  - destruct usage_types; [|discriminate].
    rewrite filter_none; [reflexivity|].
    intros e _. rewrite andb_false_iff. right. now destruct (cell e uc).
Qed.

Lemma count_usage_table (usage_df : DataFrame) (usage_types : list string) :
  counts_table (count_usage_by_account usage_df usage_types)
               (fun a => List.length (usage_events usage_df usage_types a)).
Proof.
  unfold count_usage_by_account.
  destruct (df_empty usage_df || is_nil usage_types) eqn:Hguard.
  { apply empty_counts_table. intros a. now apply usage_events_none. }
  unfold usage_events.
  destruct (_find_first_column usage_df ACCOUNT_ALIASES) as [ac|] eqn:Hac;
    [|now apply empty_counts_table].
  destruct (_find_first_column usage_df USAGE_TYPE_ALIASES) as [uc|] eqn:Huc;
    [|now apply empty_counts_table].
  apply find_first_column_some in Hac, Huc. destruct Hac as [Hac _], Huc as [Huc _].
  pose proof (account_alias_not_usage_type _ _ Hac Huc) as Hneq.
  set (df_norm := setitem usage_df ac
                          (map (fun v => VStr (normalize_account v)) (getitem usage_df ac))).
  set (subset := df_loc df_norm (map (isin usage_types) (getitem df_norm uc))).
  assert (Hkeys : filter (fun v => negb (isna v)) (getitem subset ac)
                  = map (fun e => VStr (normalize_account (cell e ac)))
                        (filter (fun e => isin usage_types (cell e uc)) (rows usage_df))).
  { unfold getitem at 1. unfold subset. rewrite df_loc_map_rows. unfold df_norm.
    rewrite setitem_map_rows.
    rewrite (filter_map_comm _ (fun r => isin usage_types (cell r uc))), map_map.
    cbn [cell row_set]. rewrite Hneq, String.eqb_refl.
    apply filter_all.
    intros v Hv. apply in_map_iff in Hv. destruct Hv as [e [<- _]]. reflexivity. }
  destruct (grouped_table subset ac _ _ Hac Hkeys) as [Hcols [groups [Hpairs [Hnd Hin]]]].
  split; [exact Hcols|]. exists groups. split; [exact Hpairs|]. split; [exact Hnd|].
  intros v n. rewrite Hin. cbv beta.
  split; intros [a [Hv [Hn Hpos]]]; exists a;
    rewrite filter_filter_andb in *; auto.
Qed.

Lemma count_askai_table (askai_df : DataFrame) :
  counts_table (count_askai_by_account askai_df)
               (fun a => List.length (askai_events askai_df a)).
Proof.
  unfold count_askai_by_account, askai_events.
  destruct (_find_first_column askai_df ACCOUNT_ALIASES) as [ac|] eqn:Hac.
  - destruct (df_empty askai_df) eqn:He.
    + apply empty_counts_table. intros a.
      unfold df_empty in He. destruct (rows askai_df) eqn:Hr; [reflexivity|].
      destruct (columns askai_df) eqn:Hc; [|discriminate].
      now rewrite (find_first_column_no_columns askai_df ACCOUNT_ALIASES Hc) in Hac.
    + apply find_first_column_some in Hac. destruct Hac as [Hac _].
      apply grouped_table; [exact Hac|].
      unfold getitem. rewrite setitem_map_rows, map_map.
      cbn [cell row_set]. rewrite String.eqb_refl.
      apply filter_all.
      intros v Hv. apply in_map_iff in Hv. destruct Hv as [e [<- _]]. reflexivity.
  - destruct (df_empty askai_df); now apply empty_counts_table.
Qed.

(** What a count table says row by row. *)
Lemma counts_table_rows (g : DataFrame) (f : string -> nat) :
  counts_table g f ->
  NoDup (getitem g "account")
  /\ (forall r, In r (rows g) ->
                exists a, cell r "account" = VStr a
                          /\ cell r "count" = VNum (Z.of_nat (f a)) /\ 0 < f a)
  /\ (forall a, 0 < f a -> exists r, In r (rows g) /\ cell r "account" = VStr a).
Proof.
  intros [_ [groups [Hpairs [Hnd Hin]]]].
  assert (Hkeys : getitem g "account" = map fst groups).
  { unfold getitem.
    transitivity (map fst (count_pairs g)).
    - unfold count_pairs. now rewrite map_map.
    - rewrite Hpairs, map_map. reflexivity. }
  split; [now rewrite Hkeys|]. split.
  - intros r Hr.
    assert (Hp : In (cell r "account", cell r "count") (count_pairs g)).
    { unfold count_pairs. apply in_map_iff. exists r. auto. }
    rewrite Hpairs in Hp. apply in_map_iff in Hp.
    destruct Hp as [[v n] [Heq Hg]]. simpl in Heq.
    apply Hin in Hg. destruct Hg as [a [-> [-> Hpos]]].
    exists a. inversion Heq. auto.
  - intros a Hpos.
    assert (Hg : In (VStr a, f a) groups) by (apply Hin; exists a; auto).
    apply (in_map (fun kn => (fst kn, VNum (Z.of_nat (snd kn))))) in Hg.
    rewrite <- Hpairs in Hg. unfold count_pairs in Hg.
    apply in_map_iff in Hg. destruct Hg as [r [Heq Hr]].
    exists r. split; [exact Hr|]. now inversion Heq.
Qed.

(** C8. [count_usage_by_account] always returns a two-column count table.
    The table is empty whenever the list of accepted types is empty or the
    account field or the usage-type field cannot be resolved; in every case
    it holds one row per trimmed, lower-cased account identity that has at
    least one event whose usage type is accepted, with the number of those
    events, and no account twice. *)
Theorem count_usage_by_account_counts (usage_df : DataFrame) (usage_types : list string) :
  let grouped := count_usage_by_account usage_df usage_types in
  columns grouped = ["account"; "count"]
  /\ (usage_types = []
      \/ _find_first_column usage_df ACCOUNT_ALIASES = None
      \/ _find_first_column usage_df USAGE_TYPE_ALIASES = None ->
      rows grouped = [])
  /\ NoDup (getitem grouped "account")
  /\ (forall r, In r (rows grouped) ->
        exists a,
          cell r "account" = VStr a
          /\ cell r "count"
             = VNum (Z.of_nat (List.length (usage_events usage_df usage_types a)))
          /\ 0 < List.length (usage_events usage_df usage_types a))
  /\ (forall a, 0 < List.length (usage_events usage_df usage_types a) ->
        exists r, In r (rows grouped) /\ cell r "account" = VStr a).
Proof.
  intros grouped.
  pose proof (count_usage_table usage_df usage_types) as Htab.
  split; [exact (proj1 Htab)|].
  split; [|exact (counts_table_rows _ _ Htab)].
  unfold grouped, count_usage_by_account.
  intros [->|[H|H]].
  - now rewrite orb_true_r.
  - rewrite H. now destruct (df_empty usage_df || is_nil usage_types).
  - rewrite H. destruct (df_empty usage_df || is_nil usage_types); [reflexivity|].
    now destruct (_find_first_column usage_df ACCOUNT_ALIASES).
Qed.

(* ================================================================== *)
(** * Left joins of count tables *)

Lemma filter_unique_key {A : Type} (key : A -> Value) (l : list A) (v : Value) :
  NoDup (map key l) ->
  filter (fun x => value_eqb (key x) v) l = []
  \/ exists x, filter (fun x => value_eqb (key x) v) l = [x] /\ In x l /\ key x = v.
Proof.
  induction l as [|y l IH]; simpl; intros Hnd; [now left|].
  inversion Hnd as [|? ? Hnotin Hnd']; subst.
  destruct (value_eqb (key y) v) eqn:He.
  - right. exists y. apply value_eqb_eq in He.
    split; [|split; [now left | exact He]].
    f_equal. apply filter_none. intros x Hx.
    destruct (value_eqb (key x) v) eqn:Hx'; [|reflexivity].
    apply value_eqb_eq in Hx'. exfalso. apply Hnotin.
    rewrite He, <- Hx'. now apply in_map.
  - destruct (IH Hnd') as [H|[x [H [Hx Hk]]]]; [now left|].
    right. exists x. auto.
Qed.

Lemma Forall2_flat_map_singleton {A B : Type} (P : A -> B -> Prop) (join : A -> list B)
  (l : list A) :
  (forall x, In x l -> exists y, join x = [y] /\ P x y) ->
  Forall2 P l (flat_map join l).
Proof.
  induction l as [|x l IH]; simpl; intros H; [constructor|].
  destruct (H x (or_introl eq_refl)) as [y [-> Hy]]. simpl.
  constructor; [exact Hy|]. apply IH. intros z Hz. apply H. now right.
Qed.

(** The left join of a count table onto a frame keeps the rows of the frame,
    one for one and in order, and adds the count column. *)
Lemma merge_left_counts (left g : DataFrame) (f : string -> nat) (m : string) :
  counts_table g f ->
  String.eqb m "Account" = false ->
  let merged :=
    merge_left left (rename (rename g "account" "Account") "count" m) "Account" in
  columns merged = columns left ++ [m]
  /\ Forall2 (fun l r =>
                (forall a, cell l "Account" = VStr a -> cell r m = count_cell (f a))
                /\ (forall k, String.eqb k m = false -> cell r k = cell l k))
             (rows left) (rows merged).
Proof.
  intros Htab HmA merged.
  destruct (counts_table_rows g f Htab) as [Hnd [Hrows Hall]].
  destruct Htab as [Hcols _].
  assert (Hadded : filter (fun c => negb (String.eqb c "Account"))
                          (columns (rename (rename g "account" "Account") "count" m))
                   = [m]).
  { unfold rename. cbn [columns]. rewrite Hcols. cbn. now rewrite HmA. }
  unfold merged, merge_left. rewrite Hadded. cbn [columns rows].
  split; [reflexivity|].
  apply Forall2_flat_map_singleton. intros l _.
  unfold rename at 1 2. cbn [rows]. rewrite !map_map.
  rewrite filter_map_comm. cbn [cell].
  replace (String.eqb "Account" m) with false by (now rewrite String.eqb_sym, HmA).
  cbn.
  destruct (filter_unique_key (fun r => cell r "account") (rows g) (cell l "Account"))
    as [Hnone|[r0 [Hone [Hr0 Hkey]]]]; [exact Hnd| |].
  - rewrite Hnone. cbn [map].
    eexists. split; [reflexivity|]. cbn. split.
    + intros a Ha. rewrite String.eqb_refl. cbn.
      destruct (f a) as [|n] eqn:Hfa; [reflexivity|].
      exfalso. destruct (Hall a) as [r [Hr Hra]]; [lia|].
      assert (Hin : In r (filter (fun x => value_eqb (cell x "account") (cell l "Account"))
                                 (rows g))).
      { apply filter_In. split; [exact Hr|]. rewrite Hra, Ha. apply value_eqb_refl. }
      now rewrite Hnone in Hin.
    + intros k Hk. now rewrite Hk.
  - rewrite Hone. cbn [map].
    eexists. split; [reflexivity|]. cbn. split.
    + intros a Ha. rewrite !String.eqb_refl. cbn.
      destruct (Hrows r0 Hr0) as [a' [Hacc [Hcnt Hpos]]].
      rewrite Hkey, Ha in Hacc. inversion Hacc; subst a'.
      rewrite Hcnt. destruct (f a); [lia | reflexivity].
    + intros k Hk. now rewrite Hk.
Qed.

Lemma Forall2_compose {A B C : Type} (P : A -> B -> Prop) (Q : B -> C -> Prop)
  (R : A -> C -> Prop) (la : list A) (lb : list B) (lc : list C) :
  (forall a b c, P a b -> Q b c -> R a c) ->
  Forall2 P la lb -> Forall2 Q lb lc -> Forall2 R la lc.
Proof.
  intros H HP. revert lc. induction HP as [|a b la lb Hab _ IH]; intros lc HQ.
  - inversion HQ. constructor.
  - inversion HQ; subst. constructor; eauto.
Qed.

Lemma report_inv_merge (ident : Row -> string) (uname : Row -> Value)
  (count : string -> string -> nat) (done : list string) (S : list Row)
  (left g : DataFrame) (m : string) :
  report_inv ident uname count done S left ->
  counts_table g (count m) ->
  String.eqb m "Account" = false ->
  String.eqb m "Username" = false ->
  ~ In m done ->
  report_inv ident uname count (done ++ [m]) S
             (merge_left left (rename (rename g "account" "Account") "count" m) "Account").
Proof.
  intros [Hcols Hrows] Htab HmA HmU Hnew.
  destruct (merge_left_counts left g (count m) m Htab HmA) as [Hcols' Hrows'].
  split.
  - rewrite Hcols', Hcols. reflexivity.
  - eapply Forall2_compose; [|exact Hrows|exact Hrows'].
    intros p l r [Hacc [Hun Hdone]] [Hm Hkeep]. cbv beta.
    split; [|split].
    + rewrite Hkeep; [exact Hacc|]. now rewrite String.eqb_sym.
    + rewrite Hkeep; [exact Hun|]. now rewrite String.eqb_sym.
    + intros c Hc. apply in_app_or in Hc. destruct Hc as [Hc|[<-|[]]].
      * rewrite Hkeep; [now apply Hdone|].
        apply String.eqb_neq. intros ->. contradiction.
      * now apply Hm.
Qed.

(* ================================================================== *)
(** * The roster part of the report *)

Lemma in_columns_rename_other (df : DataFrame) (old new k : string) :
  String.eqb k old = false -> String.eqb k new = false ->
  in_columns (rename df old new) k = in_columns df k.
Proof.
  intros Ho Hn. unfold in_columns, rename. cbn [columns].
  induction (columns df) as [|c cs IH]; simpl; [reflexivity|].
  rewrite IH. f_equal.
  destruct (String.eqb c old) eqn:Hc.
  - apply String.eqb_eq in Hc. subst c. now rewrite Hn, Ho.
  - reflexivity.
Qed.

Lemma in_columns_rename_new (df : DataFrame) (old new : string) :
  in_columns df old = true -> in_columns (rename df old new) new = true.
Proof.
  unfold in_columns, rename. cbn [columns].
  induction (columns df) as [|c cs IH]; simpl; [discriminate|].
  intros H. apply orb_true_iff in H. destruct H as [H|H].
  - apply String.eqb_eq in H. subst c. now rewrite !String.eqb_refl.
  - rewrite (IH H). apply orb_true_r.
Qed.

Lemma in_columns_setitem (df : DataFrame) (c k : string) (vals : list Value) :
  in_columns (setitem df c vals) k = in_columns df k || String.eqb k c.
Proof.
  unfold in_columns at 1. unfold setitem. cbn [columns].
  destruct (in_columns df c) eqn:Hc.
  - fold (in_columns df k).
    destruct (String.eqb k c) eqn:Hk; [|now rewrite orb_false_r].
    apply String.eqb_eq in Hk. subst k. now rewrite Hc.
  - rewrite existsb_app. simpl. now rewrite orb_false_r.
Qed.

Lemma find_first_column_none (df : DataFrame) (candidates : list string) (c : string) :
  _find_first_column df candidates = None -> In c candidates -> in_columns df c = false.
Proof.
  intros H Hc. exact (find_none _ _ H c Hc).
Qed.

(** The two alias lists share no label, and neither holds the canonical
    label of the other. *)
Lemma roster_aliases_apart (c u : string) :
  In c ("account" :: ACCOUNT_ALIASES) -> In u ("username" :: USERNAME_ALIASES) ->
  String.eqb c u = false /\ String.eqb u c = false.
Proof.
  intros Hc Hu. alias_cases Hc; alias_cases Hu; split; reflexivity.
Qed.

(** Renaming the first alias present to its canonical label. *)
Lemma rename_alias_stage (df : DataFrame) (alias : option string) (target : string) :
  let df' := match alias with
             | Some c => if negb (String.eqb c target) then rename df c target else df
             | None => df
             end in
  exists B : Row -> Row,
    rows df' = map B (rows df)
    /\ (forall k, String.eqb k target = false ->
                  (forall c, alias = Some c -> String.eqb k c = false) ->
                  in_columns df' k = in_columns df k
                  /\ forall r, cell (B r) k = cell r k)
    /\ (forall c, alias = Some c ->
                  (in_columns df c = true -> in_columns df' target = true)
                  /\ forall r, cell (B r) target = cell r c)
    /\ (alias = None -> df' = df /\ forall r, B r = r).
Proof.
  clear str_strip str_lower.
  destruct alias as [c|]; cbn zeta.
  - destruct (String.eqb c target) eqn:Hct; cbn [negb].
    + apply String.eqb_eq in Hct. subst c.
      exists (fun r => r). split; [symmetry; apply map_id|].
      split; [intros; split; reflexivity|].
      split; [|discriminate].
      intros c Hc. inversion Hc; subst c. split; [tauto | reflexivity].
    + exists (fun r =>
                mkRow (fun k => if String.eqb k target then cell r c
                                else if String.eqb k c then VNaN else cell r k)
                      (createdAt_dt r)).
      split; [reflexivity|]. split; [|split; [|discriminate]].
      * intros k Hk Hkc. specialize (Hkc c eq_refl). split.
        -- now apply in_columns_rename_other.
        -- intros r. cbn [cell]. now rewrite Hk, Hkc.
      * intros c' Hc'. inversion Hc'; subst c'. split.
        -- apply in_columns_rename_new.
        -- intros r. cbn [cell]. now rewrite String.eqb_refl.
  - exists (fun r => r). split; [symmetry; apply map_id|].
    split; [intros; split; reflexivity|].
    split; [discriminate|]. intros _. split; reflexivity.
Qed.

(** Making sure a column is there, filled with [None] when it was not. *)
Lemma ensure_column_stage (df : DataFrame) (c : string) :
  let df' := if negb (in_columns df c) then setitem_scalar df c VNone else df in
  exists B : Row -> Row,
    rows df' = map B (rows df)
    /\ in_columns df' c = true
    /\ (forall k, String.eqb k c = false ->
                  in_columns df' k = in_columns df k
                  /\ forall r, cell (B r) k = cell r k)
    /\ (forall r, cell (B r) c = if in_columns df c then cell r c else VNone).
Proof.
  cbn zeta. destruct (in_columns df c) eqn:Hc; cbn [negb].
  - exists (fun r => r). split; [symmetry; apply map_id|].
    split; [exact Hc|]. split; [intros; split; reflexivity | reflexivity].
  - exists (row_set c VNone).
    split.
    { unfold setitem_scalar, setitem. cbn [rows].
      rewrite combine_map_r, map_map. reflexivity. }
    split.
    { unfold setitem_scalar. rewrite in_columns_setitem, String.eqb_refl.
      apply orb_true_r. }
    split.
    + intros k Hk. split.
      * unfold setitem_scalar. rewrite in_columns_setitem, Hk. apply orb_false_r.
      * intros r. cbn [cell row_set]. now rewrite Hk.
    + intros r. cbn [cell row_set]. now rewrite String.eqb_refl.
Qed.

(** The report starts as the surviving roster records, in roster order, each
    with its normalised identity and its username. *)
Lemma report_base_inv (accounts_df : DataFrame) (count : string -> string -> nat) :
  df_empty accounts_df = false ->
  report_inv (roster_identity accounts_df) (roster_username accounts_df) count []
             (surviving_roster accounts_df) (report_base accounts_df).
Proof.
  intros Hne. split; [reflexivity|].
  unfold surviving_roster. rewrite Hne.
  unfold report_base.
  set (acct_col := _find_first_column accounts_df ACCOUNT_ALIASES).
  set (user_col := _find_first_column accounts_df USERNAME_ALIASES).
  destruct (rename_alias_stage accounts_df acct_col "account")
    as [B1 [Hr1 [Hk1 [Hs1 Hn1]]]].
  set (base1 := match acct_col with
                | Some c => if negb (String.eqb c "account")
                            then rename accounts_df c "account" else accounts_df
                | None => accounts_df
                end) in *.
  destruct (rename_alias_stage base1 user_col "username")
    as [B2 [Hr2 [Hk2 [Hs2 Hn2]]]].
  set (base2 := match user_col with
                | Some c => if negb (String.eqb c "username")
                            then rename base1 c "username" else base1
                | None => base1
                end) in *.
  destruct (ensure_column_stage base2 "account") as [B3 [Hr3 [Hin3 [Hk3 Hc3]]]].
  set (base3 := if negb (in_columns base2 "account")
                then setitem_scalar base2 "account" VNone else base2) in *.
  destruct (ensure_column_stage base3 "username") as [B4 [Hr4 [Hin4 [Hk4 Hc4]]]].
  set (base4 := if negb (in_columns base3 "username")
                then setitem_scalar base3 "username" VNone else base3) in *.
  (* the account cell of a row of [base4] *)
  assert (Hacc : forall r, cell (B4 (B3 (B2 (B1 r)))) "account"
                           = roster_account accounts_df r).
  { intros r. rewrite (proj2 (Hk4 "account" eq_refl)), Hc3.
    unfold roster_account. fold acct_col.
    destruct acct_col as [c|] eqn:Hc.
    - destruct (find_first_column_some _ _ _ Hc) as [Hcin Hcol].
      assert (Hau : forall u, user_col = Some u -> String.eqb "account" u = false).
      { intros u Hu. destruct (find_first_column_some _ _ _ Hu) as [Huin _].
        apply (roster_aliases_apart "account" u); [now left | now right]. }
      destruct (Hk2 "account" eq_refl Hau) as [Hi2 Hc2].
      rewrite Hi2, (proj1 (Hs1 c eq_refl) Hcol), Hc2.
      apply (proj2 (Hs1 c eq_refl)).
    - assert (Hau : forall u, user_col = Some u -> String.eqb "account" u = false).
      { intros u Hu. destruct (find_first_column_some _ _ _ Hu) as [Huin _].
        apply (roster_aliases_apart "account" u); [now left | now right]. }
      destruct (Hk2 "account" eq_refl Hau) as [Hi2 _].
      rewrite Hi2, (proj1 (Hn1 eq_refl)).
      rewrite (find_first_column_none accounts_df ACCOUNT_ALIASES "account" Hc);
        [reflexivity | now left]. }
  (* its username cell *)
  assert (Husr : forall r, cell (B4 (B3 (B2 (B1 r)))) "username"
                           = roster_username accounts_df r).
  { intros r. rewrite Hc4, (proj1 (Hk3 "username" eq_refl)),
      (proj2 (Hk3 "username" eq_refl)).
    unfold roster_username. fold user_col.
    assert (Hua : forall k, In k ("username" :: USERNAME_ALIASES) ->
                            String.eqb k "account" = false
                            /\ forall c, acct_col = Some c -> String.eqb k c = false).
    { intros k Hk. split.
      - apply (roster_aliases_apart "account" k); [now left | exact Hk].
      - intros c Hc. destruct (find_first_column_some _ _ _ Hc) as [Hcin _].
        apply (roster_aliases_apart c k); [now right | exact Hk]. }
    destruct user_col as [u|] eqn:Hu.
    - destruct (find_first_column_some _ _ _ Hu) as [Huin Hcol].
      destruct (Hua u (or_intror Huin)) as [Hu1 Hu2].
      destruct (Hk1 u Hu1 Hu2) as [Hi1 Hc1].
      rewrite (proj1 (Hs2 u eq_refl)) by (now rewrite Hi1).
      rewrite (proj2 (Hs2 u eq_refl)). apply Hc1.
    - destruct (Hn2 eq_refl) as [Hb2 HB2]. rewrite Hb2, HB2.
      destruct (Hua "username" (or_introl eq_refl)) as [Hu1 Hu2].
      destruct (Hk1 "username" Hu1 Hu2) as [Hi1 Hc1].
      rewrite Hi1.
      rewrite (find_first_column_none accounts_df USERNAME_ALIASES "username" Hu);
        [reflexivity | now left]. }
  assert (Hrows4 : rows base4 = map (fun r => B4 (B3 (B2 (B1 r)))) (rows accounts_df)).
  { now rewrite Hr4, Hr3, Hr2, Hr1, !map_map. }
  unfold rename at 1 2. unfold select_columns. cbn [rows].
  rewrite df_loc_map_rows, setitem_map_rows, Hrows4.
  rewrite !map_map, filter_map_comm, !map_map.
  apply Forall2_map_r.
  erewrite filter_ext.
  - apply Forall2_diag. intros r _. cbn [cell row_set].
    split; [|split; [|intros c []]].
    + cbn. now rewrite Hacc.
    + cbn. now rewrite Husr.
  - intros r. cbn [cell row_set str_endswith]. cbn.
    unfold roster_identity. now rewrite Hacc.
Qed.

(* ================================================================== *)
(** * Joining and filling the metric columns *)

Lemma merge_metrics_inv (ident : Row -> string) (uname : Row -> Value) (S : list Row)
  (report usage_df askai_df : DataFrame) :
  report_inv ident uname (metric_count usage_df askai_df) [] S report ->
  report_inv ident uname (metric_count usage_df askai_df) columns_to_fill S
             (merge_metrics report usage_df askai_df).
Proof.
  intros Hinv. unfold merge_metrics, METRICS_USAGE_TYPE_MAP. cbn [fold_left fst snd].
  change columns_to_fill
    with ((((((((@nil string ++ ["Logins"]) ++ ["Uploads"]) ++ ["Generated Transcripts"])
               ++ ["Regenerated Transcripts"]) ++ ["Initial Summaries"])
             ++ ["Regenerated Summaries"]) ++ ["Regenerated Notes"])
          ++ ["AskAI Questions"]).
  apply report_inv_merge;
    [ | exact (count_askai_table askai_df) | reflexivity | reflexivity
      | cbn; intuition discriminate ].
  repeat (apply report_inv_merge;
          [ | apply count_usage_table | reflexivity | reflexivity
            | cbn; intuition discriminate ]).
  exact Hinv.
Qed.

(** Before the cast, a metric cell is a count or NaN. *)
Lemma metric_cells_counts (ident : Row -> string) (uname : Row -> Value) (S : list Row)
  (report usage_df askai_df : DataFrame) :
  report_inv ident uname (metric_count usage_df askai_df) [] S report ->
  forall r c, In r (rows (merge_metrics report usage_df askai_df)) ->
              In c columns_to_fill ->
              exists n, cell r c = count_cell n.
Proof.
  intros Hinv r c Hr Hc.
  destruct (merge_metrics_inv _ _ _ _ usage_df askai_df Hinv) as [_ Hrows].
  destruct (Forall2_in_r _ _ _ _ Hrows Hr) as [p [_ [_ [_ Hcells]]]].
  eexists. now apply Hcells.
Qed.

Lemma fill_count_cell (n : nat) :
  astype_int (fillna (VNum 0) (count_cell n)) = VNum (Z.of_nat n).
Proof. destruct n; reflexivity. Qed.

Lemma columns_setitem_present (df : DataFrame) (c : string) (vals : list Value) :
  in_columns df c = true -> columns (setitem df c vals) = columns df.
Proof. intros H. unfold setitem. cbn [columns]. now rewrite H. Qed.

Lemma fill_columns_rows (cols : list string) (report : DataFrame) :
  (forall c, In c cols -> in_columns report c = true) ->
  let filled := fold_left fill_column cols report in
  columns filled = columns report /\ rows filled = map (fill_row cols) (rows report).
Proof.
  revert report. induction cols as [|c cols IH]; intros report Hin; cbv zeta.
  - split; [reflexivity|]. symmetry. apply map_id.
  - cbn [fold_left].
    set (step := setitem report c
                         (map (fun v => astype_int (fillna (VNum 0) v)) (getitem report c))).
    assert (Hs : fill_column report c = step).
    { unfold fill_column. rewrite (Hin c) by now left. reflexivity. }
    rewrite Hs.
    assert (Hstep : forall c', In c' cols -> in_columns step c' = true).
    { intros c' Hc'. unfold step. rewrite in_columns_setitem.
      rewrite (Hin c') by now right. reflexivity. }
    specialize (IH step Hstep). cbv zeta in IH. destruct IH as [Hc Hr].
    split.
    + etransitivity; [exact Hc|].
      unfold step. apply columns_setitem_present. apply Hin. now left.
    + etransitivity; [exact Hr|].
      unfold step. rewrite setitem_map_rows, map_map. reflexivity.
Qed.

Lemma fill_metrics_inv (ident : Row -> string) (uname : Row -> Value)
  (count : string -> string -> nat) (S : list Row) (report : DataFrame) :
  report_inv ident uname count columns_to_fill S report ->
  in_columns (fill_metrics report) "Username" = true
  /\ Forall2 (fun p r =>
                map (cell r) REPORT_COLUMNS
                = VStr (ident p) :: uname p
                  :: map (fun c => VNum (Z.of_nat (count c (ident p)))) columns_to_fill)
             S (rows (fill_metrics report)).
Proof.
  intros [Hcols Hrows].
  destruct (fill_columns_rows columns_to_fill report) as [Hc Hr].
  { intros c Hc. unfold in_columns. rewrite Hcols.
    cbn in Hc. repeat (destruct Hc as [<-|Hc]; [reflexivity|]). contradiction. }
  unfold fill_metrics. split.
  - unfold in_columns at 1. rewrite Hc, Hcols. reflexivity.
  - rewrite Hr. apply Forall2_map_r.
    eapply Forall2_weaken; [|exact Hrows].
    intros p r [Hacc [Hun Hcells]]. cbn.
    rewrite Hacc, Hun.
    rewrite !Hcells by (cbn; tauto).
    now rewrite !fill_count_cell.
Qed.

(* ================================================================== *)
(** * The assembled report *)

Lemma record_leb_rows (a b : Row) :
  record_leb (map (cell a) REPORT_COLUMNS) (map (cell b) REPORT_COLUMNS)
  = row_leb ["Username"; "Account"] a b.
Proof.
  unfold record_leb, row_leb, value_leb, record_username, record_account.
  cbn [row_compare map nth REPORT_COLUMNS].
  destruct (value_compare (cell a "Username") (cell b "Username")); try reflexivity.
  destruct (value_compare (cell a "Account") (cell b "Account")); reflexivity.
Qed.

(** The report is the stable sort, by username then account, of the rows of
    the surviving roster records, each row holding the identity, the username
    and the exact number of matching events under every metric column. *)
Lemma build_report_records (accounts_df usage_df askai_df : DataFrame) :
  columns (build_report_dataframe accounts_df usage_df askai_df) = REPORT_COLUMNS
  /\ to_records (build_report_dataframe accounts_df usage_df askai_df)
     = stable_sort record_leb
                   (map (report_record accounts_df usage_df askai_df)
                        (surviving_roster accounts_df)).
Proof.
  unfold build_report_dataframe, surviving_roster.
  destruct (df_empty accounts_df) eqn:Hne; [split; reflexivity|].
  pose proof (report_base_inv accounts_df (metric_count usage_df askai_df) Hne) as Hbase.
  unfold surviving_roster in Hbase. rewrite Hne in Hbase.
  apply (merge_metrics_inv _ _ _ _ usage_df askai_df) in Hbase.
  apply fill_metrics_inv in Hbase. destruct Hbase as [Huser Hrows].
  rewrite Huser. split; [reflexivity|].
  unfold to_records, select_columns, sort_values. cbn [rows columns].
  rewrite map_map.
  erewrite map_ext; [|intros r; cbn; reflexivity].
  change (fun r : Row =>
            [cell r "Account"; cell r "Username"; cell r "Logins"; cell r "Uploads";
             cell r "Generated Transcripts"; cell r "Regenerated Transcripts";
             cell r "Initial Summaries"; cell r "Regenerated Summaries";
             cell r "Regenerated Notes"; cell r "AskAI Questions"])
    with (fun r : Row => map (cell r) REPORT_COLUMNS).
  rewrite (stable_sort_map (row_leb ["Username"; "Account"]) record_leb)
    by apply record_leb_rows.
  f_equal. symmetry. apply Forall2_map_eq.
  eapply Forall2_weaken; [|exact Hrows].
  intros p r Hr. cbv beta in Hr. rewrite Hr. reflexivity.
Qed.

Lemma to_records_length (df : DataFrame) :
  List.length (to_records df) = List.length (rows df).
Proof. unfold to_records. apply length_map. Qed.

(** Every row of the report is the row of a surviving roster record. *)
Lemma report_rows_spec (accounts_df usage_df askai_df : DataFrame) (r : Row) :
  In r (rows (build_report_dataframe accounts_df usage_df askai_df)) ->
  exists p,
    In p (surviving_roster accounts_df)
    /\ map (cell r) REPORT_COLUMNS = report_record accounts_df usage_df askai_df p.
Proof.
  intros Hr.
  destruct (build_report_records accounts_df usage_df askai_df) as [Hcols Hrecs].
  assert (Hin : In (map (cell r) REPORT_COLUMNS)
                   (to_records (build_report_dataframe accounts_df usage_df askai_df))).
  { unfold to_records. rewrite Hcols. apply in_map_iff. exists r. auto. }
  rewrite Hrecs in Hin. apply stable_sort_in in Hin.
  apply in_map_iff in Hin. destruct Hin as [p [Hp Hin]]. exists p. auto.
Qed.

Lemma report_length (accounts_df usage_df askai_df : DataFrame) :
  List.length (rows (build_report_dataframe accounts_df usage_df askai_df))
  = List.length (surviving_roster accounts_df).
Proof.
  rewrite <- to_records_length.
  rewrite (proj2 (build_report_records accounts_df usage_df askai_df)).
  now rewrite stable_sort_length, length_map.
Qed.

Lemma report_metric_cell (accounts_df usage_df askai_df : DataFrame) (r : Row) (col : string) :
  In r (rows (build_report_dataframe accounts_df usage_df askai_df)) ->
  In col columns_to_fill ->
  exists a,
    cell r "Account" = VStr a
    /\ cell r col = VNum (Z.of_nat (List.length (metric_events usage_df askai_df col a))).
Proof.
  intros Hr Hcol.
  destruct (report_rows_spec _ _ _ r Hr) as [p [_ Hrec]].
  exists (roster_identity accounts_df p).
  unfold report_record in Hrec. cbn [map REPORT_COLUMNS columns_to_fill] in Hrec.
  inversion Hrec as [[Hacc Hun H1 H2 H3 H4 H5 H6 H7 H8]].
  split; [reflexivity|].
  cbn in Hcol.
  repeat (destruct Hcol as [<-|Hcol]; [assumption|]). contradiction.
Qed.

Lemma report_accounts_perm (accounts_df usage_df askai_df : DataFrame) :
  Permutation
    (getitem (build_report_dataframe accounts_df usage_df askai_df) "Account")
    (map (fun p => VStr (roster_identity accounts_df p)) (surviving_roster accounts_df)).
Proof.
  destruct (build_report_records accounts_df usage_df askai_df) as [Hcols Hrecs].
  assert (Hacc : getitem (build_report_dataframe accounts_df usage_df askai_df) "Account"
                 = map record_account
                       (to_records (build_report_dataframe accounts_df usage_df askai_df))).
  { unfold getitem, to_records. rewrite Hcols, map_map. reflexivity. }
  rewrite Hacc, Hrecs.
  rewrite <- (stable_sort_perm record_leb), map_map. reflexivity.
Qed.

(** C2. The report has exactly one row per roster record that survives the
    exclusion (as many rows, carrying the identities of these records), and
    in every row each of the eight metric columns is present and holds a
    non-negative integer: the number of matching events of the row's account,
    hence 0 for an account with no matching event, whatever the event sources
    hold. *)
Theorem build_report_dataframe_rows_and_metrics (accounts_df usage_df askai_df : DataFrame) :
  let report := build_report_dataframe accounts_df usage_df askai_df in
  List.length (rows report) = List.length (surviving_roster accounts_df)
  /\ Permutation (getitem report "Account")
                 (map (fun p => VStr (roster_identity accounts_df p))
                      (surviving_roster accounts_df))
  /\ (forall col, In col columns_to_fill -> In col (columns report))
  /\ (forall r col, In r (rows report) -> In col columns_to_fill ->
        exists (a : string) (z : Z),
          cell r "Account" = VStr a
          /\ cell r col = VNum z
          /\ (0 <= z)%Z
          /\ z = Z.of_nat (List.length (metric_events usage_df askai_df col a))
          /\ (metric_events usage_df askai_df col a = [] -> z = 0%Z)).
Proof.
  intros report. split; [apply report_length|].
  split; [apply report_accounts_perm|]. split.
  - intros col Hcol. unfold report.
    rewrite (proj1 (build_report_records accounts_df usage_df askai_df)).
    cbn in Hcol |- *. tauto.
  - intros r col Hr Hcol.
    destruct (report_metric_cell _ _ _ r col Hr Hcol) as [a [Hacc Hcell]].
    exists a, (Z.of_nat (List.length (metric_events usage_df askai_df col a))).
    repeat split; try assumption; try lia.
    intros ->. reflexivity.
Qed.

(** C10. The Logins and Uploads metrics map to no usage type, the count
    table of an empty list of accepted types is empty, and so both columns
    hold 0 in every row of the report. *)
Theorem logins_and_uploads_always_zero (accounts_df usage_df askai_df : DataFrame) :
  assoc "Logins" METRICS_USAGE_TYPE_MAP = Some []
  /\ assoc "Uploads" METRICS_USAGE_TYPE_MAP = Some []
  /\ rows (count_usage_by_account usage_df []) = []
  /\ forall r, In r (rows (build_report_dataframe accounts_df usage_df askai_df)) ->
               cell r "Logins" = VNum 0 /\ cell r "Uploads" = VNum 0.
Proof.
  split; [reflexivity|]. split; [reflexivity|]. split.
  - unfold count_usage_by_account. now rewrite orb_true_r.
  - intros r Hr. split.
    + destruct (report_metric_cell _ _ _ r "Logins" Hr) as [a [_ H]]; [cbn; tauto|].
      rewrite H. change (metric_events usage_df askai_df "Logins" a)
        with (usage_events usage_df [] a).
      rewrite usage_events_none; [reflexivity | apply orb_true_r].
    + destruct (report_metric_cell _ _ _ r "Uploads" Hr) as [a [_ H]]; [cbn; tauto|].
      rewrite H. change (metric_events usage_df askai_df "Uploads" a)
        with (usage_events usage_df [] a).
      rewrite usage_events_none; [reflexivity | apply orb_true_r].
Qed.

(** C3. The Account values of the report are, up to order, the normalised
    (trimmed, lower-cased) identities of the roster records that do not end
    with the internal suffix "@thinkcol.com".  Hence an identity ending with
    the suffix is never in the report, whatever events it has, and an
    identity that no roster record has is never in the report either. *)
Theorem report_accounts_are_surviving_roster (accounts_df usage_df askai_df : DataFrame) :
  let accounts := getitem (build_report_dataframe accounts_df usage_df askai_df) "Account" in
  Permutation accounts
              (map (fun p => VStr (roster_identity accounts_df p))
                   (surviving_roster accounts_df))
  /\ (forall v, In v accounts <->
        exists p, In p (surviving_roster accounts_df)
                  /\ v = VStr (roster_identity accounts_df p))
  /\ (forall p, In p (surviving_roster accounts_df) <->
        df_empty accounts_df = false
        /\ In p (rows accounts_df)
        /\ PyStr.endswith (str_lower (str_strip (astype_str (roster_account accounts_df p))))
                          "@thinkcol.com" = false)
  /\ (forall a, PyStr.endswith a "@thinkcol.com" = true -> ~ In (VStr a) accounts)
  /\ (forall a, (forall p, In p (rows accounts_df) -> roster_identity accounts_df p <> a) ->
                ~ In (VStr a) accounts).
Proof.
  intros accounts.
  pose proof (report_accounts_perm accounts_df usage_df askai_df) as Hperm.
  fold accounts in Hperm.
  assert (Hin : forall v, In v accounts <->
                          exists p, In p (surviving_roster accounts_df)
                                    /\ v = VStr (roster_identity accounts_df p)).
  { intros v. split.
    - intros Hv. apply (Permutation_in _ Hperm) in Hv.
      apply in_map_iff in Hv. destruct Hv as [p [<- Hp]]. exists p. auto.
    - intros [p [Hp ->]]. apply (Permutation_in _ (Permutation_sym Hperm)).
      apply in_map_iff. exists p. auto. }
  assert (Hsurv : forall p, In p (surviving_roster accounts_df) <->
                            df_empty accounts_df = false
                            /\ In p (rows accounts_df)
                            /\ PyStr.endswith
                                 (str_lower
                                    (str_strip (astype_str (roster_account accounts_df p))))
                                 "@thinkcol.com" = false).
  { intros p. unfold surviving_roster.
    destruct (df_empty accounts_df).
    - simpl. split; [tauto | intros [H _]; discriminate].
    - rewrite filter_In, negb_true_iff. unfold roster_identity, normalize_account,
        INTERNAL_SUFFIX. tauto. }
  split; [exact Hperm|]. split; [exact Hin|]. split; [exact Hsurv|]. split.
  - intros a Ha Hv. apply Hin in Hv. destruct Hv as [p [Hp Heq]].
    inversion Heq; subst a. apply Hsurv in Hp. destruct Hp as [_ [_ Hp]].
    unfold roster_identity, normalize_account in Ha. congruence.
  - intros a Ha Hv. apply Hin in Hv. destruct Hv as [p [Hp Heq]].
    inversion Heq; subst a. apply Hsurv in Hp. destruct Hp as [_ [Hp _]].
    now apply (Ha p).
Qed.

(* ================================================================== *)
(** * Presentation order *)

Lemma stable_sort_ext_in {A : Type} (leb leb' : A -> A -> bool) (l : list A) :
  (forall x y, In x l -> In y l -> leb x y = leb' x y) ->
  stable_sort leb l = stable_sort leb' l.
Proof.
  induction l as [|x l IH]; intros H; simpl; [reflexivity|].
  rewrite <- IH by (intros; apply H; now right).
  assert (Hx : forall y, In y (stable_sort leb l) -> leb x y = leb' x y).
  { intros y Hy. apply H; [now left | right; now apply (stable_sort_in leb l)]. }
  revert Hx. generalize (stable_sort leb l). clear IH H.
  intros s. induction s as [|y s IHs]; intros Hx; simpl; [reflexivity|].
  rewrite <- (Hx y) by now left.
  destruct (leb x y); [reflexivity|].
  f_equal. apply IHs. intros z Hz. apply Hx. now right.
Qed.

(** In a sorted list nothing comes before something it is strictly greater than. *)
Lemma sorted_nth_leb {A : Type} (leb : A -> A -> bool) (l : list A) (i j : nat) (a b : A) :
  StronglySorted (fun x y => leb x y = true) l ->
  i < j -> nth_error l i = Some a -> nth_error l j = Some b -> leb a b = true.
Proof.
  intros Hs. revert i j. induction Hs as [|x l Hs IH Hall]; intros i j Hij Hi Hj.
  - destruct i; discriminate.
  - destruct j as [|j]; [lia|]. simpl in Hj.
    destruct i as [|i]; simpl in Hi.
    + inversion Hi; subst. rewrite Forall_forall in Hall.
      apply Hall. eapply nth_error_In; eassumption.
    + apply (IH i j); [lia | assumption | assumption].
Qed.

Lemma StronglySorted_weaken {A : Type} (R R' : A -> A -> Prop) (l : list A) :
  (forall a b, R a b -> R' a b) -> StronglySorted R l -> StronglySorted R' l.
Proof.
  intros H. induction 1 as [|x l Hs IH Hall]; constructor; [assumption|].
  eapply Forall_impl; [|exact Hall]. intros y. apply H.
Qed.

Lemma record_leb_meaning (a b : list Value) :
  record_leb a b = true ->
  value_compare (record_username a) (record_username b) = Lt
  \/ (value_compare (record_username a) (record_username b) = Eq
      /\ value_compare (record_account a) (record_account b) <> Gt).
Proof.
  unfold record_leb, value_leb.
  destruct (value_compare (record_username a) (record_username b));
    [|now left|discriminate].
  destruct (value_compare (record_account a) (record_account b));
    intros H; try discriminate; right; split; congruence.
Qed.

(** C5. The rows of the report are sorted by username ascending, null
    usernames last, then by account ascending; the sort is stable, so rows
    with the same username and account keep the order of the roster.  When
    the roster has no username field, every Username is null and the order
    is the order by Account alone; the report is produced all the same. *)
Theorem report_sorted_by_username_then_account (accounts_df usage_df askai_df : DataFrame) :
  let recs := to_records (build_report_dataframe accounts_df usage_df askai_df) in
  let roster_order :=
    map (report_record accounts_df usage_df askai_df) (surviving_roster accounts_df) in
  StronglySorted
    (fun a b =>
       value_compare (record_username a) (record_username b) = Lt
       \/ (value_compare (record_username a) (record_username b) = Eq
           /\ value_compare (record_account a) (record_account b) <> Gt))
    recs
  /\ (forall i j a b, i < j -> nth_error recs i = Some a -> nth_error recs j = Some b ->
                      isna (record_username a) = true -> isna (record_username b) = true)
  /\ Permutation roster_order recs
  /\ (forall k, filter (same_key k) recs = filter (same_key k) roster_order)
  /\ (_find_first_column accounts_df USERNAME_ALIASES = None ->
      (forall rec, In rec recs -> record_username rec = VNone)
      /\ recs = stable_sort (fun a b => value_leb (record_account a) (record_account b))
                            roster_order
      /\ StronglySorted
           (fun a b => value_compare (record_account a) (record_account b) <> Gt) recs).
Proof.
  intros recs roster_order.
  assert (Hrecs : recs = stable_sort record_leb roster_order)
    by apply (proj2 (build_report_records accounts_df usage_df askai_df)).
  assert (Hsorted : StronglySorted (fun a b => record_leb a b = true) recs).
  { rewrite Hrecs. apply stable_sort_sorted;
      [apply record_leb_total | apply record_leb_trans]. }
  split; [|split; [|split; [|split]]].
  - eapply StronglySorted_weaken; [|exact Hsorted]. apply record_leb_meaning.
  - intros i j a b Hij Ha Hb Hnull.
    pose proof (sorted_nth_leb record_leb recs i j a b Hsorted Hij Ha Hb) as Hle.
    destruct (isna (record_username b)) eqn:Hb'; [reflexivity|].
    pose proof (value_compare_null_last _ _ Hb' Hnull) as Hlt.
    unfold record_leb in Hle.
    rewrite (value_compare_antisym (record_username b) (record_username a)), Hlt in Hle.
    discriminate.
  - rewrite Hrecs. apply stable_sort_perm.
  - intros k. rewrite Hrecs. apply stable_sort_stable.
    intros x y. apply same_key_leb.
  - intros Hnone.
    assert (Hun : forall rec, In rec roster_order -> record_username rec = VNone).
    { intros rec Hrec. unfold roster_order in Hrec. apply in_map_iff in Hrec.
      destruct Hrec as [p [<- _]].
      unfold report_record, record_username, roster_username. now rewrite Hnone. }
    assert (Hacc : recs = stable_sort
                            (fun a b => value_leb (record_account a) (record_account b))
                            roster_order).
    { rewrite Hrecs. apply stable_sort_ext_in. intros x y Hx Hy.
      unfold record_leb. now rewrite (Hun x Hx), (Hun y Hy). }
    split; [|split].
    + intros rec Hrec. apply Hun. rewrite Hrecs in Hrec.
      now apply (stable_sort_in record_leb roster_order).
    + exact Hacc.
    + rewrite Hacc.
      eapply StronglySorted_weaken;
        [|apply (stable_sort_sorted
                   (fun a b => value_leb (record_account a) (record_account b)))].
      * intros a b. cbv beta. unfold value_leb.
        destruct (value_compare (record_account a) (record_account b)); congruence.
      * intros x y. apply value_leb_total.
      * intros x y z. apply value_leb_trans.
Qed.

(* ================================================================== *)
(** * Runs on identical inputs *)

Lemma frame_equiv_refl (df : DataFrame) : frame_equiv df df.
Proof.
  split; [reflexivity|]. split; [reflexivity|].
  apply Forall2_diag. intros r _. split; reflexivity.
Qed.

Lemma find_first_column_equiv (df df' : DataFrame) (candidates : list string) :
  frame_equiv df df' ->
  _find_first_column df candidates = _find_first_column df' candidates.
Proof.
  intros [Hc _]. unfold _find_first_column, in_columns. now rewrite Hc.
Qed.

Lemma df_empty_equiv (df df' : DataFrame) :
  frame_equiv df df' -> df_empty df = df_empty df'.
Proof.
  intros [Hc [Hh Hr]]. unfold df_empty. rewrite Hc, Hh.
  destruct Hr; reflexivity.
Qed.

Lemma Forall2_filter {A B : Type} (R : A -> B -> Prop) (p : A -> bool) (q : B -> bool)
  (l : list A) (l' : list B) :
  (forall x y, R x y -> p x = q y) ->
  Forall2 R l l' -> Forall2 R (filter p l) (filter q l').
Proof.
  intros H. induction 1 as [|x y l l' Hxy _ IH]; simpl; [constructor|].
  rewrite (H x y Hxy). destruct (q y); [constructor|]; assumption.
Qed.

Lemma Forall2_length_eq {A B : Type} (R : A -> B -> Prop) (l : list A) (l' : list B) :
  Forall2 R l l' -> List.length l = List.length l'.
Proof. induction 1; simpl; congruence. Qed.

Lemma usage_events_equiv (df df' : DataFrame) (usage_types : list string) (a : string) :
  frame_equiv df df' ->
  List.length (usage_events df usage_types a)
  = List.length (usage_events df' usage_types a).
Proof.
  intros He. unfold usage_events.
  rewrite <- !(find_first_column_equiv df df' _ He).
  destruct (_find_first_column df ACCOUNT_ALIASES) as [ac|]; [|reflexivity].
  destruct (_find_first_column df USAGE_TYPE_ALIASES) as [uc|]; [|reflexivity].
  apply (Forall2_length_eq row_equiv). apply Forall2_filter; [|apply He].
  intros x y [Hxy _]. now rewrite !Hxy.
Qed.

Lemma askai_events_equiv (df df' : DataFrame) (a : string) :
  frame_equiv df df' ->
  List.length (askai_events df a) = List.length (askai_events df' a).
Proof.
  intros He. unfold askai_events.
  rewrite <- (find_first_column_equiv df df' _ He).
  destruct (_find_first_column df ACCOUNT_ALIASES) as [ac|]; [|reflexivity].
  apply (Forall2_length_eq row_equiv). apply Forall2_filter; [|apply He].
  intros x y [Hxy _]. now rewrite !Hxy.
Qed.

Lemma metric_events_equiv (usage_df usage_df' askai_df askai_df' : DataFrame)
  (col a : string) :
  frame_equiv usage_df usage_df' -> frame_equiv askai_df askai_df' ->
  List.length (metric_events usage_df askai_df col a)
  = List.length (metric_events usage_df' askai_df' col a).
Proof.
  intros Hu Hk. unfold metric_events.
  destruct (assoc col METRICS_USAGE_TYPE_MAP); [now apply usage_events_equiv|].
  destruct (String.eqb col "AskAI Questions"); [now apply askai_events_equiv | reflexivity].
Qed.

Lemma roster_identity_equiv (df df' : DataFrame) (r r' : Row) :
  frame_equiv df df' -> row_equiv r r' ->
  roster_identity df r = roster_identity df' r'
  /\ roster_username df r = roster_username df' r'.
Proof.
  intros He [Hr _]. unfold roster_identity, roster_account, roster_username.
  rewrite <- !(find_first_column_equiv df df' _ He).
  split.
  - destruct (_find_first_column df ACCOUNT_ALIASES); [now rewrite Hr | reflexivity].
  - destruct (_find_first_column df USERNAME_ALIASES); [now rewrite Hr | reflexivity].
Qed.

(** C9. Two runs of the report assembler on inputs with the same contents
    yield the same table: the same columns and, row by row, the same cells.
    In particular two runs on the very same inputs yield the very same frame. *)
Theorem build_report_dataframe_deterministic
  (accounts_df usage_df askai_df accounts_df' usage_df' askai_df' : DataFrame) :
  frame_equiv accounts_df accounts_df' ->
  frame_equiv usage_df usage_df' ->
  frame_equiv askai_df askai_df' ->
  columns (build_report_dataframe accounts_df usage_df askai_df)
  = columns (build_report_dataframe accounts_df' usage_df' askai_df')
  /\ to_records (build_report_dataframe accounts_df usage_df askai_df)
     = to_records (build_report_dataframe accounts_df' usage_df' askai_df')
  /\ (accounts_df = accounts_df' -> usage_df = usage_df' -> askai_df = askai_df' ->
      build_report_dataframe accounts_df usage_df askai_df
      = build_report_dataframe accounts_df' usage_df' askai_df').
Proof.
  intros Ha Hu Hk.
  destruct (build_report_records accounts_df usage_df askai_df) as [Hc Hr].
  destruct (build_report_records accounts_df' usage_df' askai_df') as [Hc' Hr'].
  split; [congruence|]. split; [|intros; congruence].
  rewrite Hr, Hr'. f_equal.
  apply Forall2_map_eq.
  assert (Hs : Forall2 row_equiv (surviving_roster accounts_df)
                       (surviving_roster accounts_df')).
  { unfold surviving_roster. rewrite <- (df_empty_equiv _ _ Ha).
    destruct (df_empty accounts_df); [constructor|].
    apply Forall2_filter; [|apply Ha].
    intros x y Hxy. now rewrite (proj1 (roster_identity_equiv _ _ _ _ Ha Hxy)). }
  eapply Forall2_weaken; [|exact Hs].
  intros p p' Hp. unfold report_record.
  destruct (roster_identity_equiv _ _ _ _ Ha Hp) as [Hid Hun].
  rewrite Hid, Hun. f_equal. f_equal.
  apply map_ext. intros col.
  now rewrite (metric_events_equiv usage_df usage_df' askai_df askai_df' col _ Hu Hk).
Qed.

(* ================================================================== *)
(** * The command-line entry point *)

Section MainFacts.

Variable to_numeric : Value -> option Q.
Variable to_datetime_unit : TimeUnit -> Q -> option Instant.
Variable to_datetime : Value -> option Instant.
Variable getenv : string -> option string.
Variable get_data_from_dynamodb : string -> string -> string -> string -> Result DataFrame.
Variable now : Instant.
Variable generated_at : Instant.
Variable strftime_Ymd : Instant -> string.
Variable str_timestamp : Instant -> string.
Variable str_int : nat -> string.
Variable str_value_counts : DataFrame -> string -> string.
Variable xlsx_bytes : DataFrame -> Result (list Byte.byte).
Variable docx_bytes : DataFrame -> Instant -> Instant -> Instant -> Result (list Byte.byte).

Local Abbreviation run_main :=
  (main to_numeric to_datetime_unit to_datetime getenv get_data_from_dynamodb now
        generated_at strftime_Ymd str_timestamp str_int str_value_counts
        xlsx_bytes docx_bytes).
Local Abbreviation run_prepare :=
  (main_prepare to_numeric to_datetime_unit to_datetime getenv get_data_from_dynamodb now
                strftime_Ymd str_timestamp str_int str_value_counts).
Local Abbreviation run_export := (main_export generated_at xlsx_bytes docx_bytes).

(** The calls of [app.py] bind their arguments: their outcome is the outcome
    of the exporter's body. *)
Lemma app_export_binds (fmt : Format) (report_df : DataFrame) (start_dt end_dt : Instant) :
  app_export generated_at xlsx_bytes docx_bytes fmt report_df start_dt end_dt
  = match fmt with
    | excel => xlsx_bytes report_df
    | docx => docx_bytes report_df start_dt end_dt generated_at
    end.
Proof.
  destruct fmt; reflexivity.
Qed.

Lemma main_export_raises (fmt : Format) (report_df : DataFrame) (output_path : string)
  (start_dt end_dt : Instant) (out : list string) :
  run_export fmt report_df output_path start_dt end_dt out = (out, inl TypeError).
Proof.
  destruct fmt; reflexivity.
Qed.

(** C6. [main] passes two positional arguments to [export_excel], declared
    with one parameter, and four to [export_docx], declared with three:
    both calls raise [TypeError].  So the export step of [main] raises
    [TypeError] without printing anything, every run of [main] that reaches
    it ends with that [TypeError], and no run of [main] completes: what it
    prints is what the steps before the export printed, never a success
    message. *)
Theorem main_export_always_raises_TypeError (args : Namespace) (out : list string) :
  (forall report_df output_path,
      List.length [PyFrame report_df; PyString output_path] = 2
      /\ export_excel xlsx_bytes [PyFrame report_df; PyString output_path] = inl TypeError)
  /\ (forall report_df output_path start_dt end_dt,
         List.length [PyFrame report_df; PyString output_path;
                      PyTimestamp start_dt; PyTimestamp end_dt] = 4
         /\ export_docx generated_at docx_bytes
                        [PyFrame report_df; PyString output_path;
                         PyTimestamp start_dt; PyTimestamp end_dt] = inl TypeError)
  /\ (forall fmt report_df output_path start_dt end_dt out',
         run_export fmt report_df output_path start_dt end_dt out' = (out', inl TypeError))
  /\ (forall out' prepared,
         run_prepare args out = (out', inr prepared) ->
         run_main args out = (out', inl TypeError))
  /\ (exists e, snd (run_main args out) = inl e)
  /\ fst (run_main args out) = fst (run_prepare args out).
Proof.
  split; [intros; split; reflexivity|].
  split; [intros; split; reflexivity|].
  split; [intros; apply main_export_raises|].
  unfold main, io_bind.
  destruct (run_prepare args out) as [out' [e|[[[report_df output_path] start_dt] end_dt]]].
  - split; [discriminate|]. split; [exists e; reflexivity | reflexivity].
  - rewrite main_export_raises.
    split; [intros ? ? H; inversion H; reflexivity|].
    split; [exists TypeError; reflexivity | reflexivity].
Qed.

End MainFacts.

(* ================================================================== *)
(** * Schema resolution, further *)

Lemma find_first_split {A : Type} (p : A -> bool) (l : list A) (c : A) :
  find p l = Some c <->
  exists before after,
    l = before ++ c :: after /\ p c = true /\ forall x, In x before -> p x = false.
Proof.
  induction l as [|y l IH]; simpl.
  - split; [discriminate|]. intros [[|? ?] [after [H _]]]; discriminate.
  - destruct (p y) eqn:Hy.
    + split.
      * intros H. inversion H; subst. exists [], l. simpl.
        split; [reflexivity|]. split; [assumption|]. intros x [].
      * intros [[|z before] [after [Hl [Hc Hb]]]]; simpl in Hl; inversion Hl; subst.
        -- reflexivity.
        -- rewrite (Hb z) in Hy by now left. discriminate.
    + rewrite IH. split.
      * intros [before [after [-> [Hc Hb]]]]. exists (y :: before), after.
        simpl. split; [reflexivity|]. split; [assumption|].
        intros x [<-|Hx]; auto.
      * intros [[|z before] [after [Hl [Hc Hb]]]]; simpl in Hl; inversion Hl; subst.
        -- congruence.
        -- exists before, after. split; [reflexivity|]. split; [assumption|].
           intros x Hx. apply Hb. now right.
Qed.

(** X1. [_find_first_column] returns the first candidate, in the order of the
    list, that is a column of the frame: the candidates before it are all
    absent.  It returns nothing exactly when no candidate is a column. *)
Theorem find_first_column_priority (df : DataFrame) (candidates : list string) :
  (forall c,
      _find_first_column df candidates = Some c <->
      exists before after,
        candidates = before ++ c :: after
        /\ in_columns df c = true
        /\ forall x, In x before -> in_columns df x = false)
  /\ (_find_first_column df candidates = None <->
      forall x, In x candidates -> in_columns df x = false).
Proof.
  split.
  - intros c. apply find_first_split.
  - split.
    + intros H x Hx. exact (find_none _ _ H x Hx).
    + intros H. unfold _find_first_column.
      destruct (find (in_columns df) candidates) as [c|] eqn:Hc; [|reflexivity].
      apply find_some in Hc. destruct Hc as [Hin Hcol].
      rewrite (H c Hin) in Hcol. discriminate.
Qed.

(* ================================================================== *)
(** * Normalisation of identities *)

Lemma is_space_lower_ascii (c : ascii) :
  AsciiStr.is_space (AsciiStr.lower_ascii c) = AsciiStr.is_space c.
Proof. destruct c as [[] [] [] [] [] [] [] []]; reflexivity. Qed.

Lemma lower_append (s t : string) :
  AsciiStr.lower (s ++ t)%string = (AsciiStr.lower s ++ AsciiStr.lower t)%string.
Proof.
  induction s as [|c s IH]; simpl; [reflexivity | now rewrite IH].
Qed.

Lemma string_append_assoc (s t u : string) :
  ((s ++ t) ++ u = s ++ (t ++ u))%string.
Proof.
  induction s as [|c s IH]; simpl; [reflexivity | now rewrite IH].
Qed.

Lemma string_length_append (s t : string) :
  String.length (s ++ t)%string = String.length s + String.length t.
Proof.
  induction s as [|c s IH]; simpl; [reflexivity | now rewrite IH].
Qed.

Lemma substring_whole (s : string) : substring 0 (String.length s) s = s.
Proof.
  induction s as [|c s IH]; simpl; [reflexivity | now rewrite IH].
Qed.

Lemma substring_skip (p s : string) (m : nat) :
  substring (String.length p) m (p ++ s)%string = substring 0 m s.
Proof.
  induction p as [|c p IH]; simpl; [reflexivity | exact IH].
Qed.

Lemma endswith_append (p suffix : string) :
  PyStr.endswith (p ++ suffix)%string suffix = true.
Proof.
  unfold PyStr.endswith. rewrite string_length_append.
  replace (String.length p + String.length suffix - String.length suffix)
    with (String.length p) by lia.
  rewrite substring_skip, substring_whole, String.eqb_refl.
  rewrite andb_true_r. apply Nat.leb_le. lia.
Qed.

Lemma no_space_lower (s : string) : no_space (AsciiStr.lower s) = no_space s.
Proof.
  induction s as [|c s IH]; simpl; [reflexivity|].
  now rewrite is_space_lower_ascii, IH.
Qed.

Lemma rstrip_all_space (ws : string) : all_space ws = true -> AsciiStr.rstrip ws = EmptyString.
Proof.
  induction ws as [|c ws IH]; simpl; [reflexivity|].
  intros H. apply andb_true_iff in H. destruct H as [Hc Hws].
  now rewrite (IH Hws), Hc.
Qed.

Lemma rstrip_append_space (s ws : string) :
  all_space ws = true -> AsciiStr.rstrip (s ++ ws)%string = AsciiStr.rstrip s.
Proof.
  intros Hws. induction s as [|c s IH]; simpl.
  - now apply rstrip_all_space.
  - now rewrite IH.
Qed.

Lemma rstrip_no_space (t : string) : no_space t = true -> AsciiStr.rstrip t = t.
Proof.
  induction t as [|c t IH]; simpl; [reflexivity|].
  intros H. apply andb_true_iff in H. destruct H as [Hc Ht].
  rewrite (IH Ht). apply negb_true_iff in Hc. rewrite Hc. now destruct t.
Qed.

Lemma rstrip_append_no_space (p t : string) :
  no_space t = true -> t <> EmptyString -> AsciiStr.rstrip (p ++ t)%string = (p ++ t)%string.
Proof.
  intros Ht Hne. induction p as [|c p IH]; simpl.
  - now apply rstrip_no_space.
  - rewrite IH. destruct (p ++ t)%string eqn:Hpt; [|reflexivity].
    destruct p; simpl in Hpt; [contradiction | discriminate].
Qed.

Lemma lstrip_append_no_space (p t : string) :
  no_space t = true -> exists p', AsciiStr.lstrip (p ++ t)%string = (p' ++ t)%string.
Proof.
  intros Ht. induction p as [|c p IH]; simpl.
  - exists EmptyString. destruct t as [|d t]; simpl in *; [reflexivity|].
    apply andb_true_iff in Ht. destruct Ht as [Hd _].
    apply negb_true_iff in Hd. now rewrite Hd.
  - destruct (AsciiStr.is_space c); [exact IH|].
    exists (String c p). reflexivity.
Qed.

(** The ASCII normalisation of a text that ends with [t], whitespace aside,
    ends with the lower-cased [t]. *)
Lemma ascii_normalisation_suffix (prefix t ws : string) :
  no_space t = true -> t <> EmptyString -> all_space ws = true ->
  exists p', AsciiStr.lower (AsciiStr.strip (prefix ++ t ++ ws))
             = (p' ++ AsciiStr.lower t)%string.
Proof.
  intros Ht Hne Hws. unfold AsciiStr.strip.
  rewrite <- string_append_assoc, (rstrip_append_space _ ws Hws).
  rewrite (rstrip_append_no_space prefix t Ht Hne).
  destruct (lstrip_append_no_space prefix t Ht) as [p' Hp].
  rewrite Hp, lower_append. now exists (AsciiStr.lower p').
Qed.

Lemma report_account_not_internal (accounts_df usage_df askai_df : DataFrame) (a : string) :
  In (VStr a) (getitem (build_report_dataframe accounts_df usage_df askai_df) "Account") ->
  PyStr.endswith a INTERNAL_SUFFIX = false.
Proof.
  intros H.
  apply (Permutation_in _ (report_accounts_perm accounts_df usage_df askai_df)) in H.
  apply in_map_iff in H. destruct H as [p [Heq Hp]]. inversion Heq; subst a.
  unfold surviving_roster in Hp. destruct (df_empty accounts_df); [contradiction|].
  apply filter_In in Hp. destruct Hp as [_ Hp]. now apply negb_true_iff in Hp.
Qed.

(** X3. On ASCII text the exclusion of internal accounts is blind to letter
    case and to trailing whitespace.  Take an account text that ends with
    "@thinkcol.com" written in any mix of ASCII cases, possibly followed by
    ASCII whitespace, and on which [str.strip] and [str.lower] act as they do
    on ASCII text: its identity ends with the suffix and is in no report. *)
Theorem internal_accounts_excluded_any_case
  (accounts_df usage_df askai_df : DataFrame) (prefix t ws : string) :
  AsciiStr.lower t = "@thinkcol.com" ->
  all_space ws = true ->
  str_strip (prefix ++ t ++ ws) = AsciiStr.strip (prefix ++ t ++ ws) ->
  str_lower (AsciiStr.strip (prefix ++ t ++ ws))
  = AsciiStr.lower (AsciiStr.strip (prefix ++ t ++ ws)) ->
  PyStr.endswith (normalize_account (VStr (prefix ++ t ++ ws))) "@thinkcol.com" = true
  /\ ~ In (VStr (normalize_account (VStr (prefix ++ t ++ ws))))
          (getitem (build_report_dataframe accounts_df usage_df askai_df) "Account").
Proof.
  intros Ht Hws Hstrip Hlower.
  assert (Hns : no_space t = true) by (rewrite <- no_space_lower, Ht; reflexivity).
  assert (Hne : t <> EmptyString) by (intros ->; discriminate).
  destruct (ascii_normalisation_suffix prefix t ws Hns Hne Hws) as [p' Hp].
  assert (Hend : PyStr.endswith (normalize_account (VStr (prefix ++ t ++ ws)))
                                "@thinkcol.com" = true).
  { unfold normalize_account. cbn [astype_str].
    rewrite Hstrip, Hlower, Hp, Ht. apply endswith_append. }
  split; [exact Hend|].
  intros Hin. apply report_account_not_internal in Hin.
  unfold INTERNAL_SUFFIX in Hin. congruence.
Qed.

(* ================================================================== *)
(** * Timestamps, further *)

Lemma set_createdAt_dt_twice (l : list Row) (ts ts' : list (option Instant)) :
  List.length ts = List.length l ->
  map (fun rt : Row * option Instant => mkRow (cell (fst rt)) (snd rt))
      (combine (map (fun rt : Row * option Instant => mkRow (cell (fst rt)) (snd rt))
                    (combine l ts))
               ts')
  = map (fun rt : Row * option Instant => mkRow (cell (fst rt)) (snd rt)) (combine l ts').
Proof.
  revert ts ts'. induction l as [|r l IH]; intros [|t ts] [|t' ts'] H; simpl in *;
    try reflexivity; try discriminate.
  f_equal. apply IH. now injection H.
Qed.

Lemma getitem_set_createdAt_dt (df : DataFrame) (ts : list (option Instant)) (c : string) :
  List.length ts = List.length (rows df) ->
  getitem (set_createdAt_dt df ts) c = getitem df c.
Proof.
  intros H. unfold getitem.
  rewrite <- (map_map cell (fun f => f c)), (cells_set_createdAt_dt df ts H).
  now rewrite map_map.
Qed.

Lemma df_empty_set_createdAt_dt (df : DataFrame) (ts : list (option Instant)) :
  List.length ts = List.length (rows df) ->
  df_empty df = false -> df_empty (set_createdAt_dt df ts) = false.
Proof.
  unfold df_empty, set_createdAt_dt. cbn [rows columns has_createdAt_dt].
  destruct (rows df) as [|r l]; [discriminate|].
  destruct ts as [|t ts]; [discriminate|].
  intros _ _. simpl. now destruct (columns df).
Qed.

Section PandasMore.

Variable to_numeric : Value -> option Q.
Variable to_datetime_unit : TimeUnit -> Q -> option Instant.
Variable to_datetime : Value -> option Instant.

Local Abbreviation coerce := (coerce_created_at to_numeric to_datetime_unit to_datetime).
Local Abbreviation date_filter := (filter_by_date to_numeric to_datetime_unit to_datetime).
Local Abbreviation instants := (with_instants to_numeric to_datetime_unit to_datetime).
Local Abbreviation date_range := (resolve_date_range to_datetime).
Local Abbreviation coerced_instants :=
  (coerced_instants to_numeric to_datetime_unit to_datetime).

Lemma coerced_instants_length (raw : list Value) :
  List.length (coerced_instants raw) = List.length raw.
Proof.
  unfold coerced_instants.
  destruct (notna_mean_gt_half _); [destruct (gt_1e12 _)|]; now rewrite !length_map.
Qed.

Lemma coerce_created_at_resolved (df : DataFrame) (c : string) :
  df_empty df = false ->
  _find_first_column df CREATED_AT_ALIASES = Some c ->
  coerce df = set_createdAt_dt df (coerced_instants (getitem df c)).
Proof.
  intros He Hc. unfold coerce_created_at. now rewrite He, Hc.
Qed.

(** X4. [coerce_created_at] only adds the instant column: the columns, the
    number of rows and every cell are as before.  It is idempotent: coercing
    a coerced frame gives the same frame again. *)
Theorem coerce_created_at_idempotent (df : DataFrame) :
  columns (coerce df) = columns df
  /\ List.length (rows (coerce df)) = List.length (rows df)
  /\ map cell (rows (coerce df)) = map cell (rows df)
  /\ coerce (coerce df) = coerce df.
Proof.
  destruct (df_empty df) eqn:He.
  { assert (H : coerce df = df) by (unfold coerce_created_at; now rewrite He).
    rewrite !H. auto. }
  destruct (_find_first_column df CREATED_AT_ALIASES) as [c|] eqn:Hc.
  2:{ rewrite !(coerce_created_at_unresolved _ _ _ df Hc). auto. }
  rewrite (coerce_created_at_resolved df c He Hc).
  set (ts := coerced_instants (getitem df c)).
  assert (Hlen : List.length ts = List.length (rows df)).
  { unfold ts. rewrite coerced_instants_length. unfold getitem. apply length_map. }
  assert (Hcells : map cell (rows (set_createdAt_dt df ts)) = map cell (rows df))
    by now apply cells_set_createdAt_dt.
  split; [reflexivity|]. split; [|split; [exact Hcells|]].
  - rewrite <- (length_map cell), Hcells. apply length_map.
  - rewrite (coerce_created_at_resolved (set_createdAt_dt df ts) c).
    + rewrite (getitem_set_createdAt_dt df ts c Hlen). fold ts.
      unfold set_createdAt_dt. cbn [columns rows]. f_equal.
      now apply set_createdAt_dt_twice.
    + now apply df_empty_set_createdAt_dt.
    + exact Hc.
Qed.

Lemma Timedelta_days_scale (k : Z) : Timedelta_days k = (k * Timedelta_days 1)%Z.
Proof. unfold Timedelta_days. lia. Qed.

Lemma Timedelta_day_pos : (0 < Timedelta_days 1)%Z.
Proof. reflexivity. Qed.

Lemma normalize_mod (d : Instant) : normalize d = d <-> (d mod Timedelta_days 1 = 0)%Z.
Proof. unfold normalize. lia. Qed.

Lemma normalize_idem (t : Instant) : normalize (normalize t) = normalize t.
Proof.
  apply normalize_mod. unfold normalize.
  pose proof (Z.div_mod t (Timedelta_days 1)) as H.
  replace (t - t mod Timedelta_days 1)%Z with ((t / Timedelta_days 1) * Timedelta_days 1)%Z
    by (pose proof Timedelta_day_pos; lia).
  apply Z.mod_mul. pose proof Timedelta_day_pos. lia.
Qed.

(** Midnight of a day plus some whole days plus part of a day is in the day
    reached. *)
Lemma normalize_shift (d k r : Z) :
  normalize d = d -> (0 <= r < Timedelta_days 1)%Z ->
  normalize (d + k * Timedelta_days 1 + r)%Z = (d + k * Timedelta_days 1)%Z.
Proof.
  intros Hd Hr. apply normalize_mod in Hd.
  assert (Hmod : ((d + k * Timedelta_days 1 + r) mod Timedelta_days 1 = r)%Z).
  { pose proof (Z.div_mod d (Timedelta_days 1)) as Hdm.
    replace (d + k * Timedelta_days 1 + r)%Z
      with (r + (d / Timedelta_days 1 + k) * Timedelta_days 1)%Z
      by (pose proof Timedelta_day_pos; lia).
    rewrite Z_mod_plus_full. now apply Z.mod_small. }
  unfold normalize. rewrite Hmod. lia.
Qed.

Lemma normalize_le (t : Instant) :
  (normalize t <= t < normalize t + Timedelta_days 1)%Z.
Proof.
  unfold normalize.
  pose proof (Z.mod_pos_bound t (Timedelta_days 1) Timedelta_day_pos). lia.
Qed.

(** X5. When no start date is given, [resolve_date_range] starts the interval
    at the midnight of the day 29 days before the day of its end.  For an end
    date that is a whole day the interval is 30 days less one second long;
    with no end date either it runs from the midnight 29 days before today to
    23:59:59 of today, so [now] is after its start and less than one second
    after its end. *)
Theorem resolve_date_range_default_start (now : Instant)
  (start_date_str end_date_str : option string) (start_dt end_dt : Instant) :
  truthy start_date_str = None ->
  date_range now start_date_str end_date_str = inr (start_dt, end_dt) ->
  start_dt = normalize (end_dt - Timedelta_days 29)%Z
  /\ (forall d, normalize d = d ->
                end_dt = (d + Timedelta_days 1 - Timedelta_seconds 1)%Z ->
                start_dt = (d - Timedelta_days 29)%Z
                /\ (end_dt - start_dt = Timedelta_days 30 - Timedelta_seconds 1)%Z)
  /\ (truthy end_date_str = None ->
      end_dt = (normalize now + Timedelta_days 1 - Timedelta_seconds 1)%Z
      /\ start_dt = (normalize now - Timedelta_days 29)%Z
      /\ (start_dt <= now < end_dt + Timedelta_seconds 1)%Z).
Proof.
  intros Hstart Hrange.
  assert (Hs : start_dt = normalize (end_dt - Timedelta_days 29)%Z).
  { unfold resolve_date_range, to_datetime_scalar, bind, ret, raise in Hrange.
    rewrite Hstart in Hrange.
    destruct (truthy end_date_str) as [s|].
    - destruct (to_datetime (VStr s)); [|discriminate]. now inversion Hrange.
    - now inversion Hrange. }
  assert (Hwhole : forall d, normalize d = d ->
                     end_dt = (d + Timedelta_days 1 - Timedelta_seconds 1)%Z ->
                     start_dt = (d - Timedelta_days 29)%Z
                     /\ (end_dt - start_dt
                         = Timedelta_days 30 - Timedelta_seconds 1)%Z).
  { intros d Hd He.
    assert (Hsd : start_dt = (d - Timedelta_days 29)%Z).
    { rewrite Hs, He.
      replace (d + Timedelta_days 1 - Timedelta_seconds 1 - Timedelta_days 29)%Z
        with (d + (-29) * Timedelta_days 1
              + (Timedelta_days 1 - Timedelta_seconds 1))%Z
        by (rewrite (Timedelta_days_scale 29); lia).
      rewrite (normalize_shift d (-29)); [rewrite (Timedelta_days_scale 29); lia | exact Hd |].
      unfold Timedelta_days, Timedelta_seconds, NS_PER_SECOND. lia. }
    split; [exact Hsd|]. rewrite Hsd, He.
    rewrite (Timedelta_days_scale 29), (Timedelta_days_scale 30). lia. }
  split; [exact Hs|]. split; [exact Hwhole|].
  intros Hend.
  assert (He : end_dt = (normalize now + Timedelta_days 1 - Timedelta_seconds 1)%Z).
  { unfold resolve_date_range, to_datetime_scalar, bind, ret, raise in Hrange.
    rewrite Hstart, Hend in Hrange. now inversion Hrange. }
  destruct (Hwhole (normalize now) (normalize_idem now) He) as [Hsd _].
  split; [exact He|]. split; [exact Hsd|].
  pose proof (normalize_le now) as Hn.
  rewrite Hsd, He.
  assert (0 <= Timedelta_days 29)%Z by (unfold Timedelta_days, NS_PER_SECOND; lia).
  lia.
Qed.

Lemma within_inter (s e s' e' : Instant) (t : option Instant) :
  within s' e' t && within s e t = within (Z.max s s') (Z.min e e') t.
Proof.
  destruct t as [x|]; simpl; [|reflexivity].
  destruct (Z.leb_spec s' x), (Z.leb_spec x e'), (Z.leb_spec s x), (Z.leb_spec x e),
    (Z.leb_spec (Z.max s s') x), (Z.leb_spec x (Z.min e e')); simpl; try reflexivity; lia.
Qed.

(** The frame [filter_by_date] returns for a non-empty frame. *)
Lemma filter_by_date_frame (df : DataFrame) (start_dt end_dt : Instant) :
  df_empty df = false ->
  date_filter df start_dt end_dt
  = mkDF (columns (instants df)) (has_createdAt_dt (instants df))
         (filter (fun r => within start_dt end_dt (instant_of (instants df) r))
                 (rows (instants df))).
Proof.
  intros Hne. unfold filter_by_date, with_instants, instant_of. rewrite Hne.
  set (df' := if negb (has_createdAt_dt df) then coerce df else df).
  assert (Hdf : (if has_createdAt_dt df then df else coerce df) = df').
  { unfold df'. now destruct (has_createdAt_dt df). }
  rewrite Hdf. clear Hdf.
  destruct (has_createdAt_dt df') eqn:Hhas; simpl.
  - destruct (forallb is_nat_instant (map createdAt_dt (rows df'))) eqn:Hall; simpl.
    + unfold iloc_none. rewrite Hhas. f_equal. symmetry. apply filter_none. intros r Hr.
      rewrite forallb_forall in Hall.
      specialize (Hall (createdAt_dt r) (in_map _ _ _ Hr)).
      destruct (createdAt_dt r); [discriminate | reflexivity].
    + unfold df_loc. rewrite Hhas. f_equal.
      rewrite map_map, select_mask_map. apply filter_ext.
      intros r. destruct (createdAt_dt r); reflexivity.
  - unfold iloc_none. rewrite Hhas. f_equal. symmetry. now apply filter_none.
Qed.

(** X7. Filtering an already filtered collection by a second interval is
    filtering the collection once by the intersection of the two intervals;
    in particular filtering twice by the same interval changes nothing, and
    an interval whose end is before its start keeps no row. *)
Theorem filter_by_date_composes (df : DataFrame) (s e s' e' : Instant) :
  date_filter (date_filter df s e) s' e' = date_filter df (Z.max s s') (Z.min e e')
  /\ date_filter (date_filter df s e) s e = date_filter df s e
  /\ ((e < s)%Z -> df_empty df = false -> rows (date_filter df s e) = []).
Proof.
  assert (Hcomp : forall a b a' b',
             date_filter (date_filter df a b) a' b'
             = date_filter df (Z.max a a') (Z.min b b')).
  { intros a b a' b'.
    destruct (df_empty df) eqn:Hne.
    { unfold filter_by_date. rewrite Hne. cbn zeta. now rewrite Hne. }
    rewrite (filter_by_date_frame df a b Hne),
      (filter_by_date_frame df (Z.max a a') (Z.min b b') Hne).
    set (df' := instants df).
    set (kept := filter (fun r => within a b (instant_of df' r)) (rows df')).
    assert (Hsub : forall r, within (Z.max a a') (Z.min b b') (instant_of df' r) = true ->
                             within a b (instant_of df' r) = true).
    { intros r H. rewrite <- within_inter in H. now apply andb_true_iff in H. }
    destruct (df_empty (mkDF (columns df') (has_createdAt_dt df') kept)) eqn:Hk.
    - assert (Hnil : kept = []).
      { unfold df_empty in Hk. cbn [rows columns has_createdAt_dt] in Hk.
        destruct kept as [|r l] eqn:Hkept; [reflexivity|].
        destruct (columns df'); [|discriminate].
        apply negb_true_iff in Hk.
        assert (Hr : In r kept) by (rewrite Hkept; now left).
        apply filter_In in Hr. destruct Hr as [_ Hr].
        unfold instant_of in Hr. rewrite Hk in Hr. discriminate. }
      transitivity (mkDF (columns df') (has_createdAt_dt df') kept).
      + unfold filter_by_date. now rewrite Hk.
      + f_equal. rewrite Hnil. symmetry. apply filter_none. intros r Hr.
        destruct (within (Z.max a a') (Z.min b b') (instant_of df' r)) eqn:Hw;
          [|reflexivity].
        assert (Hin : In r kept) by (apply filter_In; split; [exact Hr | now apply Hsub]).
        rewrite Hnil in Hin. contradiction.
    - assert (Hhas : has_createdAt_dt df' = true).
      { destruct (has_createdAt_dt df') eqn:Hh; [reflexivity|].
        unfold df_empty in Hk. cbn [rows columns has_createdAt_dt] in Hk.
        destruct kept as [|r l] eqn:Hkept; [discriminate|].
        assert (Hr : In r kept) by (rewrite Hkept; now left).
        apply filter_In in Hr. destruct Hr as [_ Hr].
        unfold instant_of in Hr. rewrite Hh in Hr. discriminate. }
      rewrite (filter_by_date_frame _ a' b' Hk).
      unfold with_instants. cbn [has_createdAt_dt]. rewrite Hhas.
      cbn [columns rows has_createdAt_dt]. f_equal.
      unfold kept. rewrite filter_filter_andb. apply filter_ext. intros r.
      unfold instant_of at 1. cbn [has_createdAt_dt].
      unfold instant_of. rewrite Hhas. apply within_inter. }
  split; [apply Hcomp|]. split.
  - rewrite Hcomp. now rewrite Z.max_id, Z.min_id.
  - intros Hlt Hne. rewrite (filter_by_date_rows _ _ _ df s e Hne).
    apply filter_none. intros r _.
    destruct (instant_of (instants df) r) as [x|]; simpl; [|reflexivity].
    destruct (Z.leb_spec s x), (Z.leb_spec x e); simpl; try reflexivity; lia.
Qed.

End PandasMore.

Lemma resolve_date_range_default_start_witness :
  truthy (Some EmptyString) = None
  /\ resolve_date_range sample_to_datetime 1700000000000000000%Z (Some EmptyString) None
     = inr (1697414400000000000%Z, 1700006399000000000%Z)
  /\ 1697414400000000000%Z
     = normalize (1700006399000000000 - Timedelta_days 29)%Z.
Proof.
  assert (Hrange : resolve_date_range sample_to_datetime 1700000000000000000%Z
                                      (Some EmptyString) None
                   = inr (1697414400000000000%Z, 1700006399000000000%Z))
    by (vm_compute; reflexivity).
  split; [reflexivity|]. split; [exact Hrange|].
  exact (proj1 (resolve_date_range_default_start
                  sample_to_datetime 1700000000000000000%Z (Some EmptyString) None
                  1697414400000000000%Z 1700006399000000000%Z eq_refl Hrange)).
Defined.

(* ================================================================== *)
(** * The aggregator, further *)

(** X8. [count_askai_by_account] returns a two-column count table with one
    row per trimmed, lower-cased account identity that has at least one
    ask-AI event, holding the number of its events, no account twice.  The
    table has no row when the account field cannot be resolved. *)
Theorem count_askai_by_account_counts (askai_df : DataFrame) :
  let grouped := count_askai_by_account askai_df in
  columns grouped = ["account"; "count"]
  /\ (_find_first_column askai_df ACCOUNT_ALIASES = None -> rows grouped = [])
  /\ NoDup (getitem grouped "account")
  /\ (forall r, In r (rows grouped) ->
        exists a,
          cell r "account" = VStr a
          /\ cell r "count" = VNum (Z.of_nat (List.length (askai_events askai_df a)))
          /\ 0 < List.length (askai_events askai_df a))
  /\ (forall a, 0 < List.length (askai_events askai_df a) ->
        exists r, In r (rows grouped) /\ cell r "account" = VStr a).
Proof.
  intros grouped.
  pose proof (count_askai_table askai_df) as Htab.
  split; [exact (proj1 Htab)|].
  split; [|exact (counts_table_rows _ _ Htab)].
  unfold grouped, count_askai_by_account. intros H. rewrite H.
  now destruct (df_empty askai_df).
Qed.

Lemma grouped_pairs (df : DataFrame) (account_col : string) :
  In account_col ACCOUNT_ALIASES ->
  count_pairs (rename (groupby_size df account_col "count") account_col "account")
  = map (fun kn : Value * nat => (fst kn, VNum (Z.of_nat (snd kn))))
        (stable_sort (fun a b => value_leb (fst a) (fst b))
                     (value_counts (filter (fun v => negb (isna v))
                                           (getitem df account_col)))).
Proof.
  intros Hac. pose proof (account_alias_not_count _ Hac) as Hcount.
  unfold groupby_size, rename, count_pairs. cbn [rows].
  rewrite !map_map. apply map_ext. intros [k n].
  cbn [cell row_of_dict dict_get fst snd].
  rewrite !String.eqb_refl, Hcount. reflexivity.
Qed.

Lemma usage_keys (usage_df : DataFrame) (usage_types : list string) (ac uc : string) :
  String.eqb uc ac = false ->
  let df_norm :=
    setitem usage_df ac (map (fun v => VStr (normalize_account v)) (getitem usage_df ac)) in
  let subset := df_loc df_norm (map (isin usage_types) (getitem df_norm uc)) in
  filter (fun v => negb (isna v)) (getitem subset ac)
  = map (fun e => VStr (normalize_account (cell e ac)))
        (filter (fun e => isin usage_types (cell e uc)) (rows usage_df)).
Proof.
  intros Hneq df_norm subset.
  unfold getitem at 1. unfold subset. rewrite df_loc_map_rows. unfold df_norm.
  rewrite setitem_map_rows.
  rewrite (filter_map_comm _ (fun r => isin usage_types (cell r uc))), map_map.
  cbn [cell row_set]. rewrite Hneq, String.eqb_refl.
  apply filter_all.
  intros v Hv. apply in_map_iff in Hv. destruct Hv as [e [<- _]]. reflexivity.
Qed.

Lemma askai_keys (askai_df : DataFrame) (ac : string) :
  let df_norm :=
    setitem askai_df ac (map (fun v => VStr (normalize_account v)) (getitem askai_df ac)) in
  filter (fun v => negb (isna v)) (getitem df_norm ac)
  = map (fun e => VStr (normalize_account (cell e ac))) (rows askai_df).
Proof.
  cbv zeta. unfold getitem at 1. rewrite setitem_map_rows, map_map.
  cbn [cell row_set]. rewrite String.eqb_refl.
  apply filter_all.
  intros v Hv. apply in_map_iff in Hv. destruct Hv as [e [<- _]]. reflexivity.
Qed.

(** The keys a count table is made from: the normalised accounts of the
    counted events, event by event. *)
Lemma count_usage_pairs (usage_df : DataFrame) (usage_types : list string) :
  exists keys : list Value,
    count_pairs (count_usage_by_account usage_df usage_types)
    = map (fun kn : Value * nat => (fst kn, VNum (Z.of_nat (snd kn))))
          (stable_sort (fun a b => value_leb (fst a) (fst b)) (value_counts keys))
    /\ List.length keys = List.length (accepted_events usage_df usage_types)
    /\ forall k, In k keys -> exists a, k = VStr a.
Proof.
  unfold count_usage_by_account, accepted_events.
  destruct (df_empty usage_df || is_nil usage_types) eqn:Hguard.
  { exists []. split; [reflexivity|]. split; [|intros k []].
    destruct (_find_first_column usage_df ACCOUNT_ALIASES) as [ac|] eqn:Hac; [|reflexivity].
    destruct (_find_first_column usage_df USAGE_TYPE_ALIASES) as [uc|]; [|reflexivity].
    apply orb_true_iff in Hguard. destruct Hguard as [H|H].
    - unfold df_empty in H. destruct (rows usage_df) eqn:Hr; [reflexivity|].
      destruct (columns usage_df) eqn:Hc; [|discriminate].
      now rewrite (find_first_column_no_columns usage_df ACCOUNT_ALIASES Hc) in Hac.
    - destruct usage_types; [|discriminate].
      rewrite filter_none; [reflexivity|]. intros e _. now destruct (cell e uc). }
  destruct (_find_first_column usage_df ACCOUNT_ALIASES) as [ac|] eqn:Hac;
    [|exists []; split; [reflexivity|]; split; [reflexivity | intros k []]].
  destruct (_find_first_column usage_df USAGE_TYPE_ALIASES) as [uc|] eqn:Huc;
    [|exists []; split; [reflexivity|]; split; [reflexivity | intros k []]].
  apply find_first_column_some in Hac, Huc. destruct Hac as [Hac _], Huc as [Huc _].
  pose proof (account_alias_not_usage_type _ _ Hac Huc) as Hneq.
  exists (map (fun e => VStr (normalize_account (cell e ac)))
              (filter (fun e => isin usage_types (cell e uc)) (rows usage_df))).
  split; [|split].
  - rewrite (grouped_pairs _ ac Hac). now rewrite (usage_keys usage_df usage_types ac uc Hneq).
  - apply length_map.
  - intros k Hk. apply in_map_iff in Hk. destruct Hk as [e [<- _]]. eexists. reflexivity.
Qed.

Lemma count_askai_pairs (askai_df : DataFrame) :
  exists keys : list Value,
    count_pairs (count_askai_by_account askai_df)
    = map (fun kn : Value * nat => (fst kn, VNum (Z.of_nat (snd kn))))
          (stable_sort (fun a b => value_leb (fst a) (fst b)) (value_counts keys))
    /\ List.length keys = List.length (counted_askai askai_df)
    /\ forall k, In k keys -> exists a, k = VStr a.
Proof.
  unfold count_askai_by_account, counted_askai.
  destruct (_find_first_column askai_df ACCOUNT_ALIASES) as [ac|] eqn:Hac.
  - destruct (df_empty askai_df) eqn:He.
    + exists []. split; [reflexivity|]. split; [|intros k []].
      unfold df_empty in He. destruct (rows askai_df) eqn:Hr; [reflexivity|].
      destruct (columns askai_df) eqn:Hc; [|discriminate].
      now rewrite (find_first_column_no_columns askai_df ACCOUNT_ALIASES Hc) in Hac.
    + apply find_first_column_some in Hac. destruct Hac as [Hac _].
      exists (map (fun e => VStr (normalize_account (cell e ac))) (rows askai_df)).
      split; [|split].
      * rewrite (grouped_pairs _ ac Hac). now rewrite (askai_keys askai_df ac).
      * apply length_map.
      * intros k Hk. apply in_map_iff in Hk. destruct Hk as [e [<- _]].
        eexists. reflexivity.
  - exists []. split; [|split; [reflexivity | intros k []]].
    now destruct (df_empty askai_df).
Qed.

Lemma tally_sum (k : Value) (t : list (Value * nat)) :
  list_sum (map snd (tally k t)) = S (list_sum (map snd t)).
Proof.
  induction t as [|[k' n] t IH]; simpl; [reflexivity|].
  destruct (value_eqb k k'); simpl; [reflexivity | rewrite IH; lia].
Qed.

Lemma value_counts_sum (keys : list Value) :
  list_sum (map snd (value_counts keys)) = List.length keys.
Proof.
  induction keys as [|k keys IH]; simpl; [reflexivity|].
  now rewrite tally_sum, IH.
Qed.

Lemma list_sum_perm (l l' : list nat) : Permutation l l' -> list_sum l = list_sum l'.
Proof.
  induction 1; simpl; lia.
Qed.

Lemma sum_counts_pairs (g : DataFrame) (groups : list (Value * nat)) :
  count_pairs g = map (fun kn : Value * nat => (fst kn, VNum (Z.of_nat (snd kn)))) groups ->
  sum_counts g = Z.of_nat (list_sum (map snd groups)).
Proof.
  unfold sum_counts, count_pairs. generalize (rows g). intros l. revert groups.
  induction l as [|r l IH]; intros [|[k n] groups] H; simpl in *; try discriminate.
  - reflexivity.
  - inversion H as [[Ha Hc Hl]]. rewrite Hc, (IH _ Hl). lia.
Qed.

Lemma sum_counts_groups (g : DataFrame) (keys : list Value) :
  count_pairs g
  = map (fun kn : Value * nat => (fst kn, VNum (Z.of_nat (snd kn))))
        (stable_sort (fun a b => value_leb (fst a) (fst b)) (value_counts keys)) ->
  sum_counts g = Z.of_nat (List.length keys).
Proof.
  intros H. rewrite (sum_counts_pairs _ _ H). f_equal.
  rewrite <- (value_counts_sum keys). symmetry.
  apply list_sum_perm, Permutation_map, stable_sort_perm.
Qed.

(** X9. No counted event is lost or counted twice: the counts of a usage
    count table add up to the number of events whose usage type is accepted,
    and the counts of the ask-AI count table add up to the number of ask-AI
    events (to zero when a field cannot be resolved).  Every counted event
    is counted in the row of its normalised account; an event with a null
    account is counted too, in the row of the normalised text of the null
    ("nan" or "None"). *)
Theorem counts_add_up (usage_df askai_df : DataFrame) (usage_types : list string) :
  sum_counts (count_usage_by_account usage_df usage_types)
  = Z.of_nat (List.length (accepted_events usage_df usage_types))
  /\ sum_counts (count_askai_by_account askai_df)
     = Z.of_nat (List.length (counted_askai askai_df))
  /\ (forall account_col e,
         _find_first_column usage_df ACCOUNT_ALIASES = Some account_col ->
         In e (accepted_events usage_df usage_types) ->
         exists r,
           In r (rows (count_usage_by_account usage_df usage_types))
           /\ cell r "account" = VStr (normalize_account (cell e account_col)))
  /\ (forall account_col e,
         _find_first_column askai_df ACCOUNT_ALIASES = Some account_col ->
         In e (counted_askai askai_df) ->
         exists r,
           In r (rows (count_askai_by_account askai_df))
           /\ cell r "account" = VStr (normalize_account (cell e account_col)))
  /\ normalize_account VNaN = str_lower (str_strip "nan")
  /\ normalize_account VNone = str_lower (str_strip "None").
Proof.
  split; [|split; [|split; [|split; [|split; reflexivity]]]].
  - destruct (count_usage_pairs usage_df usage_types) as [keys [Hp [Hl _]]].
    now rewrite (sum_counts_groups _ _ Hp), Hl.
  - destruct (count_askai_pairs askai_df) as [keys [Hp [Hl _]]].
    now rewrite (sum_counts_groups _ _ Hp), Hl.
  - intros account_col e Hac He.
    apply (proj2 (proj2 (counts_table_rows _ _ (count_usage_table usage_df usage_types)))).
    unfold accepted_events in He. unfold usage_events. rewrite Hac in He |- *.
    destruct (_find_first_column usage_df USAGE_TYPE_ALIASES) as [uc|]; [|destruct He].
    apply filter_In in He. destruct He as [Hin Hisin].
    assert (Hmem : In e (filter (fun e0 => String.eqb (normalize_account (cell e0 account_col))
                                                      (normalize_account (cell e account_col))
                                           && isin usage_types (cell e0 uc))
                                (rows usage_df))).
    { apply filter_In. split; [assumption|]. now rewrite String.eqb_refl, Hisin. }
    destruct (filter _ (rows usage_df)); [destruct Hmem | simpl; lia].
  - intros account_col e Hac He.
    apply (proj2 (proj2 (counts_table_rows _ _ (count_askai_table askai_df)))).
    unfold counted_askai in He. unfold askai_events. rewrite Hac in He |- *.
    assert (Hmem : In e (filter (fun e0 => String.eqb (normalize_account (cell e0 account_col))
                                                      (normalize_account (cell e account_col)))
                                (rows askai_df))).
    { apply filter_In. split; [assumption|]. apply String.eqb_refl. }
    destruct (filter _ (rows askai_df)); [destruct Hmem | simpl; lia].
Qed.

Lemma occurrences_pos_in (v : Value) (keys : list Value) :
  0 < occurrences v keys -> In v keys.
Proof.
  unfold occurrences. intros H.
  destruct (filter (value_eqb v) keys) as [|x l] eqn:Hf; [simpl in H; lia|].
  assert (Hx : In x (filter (value_eqb v) keys)) by (rewrite Hf; now left).
  apply filter_In in Hx. destruct Hx as [Hin He].
  apply value_eqb_eq in He. now subst.
Qed.

Lemma strictly_sorted (l : list Value) :
  StronglySorted (fun a b => value_leb a b = true) l ->
  NoDup l ->
  (forall v, In v l -> isna v = false) ->
  StronglySorted (fun a b => value_compare a b = Lt) l.
Proof.
  induction 1 as [|x l Hs IH Hall]; intros Hnd Hna; constructor.
  - inversion Hnd; subst. apply IH; [assumption|]. intros v Hv. apply Hna. now right.
  - inversion Hnd as [|? ? Hnotin _]; subst.
    rewrite Forall_forall in *. intros y Hy.
    specialize (Hall y Hy). unfold value_leb in Hall.
    destruct (value_compare x y) eqn:Hc; [|reflexivity|discriminate].
    apply value_compare_eq in Hc. destruct Hc as [->|[Hx _]]; [contradiction|].
    rewrite Hna in Hx by now left. discriminate.
Qed.

Lemma account_column_pairs (g : DataFrame) (groups : list (Value * nat)) :
  count_pairs g = map (fun kn : Value * nat => (fst kn, VNum (Z.of_nat (snd kn)))) groups ->
  getitem g "account" = map fst groups.
Proof.
  intros H. apply (f_equal (map fst)) in H. unfold count_pairs in H.
  rewrite !map_map in H. exact H.
Qed.

Lemma groups_ascending (g : DataFrame) (keys : list Value) :
  count_pairs g
  = map (fun kn : Value * nat => (fst kn, VNum (Z.of_nat (snd kn))))
        (stable_sort (fun a b => value_leb (fst a) (fst b)) (value_counts keys)) ->
  (forall k, In k keys -> exists a, k = VStr a) ->
  StronglySorted (fun a b => value_compare a b = Lt) (getitem g "account").
Proof.
  intros Hp Hkeys. rewrite (account_column_pairs _ _ Hp).
  rewrite (stable_sort_map _ value_leb fst) by reflexivity.
  apply strictly_sorted.
  - apply stable_sort_sorted; [apply value_leb_total | apply value_leb_trans].
  - eapply Permutation_NoDup; [apply stable_sort_perm | apply value_counts_NoDup].
  - intros v Hv. apply stable_sort_in in Hv. apply in_map_iff in Hv.
    destruct Hv as [[k n] [<- Hin]]. apply value_counts_In in Hin.
    destruct Hin as [-> Hpos]. apply occurrences_pos_in in Hpos.
    destruct (Hkeys _ Hpos) as [a ->]. reflexivity.
Qed.

(** X10. Both count tables list their accounts in strictly increasing order
    of the account text (the order of [groupby]), whatever the order of the
    events. *)
Theorem count_tables_ascending (usage_df askai_df : DataFrame) (usage_types : list string) :
  StronglySorted (fun a b => value_compare a b = Lt)
                 (getitem (count_usage_by_account usage_df usage_types) "account")
  /\ StronglySorted (fun a b => value_compare a b = Lt)
                    (getitem (count_askai_by_account askai_df) "account").
Proof.
  split.
  - destruct (count_usage_pairs usage_df usage_types) as [keys [Hp [_ Hk]]].
    exact (groups_ascending _ _ Hp Hk).
  - destruct (count_askai_pairs askai_df) as [keys [Hp [_ Hk]]].
    exact (groups_ascending _ _ Hp Hk).
Qed.

(* ================================================================== *)
(** * The report over the event frames *)

Lemma find_first_column_columns (df df' : DataFrame) (candidates : list string) :
  columns df = columns df' ->
  _find_first_column df candidates = _find_first_column df' candidates.
Proof.
  intros H. unfold _find_first_column.
  induction candidates as [|c candidates IH]; simpl; [reflexivity|].
  unfold in_columns at 1 3. rewrite H, IH. reflexivity.
Qed.

Lemma cells_map_filter {B : Type} (f : (string -> Value) -> B) (p : (string -> Value) -> bool)
  (l l' : list Row) :
  map cell l = map cell l' ->
  map (fun e => f (cell e)) (filter (fun e => p (cell e)) l)
  = map (fun e => f (cell e)) (filter (fun e => p (cell e)) l').
Proof.
  revert l'. induction l as [|x l IH]; intros [|y l'] H; simpl in *; try discriminate.
  - reflexivity.
  - inversion H as [[Hxy Hl]]. rewrite Hxy.
    destruct (p (cell y)); simpl; [rewrite Hxy; f_equal|]; now apply IH.
Qed.

Lemma count_usage_same_cells (usage_df usage_df' : DataFrame) (usage_types : list string) :
  columns usage_df = columns usage_df' ->
  df_empty usage_df = df_empty usage_df' ->
  map cell (rows usage_df) = map cell (rows usage_df') ->
  count_usage_by_account usage_df usage_types = count_usage_by_account usage_df' usage_types.
Proof.
  intros Hc He Hr. unfold count_usage_by_account. rewrite <- He.
  rewrite <- !(find_first_column_columns usage_df usage_df' _ Hc).
  destruct (df_empty usage_df || is_nil usage_types); [reflexivity|].
  destruct (_find_first_column usage_df ACCOUNT_ALIASES) as [ac|] eqn:Hac; [|reflexivity].
  destruct (_find_first_column usage_df USAGE_TYPE_ALIASES) as [uc|] eqn:Huc; [|reflexivity].
  apply find_first_column_some in Hac, Huc. destruct Hac as [Hac _], Huc as [Huc _].
  pose proof (account_alias_not_usage_type _ _ Hac Huc) as Hneq.
  cbv zeta. unfold groupby_size.
  pose proof (usage_keys usage_df usage_types ac uc Hneq) as H1.
  pose proof (usage_keys usage_df' usage_types ac uc Hneq) as H2.
  cbv zeta in H1, H2. rewrite H1, H2.
  pose proof (cells_map_filter (fun c => VStr (normalize_account (c ac)))
                               (fun c => isin usage_types (c uc)) _ _ Hr) as H3.
  cbv beta in H3. now rewrite H3.
Qed.

Lemma count_askai_same_cells (askai_df askai_df' : DataFrame) :
  columns askai_df = columns askai_df' ->
  df_empty askai_df = df_empty askai_df' ->
  map cell (rows askai_df) = map cell (rows askai_df') ->
  count_askai_by_account askai_df = count_askai_by_account askai_df'.
Proof.
  intros Hc He Hr. unfold count_askai_by_account. rewrite <- He.
  rewrite <- !(find_first_column_columns askai_df askai_df' _ Hc).
  destruct (df_empty askai_df); [reflexivity|].
  destruct (_find_first_column askai_df ACCOUNT_ALIASES) as [ac|] eqn:Hac; [|reflexivity].
  cbv zeta. unfold groupby_size.
  pose proof (askai_keys askai_df ac) as H1.
  pose proof (askai_keys askai_df' ac) as H2.
  cbv zeta in H1, H2. rewrite H1, H2.
  rewrite <- !(map_map cell (fun c => VStr (normalize_account (c ac)))).
  now rewrite Hr.
Qed.

Lemma merge_metrics_ext (report usage_df usage_df' askai_df askai_df' : DataFrame) :
  (forall usage_types,
      count_usage_by_account usage_df usage_types
      = count_usage_by_account usage_df' usage_types) ->
  count_askai_by_account askai_df = count_askai_by_account askai_df' ->
  merge_metrics report usage_df askai_df = merge_metrics report usage_df' askai_df'.
Proof.
  intros Hu Hk. unfold merge_metrics. rewrite Hk. f_equal.
  revert report. generalize METRICS_USAGE_TYPE_MAP.
  intros metrics. induction metrics as [|m metrics IH]; intros report; simpl; [reflexivity|].
  now rewrite Hu, IH.
Qed.

Lemma filter_perm {A : Type} (p : A -> bool) (l l' : list A) :
  Permutation l l' -> Permutation (filter p l) (filter p l').
Proof.
  induction 1 as [|x l l' H IH|x y l|l l' l'' H1 IH1 H2 IH2]; simpl.
  - constructor.
  - destruct (p x); [now constructor | assumption].
  - destruct (p x), (p y); try reflexivity. apply perm_swap.
  - now transitivity (filter p l').
Qed.

Lemma metric_events_perm (usage_df usage_df' askai_df askai_df' : DataFrame)
  (col a : string) :
  columns usage_df = columns usage_df' -> Permutation (rows usage_df) (rows usage_df') ->
  columns askai_df = columns askai_df' -> Permutation (rows askai_df) (rows askai_df') ->
  List.length (metric_events usage_df askai_df col a)
  = List.length (metric_events usage_df' askai_df' col a).
Proof.
  intros Hcu Hpu Hck Hpk. unfold metric_events, usage_events, askai_events.
  rewrite <- !(find_first_column_columns usage_df usage_df' _ Hcu).
  rewrite <- !(find_first_column_columns askai_df askai_df' _ Hck).
  destruct (assoc col METRICS_USAGE_TYPE_MAP).
  - destruct (_find_first_column usage_df ACCOUNT_ALIASES); [|reflexivity].
    destruct (_find_first_column usage_df USAGE_TYPE_ALIASES); [|reflexivity].
    now apply Permutation_length, filter_perm.
  - destruct (String.eqb col "AskAI Questions"); [|reflexivity].
    destruct (_find_first_column askai_df ACCOUNT_ALIASES); [|reflexivity].
    now apply Permutation_length, filter_perm.
Qed.

(** X13. The report does not depend on the order of the events: two usage
    tables, and two ask-AI tables, with the same columns and the same rows
    in any order give the same report, row by row. *)
Theorem report_ignores_event_order
  (accounts_df usage_df askai_df usage_df' askai_df' : DataFrame) :
  columns usage_df = columns usage_df' ->
  Permutation (rows usage_df) (rows usage_df') ->
  columns askai_df = columns askai_df' ->
  Permutation (rows askai_df) (rows askai_df') ->
  columns (build_report_dataframe accounts_df usage_df askai_df)
  = columns (build_report_dataframe accounts_df usage_df' askai_df')
  /\ to_records (build_report_dataframe accounts_df usage_df askai_df)
     = to_records (build_report_dataframe accounts_df usage_df' askai_df').
Proof.
  intros Hcu Hpu Hck Hpk.
  destruct (build_report_records accounts_df usage_df askai_df) as [Hc Hr].
  destruct (build_report_records accounts_df usage_df' askai_df') as [Hc' Hr'].
  split; [congruence|]. rewrite Hr, Hr'. f_equal.
  apply map_ext. intros p. unfold report_record. do 2 f_equal.
  apply map_ext. intros col.
  now rewrite (metric_events_perm usage_df usage_df' askai_df askai_df' col _ Hcu Hpu Hck Hpk).
Qed.

Section ReportOverEvents.

Variable to_numeric : Value -> option Q.
Variable to_datetime_unit : TimeUnit -> Q -> option Instant.
Variable to_datetime : Value -> option Instant.

Local Abbreviation coerce := (coerce_created_at to_numeric to_datetime_unit to_datetime).
Local Abbreviation date_filter := (filter_by_date to_numeric to_datetime_unit to_datetime).
Local Abbreviation instants := (with_instants to_numeric to_datetime_unit to_datetime).

Lemma coerce_created_at_same (df : DataFrame) :
  columns (coerce df) = columns df
  /\ df_empty (coerce df) = df_empty df
  /\ map cell (rows (coerce df)) = map cell (rows df).
Proof.
  destruct (df_empty df) eqn:He.
  { assert (H : coerce df = df) by (unfold coerce_created_at; now rewrite He).
    rewrite !H. auto. }
  destruct (_find_first_column df CREATED_AT_ALIASES) as [c|] eqn:Hc.
  2:{ rewrite !(coerce_created_at_unresolved _ _ _ df Hc). auto. }
  rewrite (coerce_created_at_resolved _ _ _ df c He Hc).
  assert (Hlen : List.length (coerced_instants to_numeric to_datetime_unit to_datetime
                                               (getitem df c))
                 = List.length (rows df)).
  { rewrite coerced_instants_length. unfold getitem. apply length_map. }
  split; [reflexivity|]. split.
  - now apply df_empty_set_createdAt_dt.
  - now apply cells_set_createdAt_dt.
Qed.

(** X12. Without the date filter the instants play no part: the report over
    the coerced event tables is the report over the tables as fetched, so
    timestamps that cannot be read cost no event. *)
Theorem report_without_date_filter (accounts_df usage_df askai_df : DataFrame) :
  build_report_dataframe accounts_df (coerce usage_df) (coerce askai_df)
  = build_report_dataframe accounts_df usage_df askai_df.
Proof.
  destruct (coerce_created_at_same usage_df) as [Hcu [Heu Hru]].
  destruct (coerce_created_at_same askai_df) as [Hck [Hek Hrk]].
  unfold build_report_dataframe.
  rewrite (merge_metrics_ext _ (coerce usage_df) usage_df (coerce askai_df) askai_df).
  - reflexivity.
  - intros usage_types. now apply count_usage_same_cells.
  - now apply count_askai_same_cells.
Qed.

Lemma filter_by_date_empty (df : DataFrame) (s e : Instant) :
  df_empty df = true -> date_filter df s e = df /\ instants df = df.
Proof.
  intros He. split.
  - unfold filter_by_date. now rewrite He.
  - unfold with_instants, coerce_created_at. rewrite He. now destruct (has_createdAt_dt df).
Qed.

Lemma empty_no_events (df : DataFrame) (candidates : list string) :
  df_empty df = true -> rows df = [] \/ _find_first_column df candidates = None.
Proof.
  unfold df_empty. destruct (rows df); [now left|].
  destruct (columns df) eqn:Hc; [|discriminate].
  intros _. right. now apply find_first_column_no_columns.
Qed.

Lemma usage_events_filtered (df : DataFrame) (s e : Instant)
  (usage_types : list string) (a : string) :
  usage_events (date_filter df s e) usage_types a
  = filter (fun ev => within s e (instant_of (instants df) ev))
           (usage_events (instants df) usage_types a).
Proof.
  destruct (df_empty df) eqn:He.
  - destruct (filter_by_date_empty df s e He) as [-> ->].
    unfold usage_events.
    destruct (empty_no_events df ACCOUNT_ALIASES He) as [H|H]; rewrite H.
    + destruct (_find_first_column df ACCOUNT_ALIASES); [|reflexivity].
      now destruct (_find_first_column df USAGE_TYPE_ALIASES).
    + reflexivity.
  - rewrite (filter_by_date_frame _ _ _ df s e He). unfold usage_events.
    rewrite !(find_first_column_columns (mkDF _ _ _) (instants df) _ eq_refl).
    destruct (_find_first_column (instants df) ACCOUNT_ALIASES); [|reflexivity].
    destruct (_find_first_column (instants df) USAGE_TYPE_ALIASES); [|reflexivity].
    cbn [rows]. rewrite !filter_filter_andb. apply filter_ext.
    intros ev. apply andb_comm.
Qed.

Lemma askai_events_filtered (df : DataFrame) (s e : Instant) (a : string) :
  askai_events (date_filter df s e) a
  = filter (fun ev => within s e (instant_of (instants df) ev))
           (askai_events (instants df) a).
Proof.
  destruct (df_empty df) eqn:He.
  - destruct (filter_by_date_empty df s e He) as [-> ->].
    unfold askai_events.
    destruct (empty_no_events df ACCOUNT_ALIASES He) as [H|H]; rewrite H.
    + now destruct (_find_first_column df ACCOUNT_ALIASES).
    + reflexivity.
  - rewrite (filter_by_date_frame _ _ _ df s e He). unfold askai_events.
    rewrite !(find_first_column_columns (mkDF _ _ _) (instants df) _ eq_refl).
    destruct (_find_first_column (instants df) ACCOUNT_ALIASES); [|reflexivity].
    cbn [rows]. rewrite !filter_filter_andb. apply filter_ext.
    intros ev. apply andb_comm.
Qed.

(** X11. With the date filter, a metric cell of the report is the number of
    the account's matching events whose instant lies in [[start, end]], ends
    included; an event whose instant is null is never counted.  The same
    holds of the ask-AI column. *)
Theorem report_counts_events_in_window
  (accounts_df usage_df askai_df : DataFrame) (start_dt end_dt : Instant) :
  let report :=
    build_report_dataframe accounts_df (date_filter usage_df start_dt end_dt)
                           (date_filter askai_df start_dt end_dt) in
  let in_window (df : DataFrame) (ev : Row) :=
    within start_dt end_dt (instant_of (instants df) ev) in
  (forall df ev, instant_of (instants df) ev = None -> in_window df ev = false)
  /\ (forall r metric usage_types,
         In r (rows report) -> In (metric, usage_types) METRICS_USAGE_TYPE_MAP ->
         exists a,
           cell r "Account" = VStr a
           /\ cell r metric
              = VNum (Z.of_nat (List.length
                                  (filter (in_window usage_df)
                                          (usage_events (instants usage_df) usage_types a)))))
  /\ (forall r, In r (rows report) ->
         exists a,
           cell r "Account" = VStr a
           /\ cell r "AskAI Questions"
              = VNum (Z.of_nat (List.length
                                  (filter (in_window askai_df)
                                          (askai_events (instants askai_df) a))))).
Proof.
  intros report in_window. split; [|split].
  - intros df ev H. unfold in_window. now rewrite H.
  - intros r metric usage_types Hr Hm.
    assert (Hcol : In metric columns_to_fill /\
                   assoc metric METRICS_USAGE_TYPE_MAP = Some usage_types).
    { cbn in Hm. repeat (destruct Hm as [Hm|Hm]; [inversion Hm; subst; cbn; tauto|]).
      contradiction. }
    destruct Hcol as [Hcol Hassoc].
    destruct (report_metric_cell _ _ _ r metric Hr Hcol) as [a [Hacc Hcell]].
    exists a. split; [assumption|]. rewrite Hcell.
    unfold metric_events. rewrite Hassoc. now rewrite usage_events_filtered.
  - intros r Hr.
    assert (Hcol : In "AskAI Questions" columns_to_fill) by (cbn; tauto).
    destruct (report_metric_cell _ _ _ r "AskAI Questions" Hr Hcol) as [a [Hacc Hcell]].
    exists a. split; [assumption|]. rewrite Hcell.
    change (metric_events (date_filter usage_df start_dt end_dt)
                          (date_filter askai_df start_dt end_dt) "AskAI Questions" a)
      with (askai_events (date_filter askai_df start_dt end_dt) a).
    now rewrite askai_events_filtered.
Qed.

End ReportOverEvents.

(* ================================================================== *)
(** * The paginated scan *)

Lemma scan_pages_serves (scan : option Item -> Result ScanResponse)
  (pages : list (list Item)) :
  forall (fuel : nat) (start : option Item) (items : list Item),
    serves scan start pages ->
    scan_pages fuel scan start items
    = if (List.length pages <=? fuel)%nat then Some (inr (items ++ List.concat pages)) else None.
Proof.
  induction pages as [|page rest IH]; intros fuel start items H; [destruct H|].
  destruct rest as [|page' rest].
  - destruct H as [last [Hs Hlast]]. destruct fuel as [|fuel]; [reflexivity|].
    cbn [scan_pages List.length Nat.leb]. rewrite Hs. cbn [Items LastEvaluatedKey List.concat].
    rewrite app_nil_r. now destruct Hlast as [->| ->].
  - destruct H as [k [key [Hs Hrest]]]. destruct fuel as [|fuel]; [reflexivity|].
    cbn [scan_pages]. rewrite Hs. cbn [Items LastEvaluatedKey].
    rewrite (IH fuel _ _ Hrest).
    change (List.length (page :: page' :: rest) <=? S fuel)%nat
      with (List.length (page' :: rest) <=? fuel)%nat.
    destruct (List.length (page' :: rest) <=? fuel)%nat; [|reflexivity].
    cbn [List.concat]. now rewrite <- app_assoc.
Qed.

Lemma scan_pages_breaks (scan : option Item -> Result ScanResponse)
  (pages : list (list Item)) (e : Exn) :
  forall (fuel : nat) (start : option Item) (items : list Item),
    breaks scan start pages e ->
    scan_pages fuel scan start items
    = if (List.length pages <? fuel)%nat then Some (inl e) else None.
Proof.
  induction pages as [|page rest IH]; intros fuel start items H.
  - destruct fuel as [|fuel]; [reflexivity|]. cbn in H |- *. now rewrite H.
  - destruct H as [k [key [Hs Hrest]]]. destruct fuel as [|fuel]; [reflexivity|].
    cbn [scan_pages]. rewrite Hs. cbn [Items LastEvaluatedKey].
    rewrite (IH fuel _ _ Hrest). reflexivity.
Qed.

Lemma add_columns_in (ks cols : list string) (c : string) :
  In c (fold_left add_column ks cols) <-> In c cols \/ In c ks.
Proof.
  clear str_strip str_lower.
  revert cols. induction ks as [|k ks IH]; intros cols; simpl; [tauto|].
  rewrite IH. unfold add_column.
  destruct (existsb (String.eqb k) cols) eqn:He.
  - apply existsb_exists in He. destruct He as [x [Hx He]].
    apply String.eqb_eq in He. subst x.
    split; [tauto|]. intros [H|[<-|H]]; tauto.
  - rewrite in_app_iff. simpl. tauto.
Qed.

Lemma add_columns_NoDup (ks cols : list string) :
  NoDup cols -> NoDup (fold_left add_column ks cols).
Proof.
  clear str_strip str_lower.
  revert cols. induction ks as [|k ks IH]; intros cols H; simpl; [assumption|].
  apply IH. unfold add_column.
  destruct (existsb (String.eqb k) cols) eqn:He; [assumption|].
  apply NoDup_app; [assumption | repeat constructor; simpl; tauto |].
  intros x Hx [Hk|[]]. subst x.
  assert (Ht : existsb (String.eqb k) cols = true).
  { apply existsb_exists. exists k. split; [assumption | apply String.eqb_refl]. }
  congruence.
Qed.

Lemma item_columns_spec (items : list Item) :
  NoDup (item_columns items)
  /\ forall c, In c (item_columns items)
               <-> exists item, In item items /\ In c (map fst item).
Proof.
  clear str_strip str_lower.
  unfold item_columns.
  assert (H : forall cols, NoDup cols ->
              NoDup (fold_left (fun cols item => fold_left add_column (map fst item) cols)
                               items cols)
              /\ forall c,
                  In c (fold_left (fun cols item => fold_left add_column (map fst item) cols)
                                  items cols)
                  <-> In c cols \/ exists item, In item items /\ In c (map fst item)).
  { induction items as [|item items IH]; intros cols Hnd; simpl.
    - split; [assumption|]. intros c. split; [tauto|].
      intros [H|[item [[] _]]]. assumption.
    - destruct (IH _ (add_columns_NoDup (map fst item) cols Hnd)) as [Hnd' Hin].
      split; [assumption|]. intros c. rewrite Hin, add_columns_in. split.
      + intros [[H|H]|[it [Hit Hc]]]; [tauto | right; exists item; tauto
                                       | right; exists it; tauto].
      + intros [H|[it [[<-|Hit] Hc]]]; [tauto | tauto | right; exists it; tauto]. }
  destruct (H [] (NoDup_nil _)) as [Hnd Hin]. split; [assumption|].
  intros c. rewrite Hin. simpl. tauto.
Qed.

Section ScanFacts.

Variable table_scan :
  string -> string -> string -> string -> option Item -> Result ScanResponse.

Local Abbreviation fetch_table := (get_data_from_dynamodb table_scan).

(** X14. When the table is served in pages, each response carrying the key
    of the next page and the last one none, [get_data_from_dynamodb] asks for
    exactly these pages and returns the frame of all their items, in the
    order served: one row per item, a column per key that occurs in some
    item, none twice.  A table with no item gives the frame without rows and
    columns. *)
Theorem get_data_from_dynamodb_pages
  (table_name access_key secret_key region : string) (pages : list (list Item)) :
  serves (table_scan table_name access_key secret_key region) None pages ->
  (forall fuel, fuel < List.length pages ->
     fetch_table fuel table_name access_key secret_key region = None)
  /\ exists df,
      (forall fuel, List.length pages <= fuel ->
         fetch_table fuel table_name access_key secret_key region = Some (inr df))
      /\ rows df = map row_of_dict (List.concat pages)
      /\ NoDup (columns df)
      /\ (forall c, In c (columns df)
                    <-> exists item, In item (List.concat pages) /\ In c (map fst item))
      /\ (List.concat pages = [] -> df_empty df = true /\ columns df = []).
Proof.
  clear str_strip str_lower.
  intros H. unfold get_data_from_dynamodb. split.
  - intros fuel Hf. rewrite (scan_pages_serves _ pages fuel None [] H).
    destruct (Nat.leb_spec (List.length pages) fuel); [lia | reflexivity].
  - exists (if is_nil (List.concat pages) then mkDF [] false []
            else DataFrame_from_items (List.concat pages)).
    split; [|split; [|split; [|split]]].
    + intros fuel Hf. rewrite (scan_pages_serves _ pages fuel None [] H).
      destruct (Nat.leb_spec (List.length pages) fuel); [reflexivity | lia].
    + now destruct (List.concat pages).
    + destruct (List.concat pages) eqn:Hc; [constructor|].
      apply (item_columns_spec (i :: l)).
    + intros c. destruct (List.concat pages) eqn:Hc.
      * simpl. split; [tauto | intros [item [[] _]]].
      * apply (item_columns_spec (i :: l)).
    + intros ->. split; reflexivity.
Qed.

(** X15. When the scan of a page fails, [get_data_from_dynamodb] ends with
    that error, whatever the pages fetched before held: no partial frame is
    returned. *)
Theorem get_data_from_dynamodb_failure
  (table_name access_key secret_key region : string) (pages : list (list Item)) (e : Exn)
  (fuel : nat) :
  breaks (table_scan table_name access_key secret_key region) None pages e ->
  List.length pages < fuel ->
  fetch_table fuel table_name access_key secret_key region = Some (inl e).
Proof.
  intros H Hf. unfold get_data_from_dynamodb.
  rewrite (scan_pages_breaks _ pages e fuel None [] H).
  destruct (Nat.ltb_spec (List.length pages) fuel); [reflexivity | lia].
Qed.

(** X16. The loop has no bound of its own: against a scan that answers every
    request with a key for a next page, [get_data_from_dynamodb] never
    returns. *)
Theorem get_data_from_dynamodb_endless
  (table_name access_key secret_key region : string) :
  (forall start, exists page k key,
      table_scan table_name access_key secret_key region start
      = inr (mkResponse page (Some (k :: key)))) ->
  forall fuel,
    get_data_from_dynamodb table_scan fuel table_name access_key secret_key region = None.
Proof.
  intros H fuel. unfold get_data_from_dynamodb.
  assert (Hs : forall start items,
             scan_pages fuel (table_scan table_name access_key secret_key region) start items
             = None).
  { induction fuel as [|fuel IH]; intros start items; [reflexivity|].
    cbn [scan_pages]. destruct (H start) as [page [k [key ->]]].
    cbn [Items LastEvaluatedKey]. apply IH. }
  now rewrite Hs.
Qed.

End ScanFacts.

Lemma sample_table_scan_serves :
  serves (sample_table_scan TABLE_ACCOUNTS "key" "secret" "region") None
         [sample_page_1; sample_page_2].
Proof.
  exists ("account", VStr "b@x.com"), []. split; [reflexivity|].
  exists None. split; [reflexivity | now left].
Defined.

Lemma get_data_from_dynamodb_pages_witness :
  serves (sample_table_scan TABLE_ACCOUNTS "key" "secret" "region") None
         [sample_page_1; sample_page_2]
  /\ get_data_from_dynamodb sample_table_scan 1 TABLE_ACCOUNTS "key" "secret" "region"
     = None.
Proof.
  split; [exact sample_table_scan_serves|].
  exact (proj1 (get_data_from_dynamodb_pages
                  sample_table_scan TABLE_ACCOUNTS "key" "secret" "region"
                  [sample_page_1; sample_page_2] sample_table_scan_serves)
               1 (le_n 2)).
Defined.

Lemma sample_failing_scan_breaks :
  breaks (sample_failing_scan TABLE_USAGE "key" "secret" "region") None
         [sample_page_1] ClientError.
Proof.
  exists ("account", VStr "b@x.com"), []. split; reflexivity.
Defined.

Lemma get_data_from_dynamodb_failure_witness :
  breaks (sample_failing_scan TABLE_USAGE "key" "secret" "region") None
         [sample_page_1] ClientError
  /\ 1 < 2
  /\ get_data_from_dynamodb sample_failing_scan 2 TABLE_USAGE "key" "secret" "region"
     = Some (inl ClientError).
Proof.
  split; [exact sample_failing_scan_breaks|]. split; [exact (le_n 2)|].
  exact (get_data_from_dynamodb_failure
           sample_failing_scan TABLE_USAGE "key" "secret" "region"
           [sample_page_1] ClientError 2 sample_failing_scan_breaks (le_n 2)).
Defined.

Lemma get_data_from_dynamodb_endless_witness :
  (forall start, exists page k key,
      sample_endless_scan TABLE_ASKAI "key" "secret" "region" start
      = inr (mkResponse page (Some (k :: key))))
  /\ get_data_from_dynamodb sample_endless_scan 1000 TABLE_ASKAI "key" "secret" "region"
     = None.
Proof.
  assert (H : forall start, exists page k key,
             sample_endless_scan TABLE_ASKAI "key" "secret" "region" start
             = inr (mkResponse page (Some (k :: key)))).
  { intros start. exists sample_page_2, ("account", VStr "c@x.com"), []. reflexivity. }
  split; [exact H|].
  exact (get_data_from_dynamodb_endless
           sample_endless_scan TABLE_ASKAI "key" "secret" "region" H 1000).
Defined.

(* ================================================================== *)
(** * The document grid *)

Lemma docx_table_records (df : DataFrame) :
  docx_table df
  = columns df
    :: map (map (fun v => if isna v then EmptyString else astype_str v)) (to_records df).
Proof.
  unfold docx_table, to_records. f_equal. rewrite map_map. apply map_ext.
  intros row. rewrite map_map. apply map_ext. intros col.
  now destruct (isna (cell row col)).
Qed.

(** X17. The grid of the document made from a report has the ten report
    columns as its header and one line of ten cells per surviving roster
    record, in the order of the report: the account identity, the username
    (left blank when it is null, never the text of the null), then the eight
    counts as decimal numerals. *)
Theorem docx_table_of_report (accounts_df usage_df askai_df : DataFrame) :
  let report := build_report_dataframe accounts_df usage_df askai_df in
  let grid := docx_table report in
  let text := fun v => if isna v then EmptyString else astype_str v in
  grid = REPORT_COLUMNS :: map (map text) (to_records report)
  /\ List.length grid = S (List.length (surviving_roster accounts_df))
  /\ Forall (fun line => List.length line = 10) grid
  /\ (forall line, In line (tl grid) ->
        exists p,
          In p (surviving_roster accounts_df)
          /\ line
             = roster_identity accounts_df p
               :: text (roster_username accounts_df p)
               :: map (fun col =>
                         NilZero.string_of_int
                           (Z.to_int
                              (Z.of_nat
                                 (List.length
                                    (metric_events usage_df askai_df col
                                                   (roster_identity accounts_df p))))))
                      columns_to_fill).
Proof.
  intros report grid text.
  destruct (build_report_records accounts_df usage_df askai_df) as [Hcols Hrecs].
  assert (Hgrid : grid = REPORT_COLUMNS :: map (map text) (to_records report)).
  { unfold grid. rewrite docx_table_records. unfold report at 1. now rewrite Hcols. }
  assert (Hline : forall line, In line (tl grid) ->
            exists p, In p (surviving_roster accounts_df)
                      /\ line = map text (report_record accounts_df usage_df askai_df p)).
  { intros line Hl. rewrite Hgrid in Hl. cbn [tl] in Hl.
    apply in_map_iff in Hl. destruct Hl as [rec [<- Hrec]].
    unfold report in Hrec. rewrite Hrecs in Hrec. apply stable_sort_in in Hrec.
    apply in_map_iff in Hrec. destruct Hrec as [p [<- Hp]]. exists p. auto. }
  split; [exact Hgrid|]. split; [|split].
  - rewrite Hgrid. cbn [List.length]. rewrite length_map, to_records_length.
    unfold report. now rewrite report_length.
  - apply Forall_forall. intros line Hl.
    rewrite Hgrid in Hl at 1. destruct Hl as [<-|Hl]; [reflexivity|].
    destruct (Hline line) as [p [_ ->]]; [now rewrite Hgrid|].
    unfold report_record. cbn [List.length map columns_to_fill]. reflexivity.
  - intros line Hl. destruct (Hline line Hl) as [p [Hp ->]]. exists p.
    split; [assumption|]. unfold report_record. cbn [map].
    rewrite map_map. reflexivity.
Qed.

(* ================================================================== *)
(** * The Streamlit front end *)

Lemma midnight_of_date (d : Date) : normalize (to_datetime_date d) = to_datetime_date d.
Proof.
  apply normalize_mod. unfold to_datetime_date.
  rewrite (Timedelta_days_scale d). apply Z_mod_mult.
Qed.

Lemma normalize_date (t : Instant) : normalize t = to_datetime_date (date_of t).
Proof.
  unfold normalize, to_datetime_date, date_of.
  rewrite (Timedelta_days_scale (t / Timedelta_days 1)).
  pose proof (Z.div_mod t (Timedelta_days 1)) as H.
  pose proof Timedelta_day_pos. lia.
Qed.

Lemma start_of_whole_days (d : Instant) :
  normalize d = d ->
  normalize (d + Timedelta_days 1 - Timedelta_seconds 1 - Timedelta_days 29)%Z
  = (d - Timedelta_days 29)%Z.
Proof.
  intros Hd.
  replace (d + Timedelta_days 1 - Timedelta_seconds 1 - Timedelta_days 29)%Z
    with (d + (-29) * Timedelta_days 1 + (Timedelta_days 1 - Timedelta_seconds 1))%Z
    by (rewrite (Timedelta_days_scale 29); lia).
  rewrite (normalize_shift d (-29)); [rewrite (Timedelta_days_scale 29); lia | exact Hd |].
  unfold Timedelta_days, Timedelta_seconds, NS_PER_SECOND. lia.
Qed.

Section AppFacts.

Variable to_numeric : Value -> option Q.
Variable to_datetime_unit : TimeUnit -> Q -> option Instant.
Variable to_datetime : Value -> option Instant.
Variable getenv : string -> option string.
Variable fetch : string -> string -> string -> string -> Result DataFrame.
Variable now : Instant.
Variable generated_at : Instant.
Variable strftime_Ymd_date : Date -> string.
Variable str_exn : Exn -> string.
Variable xlsx_bytes : DataFrame -> Result (list Byte.byte).
Variable docx_bytes : DataFrame -> Instant -> Instant -> Instant -> Result (list Byte.byte).

Local Abbreviation date_filter := (filter_by_date to_numeric to_datetime_unit to_datetime).
Local Abbreviation date_range := (resolve_date_range to_datetime).
Local Abbreviation run_app :=
  (app to_numeric to_datetime_unit to_datetime getenv fetch now generated_at
       strftime_Ymd_date str_exn xlsx_bytes docx_bytes).

(** X18. Left untouched, the date inputs of the page select the interval the
    command line takes when no date is given: from the midnight 29 days
    before today to 23:59:59 of today.  The guard against a start after the
    end never fires on these defaults. *)
Theorem app_default_interval_is_cli_default :
  let dates := app_dates now None None in
  date_range now None None = inr (app_interval (fst dates) (snd dates))
  /\ (fst dates <= snd dates)%Z
  /\ app_interval (fst dates) (snd dates)
     = ((normalize now - Timedelta_days 29)%Z,
        (normalize now + Timedelta_days 1 - Timedelta_seconds 1)%Z).
Proof.
  cbv zeta. unfold app_dates, app_interval. cbn [fst snd].
  assert (Hstart : to_datetime_date (date_of now - 29)%Z
                   = (normalize now - Timedelta_days 29)%Z).
  { rewrite normalize_date. unfold to_datetime_date.
    rewrite (Timedelta_days_scale (date_of now - 29)%Z),
      (Timedelta_days_scale (date_of now)), (Timedelta_days_scale 29). lia. }
  split; [|split; [lia|]].
  - unfold resolve_date_range, bind, ret. cbn [truthy].
    rewrite (start_of_whole_days (normalize now) (normalize_idem now)).
    now rewrite Hstart, <- normalize_date.
  - now rewrite Hstart, <- normalize_date.
Qed.

(** X19. For the same two dates the page and the command line select the
    same interval: when the date parser reads the two strings as the
    midnights of the two dates, [resolve_date_range] on the strings returns
    the interval the page computes from the dates. *)
Theorem app_interval_is_cli_interval (start_str end_str : string) (start_date end_date : Date) :
  start_str <> EmptyString ->
  end_str <> EmptyString ->
  to_datetime (VStr start_str) = Some (to_datetime_date start_date) ->
  to_datetime (VStr end_str) = Some (to_datetime_date end_date) ->
  date_range now (Some start_str) (Some end_str) = inr (app_interval start_date end_date).
Proof.
  intros Hs He Hds Hde.
  unfold resolve_date_range, to_datetime_scalar, bind, ret, app_interval.
  destruct start_str as [|c s]; [congruence|].
  destruct end_str as [|c' s']; [congruence|].
  cbn [truthy]. now rewrite Hde, Hds.
Qed.

(** X20. What the page shows.  With a start date after the end date: the
    date error and nothing else, button or not.  With the button pressed on
    valid dates there are three outcomes.  When the credentials or a table
    cannot be read: the error and its traceback alone.  Otherwise the success
    note and the preview of the report over the events of the selected
    interval, followed, when the exporter returns, by one download button
    carrying the bytes it returned for that very report, and, when the
    exporter raises, by the error and its traceback without a download.  The
    export calls of the page bind their arguments: they fail only if the
    exporter's body does. *)
Theorem app_outcome (start_input end_input : option Date) (report_format : Format)
  (generate_button : bool) :
  let dates := app_dates now start_input end_input in
  let start_date := fst dates in
  let end_date := snd dates in
  let start_dt := fst (app_interval start_date end_date) in
  let end_dt := snd (app_interval start_date end_date) in
  let shown := run_app start_input end_input report_format generate_button in
  ((end_date < start_date)%Z ->
     shown = [st_error "Error: Start date must be before or on the end date."; st_stop])
  /\ ((start_date <= end_date)%Z -> generate_button = false -> shown = [])
  /\ ((start_date <= end_date)%Z -> generate_button = true ->
      (exists access_key secret_key region accounts_df usage_df_all askai_df_all,
          load_env_credentials getenv = inr (access_key, secret_key, region)
          /\ fetch TABLE_ACCOUNTS access_key secret_key region = inr accounts_df
          /\ fetch TABLE_USAGE access_key secret_key region = inr usage_df_all
          /\ fetch TABLE_ASKAI access_key secret_key region = inr askai_df_all
          /\ let report_df :=
               build_report_dataframe accounts_df
                                      (date_filter usage_df_all start_dt end_dt)
                                      (date_filter askai_df_all start_dt end_dt) in
             let exported :=
               match report_format with
               | excel => xlsx_bytes report_df
               | docx => docx_bytes report_df start_dt end_dt generated_at
               end in
             let preview := [st_success "Report generated successfully!";
                             st_subheader "Report Preview";
                             st_dataframe report_df] in
             (exists file_data label file_name mime,
                 exported = inr file_data
                 /\ shown = preview
                            ++ [st_download_button label file_data file_name mime])
             \/ (exists e,
                    exported = inl e
                    /\ shown = preview
                               ++ [st_error ("An error occurred: " ++ str_exn e)%string;
                                   st_exception e]))
      \/ (exists e,
             shown = [st_error ("An error occurred: " ++ str_exn e)%string; st_exception e]
             /\ (load_env_credentials getenv = inl e
                 \/ exists table_name access_key secret_key region,
                     fetch table_name access_key secret_key region = inl e))).
Proof.
  cbv zeta. unfold app.
  destruct (app_dates now start_input end_input) as [start_date end_date].
  cbn [fst snd].
  destruct (Z.ltb_spec end_date start_date) as [Hlt|Hle].
  { split; [reflexivity|]. split; intros; lia. }
  split; [intros; lia|]. split; [now intros _ ->|]. intros _ ->.
  unfold app_generate, app_try, app_interval. cbn [fst snd].
  destruct (load_env_credentials getenv) as [e|[[access_key secret_key] region]] eqn:Hcreds.
  { right. exists e. split; [reflexivity | now left]. }
  destruct (fetch TABLE_ACCOUNTS access_key secret_key region) as [e|accounts_df] eqn:Ha.
  { right. exists e. split; [reflexivity|]. right. eauto. }
  destruct (fetch TABLE_USAGE access_key secret_key region) as [e|usage_df_all] eqn:Hu.
  { right. exists e. split; [reflexivity|]. right. eauto. }
  destruct (fetch TABLE_ASKAI access_key secret_key region) as [e|askai_df_all] eqn:Hk.
  { right. exists e. split; [reflexivity|]. right. eauto. }
  left. exists access_key, secret_key, region, accounts_df, usage_df_all, askai_df_all.
  split; [reflexivity|]. split; [exact Ha|]. split; [exact Hu|]. split; [exact Hk|].
  rewrite app_export_binds.
  destruct report_format.
  - destruct (xlsx_bytes _) as [e|file_data].
    + right. exists e. split; reflexivity.
    + left. do 4 eexists. split; reflexivity.
  - destruct (docx_bytes _ _ _ _) as [e|file_data].
    + right. exists e. split; reflexivity.
    + left. do 4 eexists. split; reflexivity.
Qed.

End AppFacts.

Lemma app_interval_is_cli_interval_witness :
  "2023-11-14" <> EmptyString
  /\ "2023-11-15" <> EmptyString
  /\ sample_to_datetime (VStr "2023-11-14") = Some (to_datetime_date 19675%Z)
  /\ sample_to_datetime (VStr "2023-11-15") = Some (to_datetime_date 19676%Z)
  /\ resolve_date_range sample_to_datetime 0%Z (Some "2023-11-14") (Some "2023-11-15")
     = inr (app_interval 19675%Z 19676%Z).
Proof.
  assert (H1 : "2023-11-14" <> EmptyString) by discriminate.
  assert (H2 : "2023-11-15" <> EmptyString) by discriminate.
  split; [exact H1|]. split; [exact H2|].
  split; [reflexivity|]. split; [reflexivity|].
  exact (app_interval_is_cli_interval sample_to_datetime 0%Z
           "2023-11-14" "2023-11-15" 19675%Z 19676%Z H1 H2 eq_refl eq_refl).
Defined.

(* ================================================================== *)
(** * Credentials and the order of failures *)

Lemma truthy_none (s : option string) :
  truthy s = None <-> s = None \/ s = Some EmptyString.
Proof.
  clear str_strip str_lower.
  destruct s as [[|c s]|]; simpl; split; intros H; try tauto; try discriminate.
  - destruct H as [H|H]; discriminate.
Qed.

Lemma truthy_some (s : option string) (v : string) :
  truthy s = Some v <-> s = Some v /\ v <> EmptyString.
Proof.
  destruct s as [[|c s]|]; simpl; split.
  - discriminate.
  - intros [H Hv]. inversion H. congruence.
  - intros H. inversion H. split; [reflexivity | discriminate].
  - intros [H _]. exact H.
  - discriminate.
  - intros [H _]. discriminate.
Qed.

(** X21. [load_env_credentials] returns the three settings exactly when each
    of the three variables is set to a non-empty string, and raises
    [RuntimeError] exactly when one of them is unset or empty. *)
Theorem load_env_credentials_spec (getenv : string -> option string) :
  (forall access_key secret_key region,
      load_env_credentials getenv = inr (access_key, secret_key, region)
      <-> (getenv "VTC_DYNAMODB_ACCESS_KEY_ID" = Some access_key
           /\ access_key <> EmptyString)
          /\ (getenv "VTC_DYNAMODB_SECRET_ACCESS_KEY" = Some secret_key
              /\ secret_key <> EmptyString)
          /\ (getenv "VTC_DYNAMODB_REGION" = Some region /\ region <> EmptyString))
  /\ (forall e,
         load_env_credentials getenv = inl e
         <-> e = RuntimeError
             /\ exists name,
                 In name ["VTC_DYNAMODB_ACCESS_KEY_ID"; "VTC_DYNAMODB_SECRET_ACCESS_KEY";
                          "VTC_DYNAMODB_REGION"]
                 /\ (getenv name = None \/ getenv name = Some EmptyString)).
Proof.
  clear str_strip str_lower.
  unfold load_env_credentials, ret, raise.
  pose proof (truthy_none (getenv "VTC_DYNAMODB_ACCESS_KEY_ID")) as Na.
  pose proof (truthy_none (getenv "VTC_DYNAMODB_SECRET_ACCESS_KEY")) as Ns.
  pose proof (truthy_none (getenv "VTC_DYNAMODB_REGION")) as Nr.
  pose proof (truthy_some (getenv "VTC_DYNAMODB_ACCESS_KEY_ID")) as Sa.
  pose proof (truthy_some (getenv "VTC_DYNAMODB_SECRET_ACCESS_KEY")) as Ss.
  pose proof (truthy_some (getenv "VTC_DYNAMODB_REGION")) as Sr.
  destruct (truthy (getenv "VTC_DYNAMODB_ACCESS_KEY_ID")) as [a|];
    destruct (truthy (getenv "VTC_DYNAMODB_SECRET_ACCESS_KEY")) as [s|];
    destruct (truthy (getenv "VTC_DYNAMODB_REGION")) as [r|].
  1:{ split.
      - intros access_key secret_key region. split.
        + intros H. inversion H; subst.
          split; [now apply Sa|]. split; [now apply Ss | now apply Sr].
        + intros [Ha [Hs Hr]].
          apply Sa in Ha. apply Ss in Hs. apply Sr in Hr. congruence.
      - intros e. split; [discriminate|].
        intros [_ [name [Hname Hmiss]]]. simpl in Hname.
        destruct Hname as [<-|[<-|[<-|[]]]].
        + apply Na in Hmiss. discriminate.
        + apply Ns in Hmiss. discriminate.
        + apply Nr in Hmiss. discriminate. }
  all: split;
    [ intros access_key secret_key region; split; [discriminate|];
      intros [Ha [Hs Hr]];
      apply Sa in Ha; apply Ss in Hs; apply Sr in Hr; discriminate
    | intros e; split;
      [ intros H; inversion H; split; [reflexivity|]
      | intros [-> _]; reflexivity ] ].
  - exists "VTC_DYNAMODB_REGION". split; [simpl; tauto | now apply Nr].
  - exists "VTC_DYNAMODB_SECRET_ACCESS_KEY". split; [simpl; tauto | now apply Ns].
  - exists "VTC_DYNAMODB_SECRET_ACCESS_KEY". split; [simpl; tauto | now apply Ns].
  - exists "VTC_DYNAMODB_ACCESS_KEY_ID". split; [simpl; tauto | now apply Na].
  - exists "VTC_DYNAMODB_ACCESS_KEY_ID". split; [simpl; tauto | now apply Na].
  - exists "VTC_DYNAMODB_ACCESS_KEY_ID". split; [simpl; tauto | now apply Na].
  - exists "VTC_DYNAMODB_ACCESS_KEY_ID". split; [simpl; tauto | now apply Na].
Qed.

Section MainOrder.

Variable to_numeric : Value -> option Q.
Variable to_datetime_unit : TimeUnit -> Q -> option Instant.
Variable to_datetime : Value -> option Instant.
Variable getenv : string -> option string.
Variable get_data_from_dynamodb : string -> string -> string -> string -> Result DataFrame.
Variable now : Instant.
Variable generated_at : Instant.
Variable strftime_Ymd : Instant -> string.
Variable str_timestamp : Instant -> string.
Variable str_int : nat -> string.
Variable str_value_counts : DataFrame -> string -> string.
Variable xlsx_bytes : DataFrame -> Result (list Byte.byte).
Variable docx_bytes : DataFrame -> Instant -> Instant -> Instant -> Result (list Byte.byte).

Local Abbreviation run_cli :=
  (main to_numeric to_datetime_unit to_datetime getenv get_data_from_dynamodb now
        generated_at strftime_Ymd str_timestamp str_int str_value_counts
        xlsx_bytes docx_bytes).
Local Abbreviation cli_range := (resolve_date_range to_datetime).

(** X22. The order in which [main] fails.  A date that cannot be read ends
    it first, then a missing credential, then the first table that cannot be
    scanned, accounts before usage before ask-AI; in each of these cases
    nothing has been printed, with or without [--debug].  Without [--debug]
    no run of [main] prints anything. *)
Theorem main_error_precedence (args : Namespace) (out : list string) :
  (forall e,
      cli_range now (start_date args) (end_date args) = inl e ->
      run_cli args out = (out, inl e))
  /\ (forall range e,
         cli_range now (start_date args) (end_date args) = inr range ->
         load_env_credentials getenv = inl e ->
         run_cli args out = (out, inl e))
  /\ (forall range access_key secret_key region,
         cli_range now (start_date args) (end_date args) = inr range ->
         load_env_credentials getenv = inr (access_key, secret_key, region) ->
         (forall e,
             get_data_from_dynamodb TABLE_ACCOUNTS access_key secret_key region = inl e ->
             run_cli args out = (out, inl e))
         /\ (forall accounts_df e,
                get_data_from_dynamodb TABLE_ACCOUNTS access_key secret_key region
                = inr accounts_df ->
                get_data_from_dynamodb TABLE_USAGE access_key secret_key region = inl e ->
                run_cli args out = (out, inl e))
         /\ (forall accounts_df usage_df_all e,
                get_data_from_dynamodb TABLE_ACCOUNTS access_key secret_key region
                = inr accounts_df ->
                get_data_from_dynamodb TABLE_USAGE access_key secret_key region
                = inr usage_df_all ->
                get_data_from_dynamodb TABLE_ASKAI access_key secret_key region = inl e ->
                run_cli args out = (out, inl e)))
  /\ (debug args = false -> fst (run_cli args out) = out).
Proof.
  unfold main, main_prepare, io_bind, lift.
  destruct (cli_range now (start_date args) (end_date args)) as [e0|range] eqn:Hrange.
  { split; [intros e H; now inversion H|]. split; [discriminate|].
    split; [discriminate | reflexivity]. }
  split; [discriminate|].
  destruct (load_env_credentials getenv) as [e1|[[ak sk] rg]] eqn:Hcreds.
  { split; [intros ? e _ H; now inversion H|]. split; [discriminate | reflexivity]. }
  split; [discriminate|].
  destruct (get_data_from_dynamodb TABLE_ACCOUNTS ak sk rg) as [e2|accounts_df] eqn:Ha.
  { split; [|reflexivity]. intros ? access_key secret_key region _ H.
    inversion H; subst. rewrite Ha.
    split; [intros e He; now inversion He|]. split; discriminate. }
  destruct (get_data_from_dynamodb TABLE_USAGE ak sk rg) as [e3|usage_df_all] eqn:Hu.
  { split; [|reflexivity]. intros ? access_key secret_key region _ H.
    inversion H; subst. rewrite Ha, Hu.
    split; [discriminate|]. split; [intros ? e _ He; now inversion He | discriminate]. }
  destruct (get_data_from_dynamodb TABLE_ASKAI ak sk rg) as [e4|askai_df_all] eqn:Hk.
  { split; [|reflexivity]. intros ? access_key secret_key region _ H.
    inversion H; subst. rewrite Ha, Hu, Hk.
    split; [discriminate|]. split; [discriminate|].
    intros ? ? e _ _ He. now inversion He. }
  split.
  - intros ? access_key secret_key region _ H. inversion H; subst.
    rewrite Ha, Hu, Hk. split; [discriminate|]. split; discriminate.
  - intros Hd. rewrite Hd. unfold io_ret. cbn [fst snd].
    now rewrite main_export_raises.
Qed.

End MainOrder.

End Strings.

(* ================================================================== *)
(** * The model at work *)

(** The samples are ASCII text: the model is run with the ASCII behaviour of
    [str.strip] and [str.lower]. *)

(** The examples of the specification: [1700000000; 1700000100] are read as
    seconds, [1700000000000] as milliseconds. *)
Example coerce_seconds :
  map createdAt_dt
      (rows (coerce_created_at sample_to_numeric sample_to_datetime_unit sample_to_datetime
               (DataFrame_of_items ["createdAt"]
                  [ [("createdAt", VNum 1700000000)]; [("createdAt", VNum 1700000100)] ])))
  = [Some 1700000000000000000%Z; Some 1700000100000000000%Z].
Proof. vm_compute. reflexivity. Qed.

Example coerce_milliseconds :
  map createdAt_dt
      (rows (coerce_created_at sample_to_numeric sample_to_datetime_unit sample_to_datetime
               (DataFrame_of_items ["createdAt"] [ [("createdAt", VNum 1700000000000)] ])))
  = [Some 1700000000000000000%Z].
Proof. vm_compute. reflexivity. Qed.

(** A numeric majority silences the date strings of the column; without it
    the numbers are left to the date parser. *)
Example coerce_majority_numeric :
  map createdAt_dt
      (rows (coerce_created_at sample_to_numeric sample_to_datetime_unit sample_to_datetime
               (DataFrame_of_items ["timestamp"]
                  [ [("timestamp", VNum 1700000000)]; [("timestamp", VStr "2023-11-14")];
                    [("timestamp", VNum 1700000100)] ])))
  = [Some 1700000000000000000%Z; None; Some 1700000100000000000%Z].
Proof. vm_compute. reflexivity. Qed.

Example coerce_half_numeric :
  map createdAt_dt
      (rows (coerce_created_at sample_to_numeric sample_to_datetime_unit sample_to_datetime
               (DataFrame_of_items ["timestamp"]
                  [ [("timestamp", VNum 1700000000)]; [("timestamp", VStr "2023-11-14")] ])))
  = [None; Some 1699920000000000000%Z].
Proof. vm_compute. reflexivity. Qed.

(** The end-to-end scenario of the specification. *)
Example end_to_end :
  to_records
    (build_report_dataframe AsciiStr.strip AsciiStr.lower
       (DataFrame_of_items ["account"; "username"]
          [ [("account", VStr "a@x.com"); ("username", VStr "Alice")] ])
       (filter_by_date sample_to_numeric sample_to_datetime_unit sample_to_datetime
          (DataFrame_of_items ["account"; "usage_type"; "created_at"]
             [ [("account", VStr "A@X.com"); ("usage_type", VStr "transcript");
                ("created_at", VNum 1700000000)] ])
          1699920000000000000%Z 1700006399000000000%Z)
       (empty_frame []))
  = [ [VStr "a@x.com"; VStr "Alice"; VNum 0; VNum 0; VNum 1; VNum 0; VNum 0; VNum 0;
       VNum 0; VNum 0] ].
Proof. vm_compute. reflexivity. Qed.

(** The sample roster: the internal account is gone whatever its events, the
    event-only account never shows, the null username sorts last. *)
Example sample_report :
  to_records (build_report_dataframe AsciiStr.strip AsciiStr.lower
                                     sample_roster sample_usage sample_askai)
  = [ [VStr "a@x.com"; VStr "Alice"; VNum 0; VNum 0; VNum 2; VNum 0; VNum 0; VNum 0;
       VNum 0; VNum 0];
      [VStr "zed@x.com"; VStr "Zed"; VNum 0; VNum 0; VNum 0; VNum 0; VNum 0; VNum 0;
       VNum 1; VNum 0];
      [VStr "b@x.com"; VNaN; VNum 0; VNum 0; VNum 0; VNum 0; VNum 0; VNum 0; VNum 0;
       VNum 2] ].
Proof. vm_compute. reflexivity. Qed.

Example internal_account_with_fifty_events :
  to_records
    (build_report_dataframe AsciiStr.strip AsciiStr.lower
       (DataFrame_of_items ["email"] [ [("email", VStr "Admin@ThinkCol.com")] ])
       (DataFrame_of_items ["email"; "usage_type"]
          (repeat [("email", VStr "admin@thinkcol.com"); ("usage_type", VStr "transcript")]
                  50))
       (empty_frame []))
  = [].
Proof. vm_compute. reflexivity. Qed.

(** A roster without a username field: null usernames, rows by account. *)
Example roster_without_usernames :
  to_records
    (build_report_dataframe AsciiStr.strip AsciiStr.lower
       (DataFrame_of_items ["email"]
          [ [("email", VStr "zed@x.com")]; [("email", VStr "amy@x.com")] ])
       (empty_frame []) (empty_frame []))
  = [ [VStr "amy@x.com"; VNone; VNum 0; VNum 0; VNum 0; VNum 0; VNum 0; VNum 0; VNum 0;
       VNum 0];
      [VStr "zed@x.com"; VNone; VNum 0; VNum 0; VNum 0; VNum 0; VNum 0; VNum 0; VNum 0;
       VNum 0] ].
Proof. vm_compute. reflexivity. Qed.

(** The date boundary: the whole of 14 November 2023, its last second
    included, the first instant after it excluded. *)
Example sample_date_range :
  resolve_date_range sample_to_datetime 0%Z (Some "2023-11-14") (Some "2023-11-14")
  = inr (1699920000000000000%Z, 1700006399000000000%Z).
Proof. vm_compute. reflexivity. Qed.

Example sample_date_filter :
  map createdAt_dt
      (rows (filter_by_date sample_to_numeric sample_to_datetime_unit sample_to_datetime
               (DataFrame_of_items ["created_at"]
                  [ [("created_at", VNum 1699919999)]; [("created_at", VNum 1699920000)];
                    [("created_at", VNum 1700006399)]; [("created_at", VNum 1700006400)];
                    [("created_at", VNone)] ])
               1699920000000000000%Z 1700006399000000000%Z))
  = [Some 1699920000000000000%Z; Some 1700006399000000000%Z].
Proof. vm_compute. reflexivity. Qed.

(** A run of [main] that reaches the export step. *)
Example sample_main_run :
  main AsciiStr.strip AsciiStr.lower
       sample_to_numeric sample_to_datetime_unit sample_to_datetime sample_getenv sample_scan
       1700000000000000000%Z 1700000000000000000%Z
       (fun _ => "20231114") (fun _ => "2023-11-14")
       (fun _ => "5") (fun _ _ => "counts") (fun _ => inr []) (fun _ _ _ _ => inr [])
       (mkNamespace (Some "2023-11-14") (Some "2023-11-14") excel None false false) []
  = ([], inl TypeError).
Proof. vm_compute. reflexivity. Qed.

(* ================================================================== *)
(** * Instances of the conditional statements *)


Lemma filter_by_date_inclusive_range_witness :
  resolve_date_range sample_to_datetime 0%Z (Some "2023-11-14") (Some "2023-11-14")
  = inr (1699920000000000000%Z, 1700006399000000000%Z)
  /\ exists d,
      1700006399000000000%Z = (d + Timedelta_seconds 86399)%Z
      /\ sample_to_datetime (VStr "2023-11-14") = Some d.
Proof.
  assert (Hrange : resolve_date_range sample_to_datetime 0%Z
                                      (Some "2023-11-14") (Some "2023-11-14")
                   = inr (1699920000000000000%Z, 1700006399000000000%Z))
    by (vm_compute; reflexivity).
  split; [exact Hrange|].
  exact (proj1 (filter_by_date_inclusive_range
                  sample_to_numeric sample_to_datetime_unit sample_to_datetime
                  sample_usage 0%Z (Some "2023-11-14") (Some "2023-11-14")
                  1699920000000000000%Z 1700006399000000000%Z Hrange)).
Defined.

Lemma filter_by_date_no_timestamp_field_witness :
  has_createdAt_dt sample_askai = false
  /\ _find_first_column sample_askai CREATED_AT_ALIASES = None
  /\ df_empty (filter_by_date sample_to_numeric sample_to_datetime_unit sample_to_datetime
                              sample_askai 0%Z 1%Z) = true.
Proof.
  split; [reflexivity|]. split; [reflexivity|].
  exact (proj1 (filter_by_date_no_timestamp_field
                  sample_to_numeric sample_to_datetime_unit sample_to_datetime
                  sample_askai 0%Z 1%Z eq_refl eq_refl)).
Defined.

Lemma sample_roster_reordered_equiv : frame_equiv sample_roster sample_roster_reordered.
Proof.
  split; [reflexivity|]. split; [reflexivity|].
  repeat (apply Forall2_cons;
          [split; [intros k; cbn [cell row_of_dict dict_get];
                   destruct (String.eqb k "email") eqn:He;
                   destruct (String.eqb k "name") eqn:Hn;
                   try reflexivity;
                   apply String.eqb_eq in He; apply String.eqb_eq in Hn; congruence
                  | reflexivity]|]).
  apply Forall2_nil.
Defined.

Lemma build_report_dataframe_deterministic_witness :
  frame_equiv sample_roster sample_roster_reordered
  /\ frame_equiv sample_usage sample_usage
  /\ frame_equiv sample_askai sample_askai
  /\ to_records (build_report_dataframe AsciiStr.strip AsciiStr.lower
                                        sample_roster sample_usage sample_askai)
     = to_records (build_report_dataframe AsciiStr.strip AsciiStr.lower
                                          sample_roster_reordered sample_usage sample_askai).
Proof.
  assert (Hu : frame_equiv sample_usage sample_usage).
  { split; [reflexivity|]. split; [reflexivity|].
    repeat (apply Forall2_cons; [split; [intros k|]; reflexivity|]). apply Forall2_nil. }
  assert (Hk : frame_equiv sample_askai sample_askai).
  { split; [reflexivity|]. split; [reflexivity|].
    repeat (apply Forall2_cons; [split; [intros k|]; reflexivity|]). apply Forall2_nil. }
  split; [exact sample_roster_reordered_equiv|]. split; [exact Hu|]. split; [exact Hk|].
  exact (proj1 (proj2 (build_report_dataframe_deterministic
                         AsciiStr.strip AsciiStr.lower
                         sample_roster sample_usage sample_askai
                         sample_roster_reordered sample_usage sample_askai
                         sample_roster_reordered_equiv Hu Hk))).
Defined.

Lemma internal_accounts_excluded_any_case_witness :
  AsciiStr.lower "@ThinkCol.COM" = "@thinkcol.com"
  /\ all_space "  " = true
  /\ AsciiStr.strip (" Admin" ++ "@ThinkCol.COM" ++ "  ") = "Admin@ThinkCol.COM"
  /\ AsciiStr.lower "Admin@ThinkCol.COM" = "admin@thinkcol.com"
  /\ ~ In (VStr (normalize_account AsciiStr.strip AsciiStr.lower
                                   (VStr (" Admin" ++ "@ThinkCol.COM" ++ "  "))))
          (getitem (build_report_dataframe AsciiStr.strip AsciiStr.lower
                                           sample_roster sample_usage sample_askai)
                   "Account").
Proof.
  split; [reflexivity|]. split; [reflexivity|].
  split; [reflexivity|]. split; [reflexivity|].
  exact (proj2 (internal_accounts_excluded_any_case
                  AsciiStr.strip AsciiStr.lower
                  sample_roster sample_usage sample_askai
                  " Admin" "@ThinkCol.COM" "  " eq_refl eq_refl eq_refl eq_refl)).
Defined.

Lemma report_ignores_event_order_witness :
  Permutation (rows sample_usage) (rev (rows sample_usage))
  /\ to_records (build_report_dataframe AsciiStr.strip AsciiStr.lower
                                        sample_roster sample_usage sample_askai)
     = to_records (build_report_dataframe
                     AsciiStr.strip AsciiStr.lower
                     sample_roster
                     (mkDF (columns sample_usage) (has_createdAt_dt sample_usage)
                           (rev (rows sample_usage)))
                     sample_askai).
Proof.
  split; [apply Permutation_rev|].
  exact (proj2 (report_ignores_event_order
                  AsciiStr.strip AsciiStr.lower
                  sample_roster sample_usage sample_askai
                  (mkDF (columns sample_usage) (has_createdAt_dt sample_usage)
                        (rev (rows sample_usage)))
                  sample_askai
                  eq_refl (Permutation_rev (rows sample_usage))
                  eq_refl (Permutation_refl (rows sample_askai)))).
Defined.
